(** * Mega Project dashboard: a shallow embedding of [js/script.js]

    The development models the three routines of the script that carry
    logic (the department cache of [ApiService.fetchDepartments], the
    search filter of [Dashboard.handleSearch], the field rules of
    [LoginManager.validateField]) together with the mock login exchange of
    [ApiService.loginUser], and states their properties.

    Conventions of the embedding.
    - A JavaScript string is a Rocq [string]: a sequence of code units
      below 256 (ASCII and Latin-1). [length] counts code units, as the
      [length] property does. The display name of a session, which
      [toUpperCase] can take out of that range, is a list of UTF-16 code
      units.
    - [Date.now()] is an integer number of milliseconds, a [Z].
    - [localStorage] is a finite map from keys to the JSON values the
      script writes, together with what the browser does on access:
      [setItem] may throw (quota, storage disabled) and so may the read of
      a key ([getItem], or [JSON.parse] on a damaged entry). [JSON.stringify]
      followed by [JSON.parse] returns a structurally equal value on the
      shapes the script writes, so the map holds the values themselves.
    - An [async] function is a computation over a [World] (storage, clock,
      log of effects) that either returns or throws. *)

From Stdlib Require Import ZArith String Ascii List Bool Lia.
From stdpp Require Import base strings gmap list.

Local Open Scope string_scope.

(* ===================================================================== *)
(** ** String primitives used by the script                               *)
(* ===================================================================== *)

Module JsString.

(** The code units [String.prototype.trim] removes: TAB, LF, VT, FF, CR,
    SPACE and NO-BREAK SPACE (the white space and line terminators below
    256). *)
Definition isWhiteSpace (c : ascii) : bool :=
  let n := N_of_ascii c in
  (((9 <=? n) && (n <=? 13)) || (n =? 32) || (n =? 160))%N.

(** Upper-case letters with a lower-case partner: A-Z, and the Latin-1
    letters U+00C0-U+00DE except the multiplication sign U+00D7. *)
Definition isUpper (c : ascii) : bool :=
  let n := N_of_ascii c in
  (((65 <=? n) && (n <=? 90)) ||
   ((192 <=? n) && (n <=? 222) && negb (n =? 215)))%N.

Definition lowerChar (c : ascii) : ascii :=
  if isUpper c then ascii_of_N (N_of_ascii c + 32) else c.

Fixpoint toLowerCase (s : string) : string :=
  match s with
  | EmptyString => EmptyString
  | String c s' => String (lowerChar c) (toLowerCase s')
  end.

(** Lower-case letters whose upper-case partner is one code unit below
    256: a-z and U+00E0-U+00FE except the division sign U+00F7. *)
Definition isLower (c : ascii) : bool :=
  let n := N_of_ascii c in
  (((97 <=? n) && (n <=? 122)) ||
   ((224 <=? n) && (n <=? 254) && negb (n =? 247)))%N.

(** A string as the list of its code units. *)
Definition codeUnits (s : string) : list N := map N_of_ascii (list_ascii_of_string s).

(** [toUpperCase] of one code unit, as code units: SHARP S (U+00DF)
    becomes "SS", MICRO SIGN (U+00B5) becomes GREEK CAPITAL MU (U+039C) and
    Y WITH DIAERESIS (U+00FF) becomes U+0178. *)
Definition upperChar (c : ascii) : list N :=
  let n := N_of_ascii c in
  if isLower c then [(n - 32)%N]
  else if (n =? 223)%N then [83%N; 83%N]
  else if (n =? 181)%N then [924%N]
  else if (n =? 255)%N then [376%N]
  else [n].

Fixpoint toUpperCase (s : string) : list N :=
  match s with
  | EmptyString => []
  | String c s' => upperChar c ++ toUpperCase s'
  end.

Fixpoint trimStart (s : string) : string :=
  match s with
  | EmptyString => EmptyString
  | String c s' => if isWhiteSpace c then trimStart s' else s
  end.

Fixpoint trimEnd (s : string) : string :=
  match s with
  | EmptyString => EmptyString
  | String c s' =>
      match trimEnd s' with
      | EmptyString => if isWhiteSpace c then EmptyString
                       else String c EmptyString
      | t => String c t
      end
  end.

Definition trim (s : string) : string := trimEnd (trimStart s).

(** [s.startsWith(q)]. *)
Fixpoint startsWith (s q : string) : bool :=
  match q, s with
  | EmptyString, _ => true
  | String _ _, EmptyString => false
  | String b q', String a s' => if ascii_dec a b then startsWith s' q' else false
  end.

(** [s.includes(q)]: [q] occurs in [s] at some position. *)
Fixpoint includes (s q : string) : bool :=
  startsWith s q ||
  match s with
  | EmptyString => false
  | String _ s' => includes s' q
  end.

(** [s.charAt(0)] and [s.slice(1)]. *)
Definition charAt0 (s : string) : string :=
  match s with
  | EmptyString => EmptyString
  | String c _ => String c EmptyString
  end.

Definition slice1 (s : string) : string :=
  match s with
  | EmptyString => EmptyString
  | String _ s' => s'
  end.

(** Truthiness of a string: only the empty string is falsy. *)
Definition truthy (s : string) : bool :=
  match s with
  | EmptyString => false
  | String _ _ => true
  end.

(** A string made of white space only. *)
Fixpoint allWhiteSpace (s : string) : bool :=
  match s with
  | EmptyString => true
  | String c s' => isWhiteSpace c && allWhiteSpace s'
  end.

End JsString.

(* ===================================================================== *)
(** ** Data model                                                         *)
(* ===================================================================== *)

(** An element of [MOCK_DEPARTMENTS]. *)
Record DepartmentRecord := mkDepartment {
  dept_id : string;
  dept_name : string;
  dept_description : string;
  dept_icon : string;
  dept_color : string;
  dept_employees : Z;
  dept_active : bool
}.

(** The [userData] object built by [loginUser]. [su_lastLogin] is the
    instant of [new Date()], of which [toISOString()] is a rendering. *)
Record SessionUser := mkSessionUser {
  su_id : Z;
  su_username : string;
  su_department : string;
  su_name : list N;
  su_email : string;
  su_role : string;
  su_permissions : list string;
  su_lastLogin : Z
}.

Record Credentials := mkCredentials {
  username : string;
  password : string;
  department : string;
  rememberMe : bool
}.

(** The three shapes the script stores. *)
Inductive Stored :=
| StoredCache (data : list DepartmentRecord) (timestamp : Z)
| StoredSession (user : SessionUser)
| StoredRemember (remembered_username remembered_department : string).

(** The [localStorage] object of the browser: the entries it holds, and
    when an access throws. [setItemThrows key value] tells whether
    [setItem] refuses to write [value] under [key]; [getItemThrows key]
    whether reading [key] back throws. Writing an entry does not change
    either answer. *)
Record Storage := mkStorage {
  items : gmap string Stored;
  setItemThrows : string -> Stored -> bool;
  getItemThrows : string -> bool
}.

(** The entry under a key, writing an entry, the storage with no entry
    and the storage with one entry (these two never throw). *)
#[global] Instance Storage_lookup : Lookup string Stored Storage :=
  fun key s => items s !! key.

#[global] Instance Storage_insert : Insert string Stored Storage :=
  fun key value s =>
    mkStorage (<[key := value]> (items s)) (setItemThrows s) (getItemThrows s).

#[global] Instance Storage_empty : Empty Storage :=
  mkStorage ∅ (fun _ _ => false) (fun _ => false).

#[global] Instance Storage_singleton : SingletonM string Stored Storage :=
  fun key value => mkStorage {[ key := value ]} (fun _ _ => false) (fun _ => false).

Module CONFIG.
Module STORAGE_KEYS.
Definition DEPARTMENTS : string := "megaproject_departments".
Definition USER_SESSION : string := "megaproject_session".
Definition REMEMBER_ME : string := "megaproject_remember".
End STORAGE_KEYS.
End CONFIG.

Definition MOCK_DEPARTMENTS : list DepartmentRecord :=
  [ mkDepartment "hr" "Human Resources"
      "Manage employee relations, recruitment, and workforce development"
      "fas fa-users" "#667eea" 25 true;
    mkDepartment "finance" "Finance"
      "Financial planning, budgeting, and accounting operations"
      "fas fa-chart-line" "#f093fb" 18 true;
    mkDepartment "it" "Information Technology"
      "Technology infrastructure, development, and support services"
      "fas fa-laptop-code" "#4facfe" 32 true;
    mkDepartment "security" "Security"
      "Information security, physical security, and risk management"
      "fas fa-shield-alt" "#43e97b" 15 true;
    mkDepartment "hse" "HSE"
      "Health, Safety, and Environment management and compliance"
      "fas fa-hard-hat" "#fa709a" 20 true;
    mkDepartment "customer-service" "Customer Service"
      "Customer support, satisfaction, and relationship management"
      "fas fa-headset" "#4facfe" 35 true;
    mkDepartment "environment" "Environment"
      "Environmental protection, sustainability, and green initiatives"
      "fas fa-leaf" "#43e97b" 18 true ].

(* ===================================================================== *)
(** ** Effects: storage, clock, log; return or throw                      *)
(* ===================================================================== *)

(** What a call leaves behind, besides its result. *)
Inductive Event :=
| EvDelay (min max : Z)                  (* a [simulateApiDelay(min, max)] ran *)
| EvSetItem (key : string) (v : Stored)  (* [localStorage.setItem] *)
| EvConsoleError (label : string).       (* [console.error(label, ...)] *)

Record World := mkWorld {
  localStorage : Storage;
  clock : Z;
  trace : list Event
}.

Inductive Outcome (A : Type) :=
| Returned (a : A)
| Thrown (message : string).
Arguments Returned {A} a.
Arguments Thrown {A} message.

Definition M (A : Type) : Type := World -> Outcome A * World.

#[global] Instance M_ret : MRet M := fun A a w => (Returned a, w).

#[global] Instance M_bind : MBind M := fun A B f c w =>
  match c w with
  | (Returned a, w') => f a w'
  | (Thrown e, w') => (Thrown e, w')
  end.

(** [throw new Error(message)]. *)
Definition throw {A} (message : string) : M A := fun w => (Thrown message, w).

(** [try { body } catch (error) { handler(error.message) }]. *)
Definition tryCatch {A} (body : M A) (handler : string -> M A) : M A := fun w =>
  match body w with
  | (Returned a, w') => (Returned a, w')
  | (Thrown e, w') => handler e w'
  end.

Definition emit (e : Event) : M unit := fun w =>
  (Returned tt, mkWorld (localStorage w) (clock w) (trace w ++ [e])).

(** [Date.now()]. *)
Definition Date_now : M Z := fun w => (Returned (clock w), w).

Definition console_error (label : string) : M unit := emit (EvConsoleError label).

Module Utils.

(** [await Utils.simulateApiDelay(min, max)]: the promise always
    resolves; [elapsed] is the time that has passed when it does. *)
Definition simulateApiDelay (min max elapsed : Z) : M unit := fun w =>
  (Returned tt,
   mkWorld (localStorage w) (clock w + elapsed) (trace w ++ [EvDelay min max])).

Module storage.

(** [localStorage.setItem(key, JSON.stringify(value))]. *)
Definition setItem (key : string) (value : Stored) : M unit := fun w =>
  if setItemThrows (localStorage w) key value
  then (Thrown "QuotaExceededError", w)
  else (Returned tt,
        mkWorld (<[key := value]> (localStorage w)) (clock w)
                (trace w ++ [EvSetItem key value])).

(** [localStorage.getItem(key)] and the [JSON.parse] of what it returns;
    [None] is the missing entry. *)
Definition getItem (key : string) : M (option Stored) := fun w =>
  if getItemThrows (localStorage w) key
  then (Thrown "SyntaxError", w)
  else (Returned (localStorage w !! key), w).

(** [Utils.storage.set(key, value)]; the boolean is its return value. *)
Definition set (key : string) (value : Stored) : M bool :=
  tryCatch
    (setItem key value ;; mret true)
    (fun _ => console_error "Storage set error:" ;; mret false).

(** [Utils.storage.get(key)], with the default [null] as [None]. *)
Definition get (key : string) : M (option Stored) :=
  tryCatch
    (item ← getItem key; mret item)
    (fun _ => console_error "Storage get error:" ;; mret None).

End storage.

(** [Utils.debounce(func, wait)]. The closure keeps one timer in its
    [timeout] variable; the pair is the time the timer is due and the
    arguments [later] will pass to [func]. A call of the returned function
    and the passing of time are the two things that happen to it. *)
Inductive TimerEvent (Args : Type) :=
| Invoke (now : Z) (args : Args)   (* [executedFunction(...args)] at [now] *)
| Tick (now : Z).                  (* the event loop has reached [now] *)
Arguments Invoke {Args} now args.
Arguments Tick {Args} now.

Definition debounce {St Args : Type} (func : Args -> St -> St) (wait : Z)
    (ev : TimerEvent Args) (st : option (Z * Args) * St) : option (Z * Args) * St :=
  match ev with
  | Invoke now args => (Some ((now + wait)%Z, args), snd st)
  | Tick now =>
      match fst st with
      | Some (due, args) =>
          if (due <=? now)%Z then (None, func args (snd st)) else st
      | None => st
      end
  end.

(** A timeline of events, oldest first. *)
Definition debounceRun {St Args : Type} (func : Args -> St -> St) (wait : Z)
    (evs : list (TimerEvent Args)) (st : option (Z * Args) * St)
    : option (Z * Args) * St :=
  fold_left (fun st ev => debounce func wait ev st) evs st.

(** Regular expressions as far as [isValidEmail] needs them: a class of
    code units (a literal is a class of one), sequence, alternative and
    repetition; [Never] matches nothing and comes up only while matching. *)
Inductive RegExp :=
| Never
| Empty
| Class (accept : ascii -> bool)
| Seq (r1 r2 : RegExp)
| Alt (r1 r2 : RegExp)
| Star (r : RegExp).

(** [r+]. *)
Definition Plus (r : RegExp) : RegExp := Seq r (Star r).

(** Does [r] match the empty string? *)
Fixpoint nullable (r : RegExp) : bool :=
  match r with
  | Never => false
  | Empty => true
  | Class _ => false
  | Seq r1 r2 => nullable r1 && nullable r2
  | Alt r1 r2 => nullable r1 || nullable r2
  | Star _ => true
  end.

(** What is left of [r] after the code unit [c]. *)
Fixpoint derive (c : ascii) (r : RegExp) : RegExp :=
  match r with
  | Never => Never
  | Empty => Never
  | Class accept => if accept c then Empty else Never
  | Seq r1 r2 =>
      if nullable r1 then Alt (Seq (derive c r1) r2) (derive c r2)
      else Seq (derive c r1) r2
  | Alt r1 r2 => Alt (derive c r1) (derive c r2)
  | Star r1 => Seq (derive c r1) (Star r1)
  end.

(** [/^r$/.test(s)]. *)
Fixpoint test (r : RegExp) (s : string) : bool :=
  match s with
  | EmptyString => nullable r
  | String c s' => test (derive c r) s'
  end.

(** The class [[^\s@]] and a literal code unit. *)
Definition notSpaceNorAt (c : ascii) : bool :=
  negb (JsString.isWhiteSpace c) && (if ascii_dec c "@" then false else true).

Definition literal (a : ascii) (c : ascii) : bool :=
  if ascii_dec c a then true else false.

(** [/^[^\s@]+@[^\s@]+\.[^\s@]+$/]. *)
Definition emailRegex : RegExp :=
  Seq (Plus (Class notSpaceNorAt))
    (Seq (Class (literal "@"))
       (Seq (Plus (Class notSpaceNorAt))
          (Seq (Class (literal "."))
             (Plus (Class notSpaceNorAt))))).

Definition isValidEmail (email : string) : bool := test emailRegex email.

End Utils.

(* ===================================================================== *)
(** ** ApiService                                                         *)
(* ===================================================================== *)

Module ApiService.

(** The object returned by [fetchDepartments]; the success object has no
    [error] property. *)
Record FetchResult := mkFetchResult {
  fetch_success : bool;
  fetch_error : option string;
  fetch_data : list DepartmentRecord
}.

(** The object returned by [loginUser]; [login_data] is [None] for
    [data: null]. *)
Record LoginResult := mkLoginResult {
  login_success : bool;
  login_data : option SessionUser;
  login_message : option string;
  login_error : option string
}.

(** [5 * 60 * 1000], the freshness window in milliseconds. *)
Definition CACHE_TTL : Z := 5 * 60 * 1000.

(** [cached && cached.timestamp > now - 5 * 60 * 1000]. A stored value
    without a [timestamp] property compares as [undefined > n], which is
    false. *)
Definition isFresh (cached : option Stored) (now : Z) : option (list DepartmentRecord) :=
  match cached with
  | Some (StoredCache data timestamp) =>
      if (now - CACHE_TTL <? timestamp)%Z then Some data else None
  | _ => None
  end.

(** The simulated round trip of the script: the delay, then the mock
    list. *)
Definition mockFetch (elapsed : Z) : M (list DepartmentRecord) :=
  Utils.simulateApiDelay 500 1500 elapsed ;; mret MOCK_DEPARTMENTS.

(** [fetchDepartments], with the step between the cache check and the
    cache write as the argument [remote] (the script's comment marks it
    as the place of the real [fetch] call). *)
Definition fetchDepartmentsWith (remote : M (list DepartmentRecord)) : M FetchResult :=
  tryCatch
    (cached ← Utils.storage.get CONFIG.STORAGE_KEYS.DEPARTMENTS;
     now ← Date_now;
     match isFresh cached now with
     | Some data => mret (mkFetchResult true None data)
     | None =>
         data ← remote;
         stamp ← Date_now;
         Utils.storage.set CONFIG.STORAGE_KEYS.DEPARTMENTS (StoredCache data stamp) ;;
         mret (mkFetchResult true None data)
     end)
    (fun _ =>
       console_error "Failed to fetch departments:" ;;
       mret (mkFetchResult false
               (Some "Unable to load departments. Please try again later.") [])).

Definition fetchDepartments (elapsed : Z) : M FetchResult :=
  fetchDepartmentsWith (mockFetch elapsed).

(** [`${username.charAt(0).toUpperCase()}${username.slice(1)} User`]. *)
Definition displayName (username : string) : list N :=
  JsString.toUpperCase (JsString.charAt0 username)
  ++ JsString.codeUnits (JsString.slice1 username ++ " User").

Definition buildUser (credentials : Credentials) (now : Z) : SessionUser :=
  mkSessionUser now (username credentials) (department credentials)
    (displayName (username credentials))
    (username credentials ++ "@megaproject.com")
    "user" ["read"; "write"] now.

(** [error.message || 'Login failed. Please check your credentials.']. *)
Definition messageOrDefault (message : string) : string :=
  if JsString.truthy message then message
  else "Login failed. Please check your credentials.".

Definition loginUser (elapsed : Z) (credentials : Credentials) : M LoginResult :=
  tryCatch
    (Utils.simulateApiDelay 1000 2000 elapsed ;;
     if negb (JsString.truthy (username credentials))
        || negb (JsString.truthy (password credentials))
        || negb (JsString.truthy (department credentials))
     then throw "All fields are required"
     else if (String.length (username credentials) <? 3)%nat
     then throw "Username must be at least 3 characters"
     else if (String.length (password credentials) <? 6)%nat
     then throw "Password must be at least 6 characters"
     else
       now ← Date_now;
       let userData := buildUser credentials now in
       (if rememberMe credentials
        then Utils.storage.set CONFIG.STORAGE_KEYS.REMEMBER_ME
               (StoredRemember (username credentials) (department credentials))
        else mret true) ;;
       Utils.storage.set CONFIG.STORAGE_KEYS.USER_SESSION (StoredSession userData) ;;
       mret (mkLoginResult true (Some userData)
               (Some "Login successful! Redirecting to dashboard...") None))
    (fun message =>
       console_error "Login error:" ;;
       mret (mkLoginResult false None None (Some (messageOrDefault message)))).

End ApiService.

(* ===================================================================== *)
(** ** Dashboard                                                          *)
(* ===================================================================== *)

Module Dashboard.

(** What [renderDepartments] puts in the grid: the "No departments
    found" panel, or one card per record with its index. *)
Inductive GridView :=
| NoDepartmentsFound
| Cards (cards : list (nat * DepartmentRecord)).

(** The fields of a [Dashboard] object that [handleSearch] touches.
    [departmentsGrid] is [None] when the page has no grid element. *)
Record State := mkState {
  searchInput_value : string;
  departments : list DepartmentRecord;
  filteredDepartments : list DepartmentRecord;
  departmentsGrid : option GridView
}.

Definition renderDepartments (d : State) : State :=
  match departmentsGrid d with
  | None => d
  | Some _ =>
      mkState (searchInput_value d) (departments d) (filteredDepartments d)
        (Some (match filteredDepartments d with
               | [] => NoDepartmentsFound
               | _ => Cards (imap (fun index dept => (index, dept)) (filteredDepartments d))
               end))
  end.

(** The predicate handed to [Array.prototype.filter]. *)
Definition matchesQuery (query : string) (dept : DepartmentRecord) : bool :=
  JsString.includes (JsString.toLowerCase (dept_name dept)) query
  || JsString.includes (JsString.toLowerCase (dept_description dept)) query
  || JsString.includes (JsString.toLowerCase (dept_id dept)) query.

(** The filtering step: from the list and the raw text of the input to
    the new [filteredDepartments]. *)
Definition searchFilter (D : list DepartmentRecord) (raw : string) : list DepartmentRecord :=
  let query := JsString.trim (JsString.toLowerCase raw) in
  if String.eqb query "" then D
  else List.filter (matchesQuery query) D.

Definition handleSearch (d : State) : State :=
  renderDepartments
    (mkState (searchInput_value d) (departments d)
       (searchFilter (departments d) (searchInput_value d))
       (departmentsGrid d)).

(** The error banner: the text of its [#errorText] child ([None] when
    there is none) and whether it carries [d-none]. *)
Record ErrorBanner := mkErrorBanner {
  errorText : option string;
  banner_hidden : bool
}.

(** A [Dashboard] object with the elements [loadDepartments] touches:
    [style.display] of the spinner and the banner, [None] for an element
    the page does not have. *)
Record Page := mkPage {
  state : State;
  loadingSpinner : option string;
  errorMessage : option ErrorBanner
}.

Definition showLoading (show : bool) (p : Page) : Page :=
  mkPage (state p)
    (match loadingSpinner p with
     | Some _ => Some (if show then "block" else "none")
     | None => None
     end)
    (errorMessage p).

Definition hideError (p : Page) : Page :=
  mkPage (state p) (loadingSpinner p)
    (match errorMessage p with
     | Some b => Some (mkErrorBanner (errorText b) true)
     | None => None
     end).

Definition showError (message : string) (p : Page) : Page :=
  mkPage (state p) (loadingSpinner p)
    (match errorMessage p with
     | Some b =>
         Some (mkErrorBanner
                 (match errorText b with Some _ => Some message | None => None end)
                 false)
     | None => None
     end).

(** [loadDepartments], over the same [remote] step as
    [ApiService.fetchDepartmentsWith]. A failure result always has its
    [error] text. *)
Definition loadDepartmentsWith (remote : M (list DepartmentRecord)) (p : Page) : M Page :=
  let p1 := hideError (showLoading true p) in
  p2 ← tryCatch
         (result ← ApiService.fetchDepartmentsWith remote;
          if ApiService.fetch_success result then
            mret (mkPage
                    (renderDepartments
                       (mkState (searchInput_value (state p1))
                          (ApiService.fetch_data result)
                          (ApiService.fetch_data result)
                          (departmentsGrid (state p1))))
                    (loadingSpinner p1) (errorMessage p1))
          else
            mret (showError (default "" (ApiService.fetch_error result)) p1))
         (fun _ =>
            console_error "Error loading departments:" ;;
            mret (showError "Failed to load departments" p1));
  mret (showLoading false p2).

Definition loadDepartments (elapsed : Z) (p : Page) : M Page :=
  loadDepartmentsWith (ApiService.mockFetch elapsed) p.

(** What happens to the search box once [setupEventListeners] and the
    keyboard shortcuts of [App] are in place: an [input] event after the
    text changed, the Enter key, the Escape key ([focused] tells whether
    the box is the active element), and the passing of time. *)
Inductive UiEvent :=
| KeyInput (now : Z) (text : string)
| PressEnter
| PressEscape (now : Z) (focused : bool)
| TimerTick (now : Z).

Definition setSearchText (text : string) (d : State) : State :=
  mkState text (departments d) (filteredDepartments d) (departmentsGrid d).

(** The debounced [handleSearch] of [setupEventListeners], 300 ms. *)
Definition debouncedSearch (ev : Utils.TimerEvent unit)
    (l : option (Z * unit) * State) : option (Z * unit) * State :=
  Utils.debounce (fun _ => handleSearch) 300 ev l.

Definition onEvent (l : option (Z * unit) * State) (ev : UiEvent)
    : option (Z * unit) * State :=
  match ev with
  | KeyInput now text =>
      debouncedSearch (Utils.Invoke now tt) (fst l, setSearchText text (snd l))
  | PressEnter => (fst l, handleSearch (snd l))
  | PressEscape now focused =>
      if focused
      then debouncedSearch (Utils.Invoke now tt) (fst l, setSearchText "" (snd l))
      else l
  | TimerTick now => debouncedSearch (Utils.Tick now) l
  end.

Definition onEvents (evs : list UiEvent) (l : option (Z * unit) * State)
    : option (Z * unit) * State :=
  fold_left onEvent evs l.

End Dashboard.

(* ===================================================================== *)
(** ** LoginManager                                                       *)
(* ===================================================================== *)

Module LoginManager.

(** A form control: its [type], [tagName] and [value], the two
    validation classes of its [classList], and the text of the
    [.invalid-feedback] element next to it ([None] when there is none). *)
Record Field := mkField {
  field_type : string;
  field_tagName : string;
  field_value : string;
  is_valid : bool;
  is_invalid : bool;
  feedback : option string
}.

(** [field.type || field.tagName.toLowerCase()]. *)
Definition switchKey (field : Field) : string :=
  if JsString.truthy (field_type field) then field_type field
  else JsString.toLowerCase (field_tagName field).

(** The [switch] of [validateField]: the final [isValid] and
    [errorMessage]. *)
Definition checkField (field : Field) : bool * string :=
  let value := JsString.trim (field_value field) in
  let key := switchKey field in
  if String.eqb key "text" then
    if negb (JsString.truthy value) then (false, "Username is required")
    else if (String.length value <? 3)%nat
    then (false, "Username must be at least 3 characters")
    else (true, "")
  else if String.eqb key "password" then
    if negb (JsString.truthy value) then (false, "Password is required")
    else if (String.length value <? 6)%nat
    then (false, "Password must be at least 6 characters")
    else (true, "")
  else if String.eqb key "select-one" then
    if negb (JsString.truthy value) then (false, "Please select a department")
    else (true, "")
  else (true, "").

Definition setFieldValidation (field : Field) (isValid : bool) (errorMessage : string) : Field :=
  if isValid then
    mkField (field_type field) (field_tagName field) (field_value field)
      true false (feedback field)
  else
    mkField (field_type field) (field_tagName field) (field_value field)
      false true
      (match feedback field with
       | Some old => Some (if JsString.truthy errorMessage then errorMessage else old)
       | None => None
       end).

Definition clearFieldError (field : Field) : Field :=
  mkField (field_type field) (field_tagName field) (field_value field)
    false false (feedback field).

(** [validateField(field)]: the returned boolean and the control after
    the call; [None] is a missing control. *)
Definition validateField (field : option Field) : bool * option Field :=
  match field with
  | None => (true, None)
  | Some f =>
      let '(isValid, errorMessage) := checkField f in
      (isValid, Some (setFieldValidation f isValid errorMessage))
  end.

(** The three controls [validateForm] walks through, and the [checked]
    state of the checkbox; [None] is an element the page does not have. *)
Record Form := mkForm {
  usernameInput : option Field;
  passwordInput : option Field;
  departmentSelect : option Field;
  rememberMeCheckbox : option bool
}.

Definition validateForm (form : Form) : bool * Form :=
  let '(v1, u) := validateField (usernameInput form) in
  let '(v2, p) := validateField (passwordInput form) in
  let '(v3, s) := validateField (departmentSelect form) in
  (v1 && v2 && v3, mkForm u p s (rememberMeCheckbox form)).

(** The [credentials] object of [performLogin], from the elements it
    reads. *)
Definition credentialsOf (u p s : Field) (remember : bool) : Credentials :=
  mkCredentials (JsString.trim (field_value u)) (field_value p) (field_value s) remember.

(** The kinds of control the form has, and the control of a kind holding
    a raw value. *)
Inductive FieldKind := TextField | PasswordField | SelectField.

Definition fieldOf (kind : FieldKind) (raw : string) : Field :=
  match kind with
  | TextField => mkField "text" "INPUT" raw false false (Some "")
  | PasswordField => mkField "password" "INPUT" raw false false (Some "")
  | SelectField => mkField "select-one" "SELECT" raw false false (Some "")
  end.

(** How a result of [checkField] reads: valid, or invalid with a
    "required" or a "too short" message. *)
Inductive Verdict := Valid | InvalidRequired | InvalidTooShort | InvalidOther.

Definition isRequiredMessage (m : string) : bool :=
  String.eqb m "Username is required" || String.eqb m "Password is required"
  || String.eqb m "Please select a department".

Definition isTooShortMessage (m : string) : bool :=
  String.eqb m "Username must be at least 3 characters"
  || String.eqb m "Password must be at least 6 characters".

Definition verdictOf (r : bool * string) : Verdict :=
  if fst r then Valid
  else if isRequiredMessage (snd r) then InvalidRequired
  else if isTooShortMessage (snd r) then InvalidTooShort
  else InvalidOther.

(** The rules as the specification words them, on the value they name:
    the text rule looks at the trimmed value, the password rule at the
    value ("invalid+required if empty; too short if length < 6"), the
    selection rule at whether a value is selected. *)
Definition rules (kind : FieldKind) (v : string) : Verdict :=
  match kind with
  | TextField =>
      if String.eqb v "" then InvalidRequired
      else if (String.length v <? 3)%nat then InvalidTooShort else Valid
  | PasswordField =>
      if String.eqb v "" then InvalidRequired
      else if (String.length v <? 6)%nat then InvalidTooShort else Valid
  | SelectField =>
      if String.eqb v "" then InvalidRequired else Valid
  end.

Definition spec_validateField (kind : FieldKind) (raw : string) : Verdict :=
  match kind with
  | TextField => rules TextField (JsString.trim raw)
  | PasswordField => rules PasswordField raw
  | SelectField => rules SelectField raw
  end.

(** The alert banner of the login page: its [className], the icon and
    the message of its [innerHTML], whether it carries [d-none], and the
    number of 5-second timers waiting to hide it. *)
Record AlertBox := mkAlertBox {
  alert_className : string;
  alert_icon : option string;
  alert_text : string;
  alert_hidden : bool;
  alert_hide_timers : nat
}.

(** A [LoginManager] object: the form, the [option] children of the
    select as (value, text), the submit button ([disabled]), its label, the
    spinner (carries [d-none]), the alert, the class of the toggle icon,
    and the address the redirect timer of [performLogin] will go to.
    [None] is an element the page does not have. *)
Record Page := mkPage {
  form : Form;
  departmentOptions : list (string * string);
  isSubmitting : bool;
  loginButton : option bool;
  loginButtonText : option string;
  loginSpinner : option bool;
  loginAlert : option AlertBox;
  togglePasswordIcon : string;
  redirect : option string
}.

Definition iconMap (type : string) : option string :=
  if String.eqb type "success" then Some "fas fa-check-circle"
  else if String.eqb type "danger" then Some "fas fa-exclamation-triangle"
  else if String.eqb type "warning" then Some "fas fa-exclamation-circle"
  else if String.eqb type "info" then Some "fas fa-info-circle"
  else None.

Definition showAlert (message type : string) (p : Page) : Page :=
  match loginAlert p with
  | None => p
  | Some a =>
      mkPage (form p) (departmentOptions p) (isSubmitting p) (loginButton p)
        (loginButtonText p) (loginSpinner p)
        (Some (mkAlertBox ("alert alert-" ++ type) (iconMap type) message false
                 (if String.eqb type "danger" || String.eqb type "warning"
                  then S (alert_hide_timers a) else alert_hide_timers a)))
        (togglePasswordIcon p) (redirect p)
  end.

Definition setLoadingState (loading : bool) (p : Page) : Page :=
  mkPage (form p) (departmentOptions p) (isSubmitting p)
    (match loginButton p with Some _ => Some loading | None => None end)
    (match loginButtonText p with
     | Some _ => Some (if loading then "Signing In..." else "Sign In")
     | None => None
     end)
    (match loginSpinner p with Some _ => Some (negb loading) | None => None end)
    (loginAlert p) (togglePasswordIcon p) (redirect p).

Definition setSubmitting (b : bool) (p : Page) : Page :=
  mkPage (form p) (departmentOptions p) b (loginButton p) (loginButtonText p)
    (loginSpinner p) (loginAlert p) (togglePasswordIcon p) (redirect p).

Definition setRedirect (href : string) (p : Page) : Page :=
  mkPage (form p) (departmentOptions p) (isSubmitting p) (loginButton p)
    (loginButtonText p) (loginSpinner p) (loginAlert p) (togglePasswordIcon p)
    (Some href).

Definition setForm (f : Form) (p : Page) : Page :=
  mkPage f (departmentOptions p) (isSubmitting p) (loginButton p)
    (loginButtonText p) (loginSpinner p) (loginAlert p) (togglePasswordIcon p)
    (redirect p).

(** The [credentials] object literal of [performLogin]; reading [value]
    or [checked] of an element the page does not have throws. *)
Definition readCredentials (f : Form) : option Credentials :=
  match usernameInput f, passwordInput f, departmentSelect f, rememberMeCheckbox f with
  | Some u, Some p, Some s, Some remember => Some (credentialsOf u p s remember)
  | _, _, _, _ => None
  end.

(** [performLogin]; [elapsed] is the time [loginUser] waits. A result of
    [loginUser] has its [message] on success and its [error] otherwise. *)
Definition performLogin (elapsed : Z) (p : Page) : M Page :=
  let p1 := setLoadingState true (setSubmitting true p) in
  p2 ← tryCatch
         (match readCredentials (form p1) with
          | None => throw "TypeError"
          | Some credentials =>
              result ← ApiService.loginUser elapsed credentials;
              if ApiService.login_success result then
                mret (setRedirect
                        ("index.html?success=1&dept=" ++ department credentials)
                        (showAlert (default "undefined" (ApiService.login_message result))
                           "success" p1))
              else
                mret (showAlert (default "undefined" (ApiService.login_error result))
                        "danger" p1)
          end)
         (fun _ =>
            console_error "Login error:" ;;
            mret (showAlert "An unexpected error occurred. Please try again." "danger" p1));
  mret (setLoadingState false (setSubmitting false p2)).

Definition handleSubmit (elapsed : Z) (p : Page) : M Page :=
  if isSubmitting p then mret p
  else
    let '(ok, f) := validateForm (form p) in
    if negb ok
    then mret (showAlert "Please correct the errors below" "danger" (setForm f p))
    else performLogin elapsed (setForm f p).

(** [togglePasswordVisibility] on the password control: its new [type]
    and the new class of the icon. *)
Definition togglePasswordVisibility (passwordField : Field) : Field * string :=
  let isPassword := String.eqb (field_type passwordField) "password" in
  (mkField (if isPassword then "text" else "password")
     (field_tagName passwordField) (field_value passwordField)
     (is_valid passwordField) (is_invalid passwordField) (feedback passwordField),
   if isPassword then "fas fa-eye-slash" else "fas fa-eye").

(** The [while] loop of [populateDepartmentOptions]: drop the last child
    while there is more than one. [fuel] bounds the number of rounds. *)
Fixpoint removeExtraOptions (fuel : nat) (children : list (string * string))
    : list (string * string) :=
  match fuel with
  | O => children
  | S fuel' =>
      if (1 <? length children)%nat
      then removeExtraOptions fuel' (removelast children)
      else children
  end.

Definition populateDepartmentOptions (departments : list DepartmentRecord)
    (children : list (string * string)) : list (string * string) :=
  removeExtraOptions (length children) children
  ++ map (fun dept => (dept_id dept, dept_name dept)) departments.

(** [loadDepartments] of the login page, over the [remote] step. *)
Definition loadDepartmentsWith (remote : M (list DepartmentRecord)) (p : Page) : M Page :=
  tryCatch
    (result ← ApiService.fetchDepartmentsWith remote;
     if ApiService.fetch_success result then
       match departmentSelect (form p) with
       | Some _ =>
           mret (mkPage (form p)
                   (populateDepartmentOptions (ApiService.fetch_data result)
                      (departmentOptions p))
                   (isSubmitting p) (loginButton p) (loginButtonText p)
                   (loginSpinner p) (loginAlert p) (togglePasswordIcon p) (redirect p))
       | None => mret p
       end
     else mret p)
    (fun _ => console_error "Error loading departments for login:" ;; mret p).

Definition loadDepartments (elapsed : Z) (p : Page) : M Page :=
  loadDepartmentsWith (ApiService.mockFetch elapsed) p.

(** [remembered.username || ''] and [remembered.department || '']: the
    property of whatever object the key holds. *)
Definition rememberedUsername (v : Stored) : string :=
  match v with
  | StoredRemember u _ => u
  | StoredSession user => su_username user
  | StoredCache _ _ => ""
  end.

Definition rememberedDepartment (v : Stored) : string :=
  match v with
  | StoredRemember _ d => d
  | StoredSession user => su_department user
  | StoredCache _ _ => ""
  end.

Definition setValue (v : string) (f : Field) : Field :=
  mkField (field_type f) (field_tagName f) v (is_valid f) (is_invalid f) (feedback f).

(** [loadRememberedCredentials]. [assignSelect v s] stands for the
    assignment [departmentSelect.value = v] of the browser, whose result
    depends on the options of the select. *)
Definition loadRememberedCredentials (assignSelect : string -> Field -> Field)
    (f : Form) : M Form :=
  remembered ← Utils.storage.get CONFIG.STORAGE_KEYS.REMEMBER_ME;
  match remembered with
  | Some v =>
      mret (mkForm
              (setValue (rememberedUsername v) <$> usernameInput f)
              (passwordInput f)
              (assignSelect (rememberedDepartment v) <$> departmentSelect f)
              ((fun _ => true) <$> rememberMeCheckbox f))
  | None => mret f
  end.

End LoginManager.

(* ===================================================================== *)
(** ** App                                                                *)
(* ===================================================================== *)

Module App.

(** [s.split(sep)] for a separator of one code unit: the pieces between
    the separators, at least one. *)
Fixpoint split (sep : ascii) (s : string) : list string :=
  match s with
  | EmptyString => [EmptyString]
  | String c s' =>
      if ascii_dec c sep then EmptyString :: split sep s'
      else match split sep s' with
           | piece :: rest => String c piece :: rest
           | [] => [String c EmptyString]
           end
  end.

(** [array.pop()]: the last element, [None] for [undefined]. *)
Definition pop (pieces : list string) : option string := last pieces.

(** [detectCurrentPage], from [window.location.pathname]. *)
Definition detectCurrentPage (path : string) : string :=
  let filename :=
    match pop (split "/" path) with
    | Some piece => if JsString.truthy piece then piece else "index.html"
    | None => "index.html"
    end in
  if JsString.includes filename "login" then "login" else "dashboard".

End App.

(* ===================================================================== *)
(** ** Specification vocabulary                                           *)
(* ===================================================================== *)

(** [q] occurs in [s]: the meaning of "contains the query substring". *)
Definition substringOf (q s : string) : Prop :=
  exists before after : string, s = before ++ q ++ after.

(** The survival condition of the search filter, in words of the
    specification. *)
Definition survives (query : string) (dept : DepartmentRecord) : Prop :=
  substringOf query (JsString.toLowerCase (dept_name dept))
  \/ substringOf query (JsString.toLowerCase (dept_description dept))
  \/ substringOf query (JsString.toLowerCase (dept_id dept)).

(** Run a computation: its outcome and the world it leaves. *)
Definition outcome {A} (c : M A) (w : World) : Outcome A := fst (c w).
Definition after {A} (c : M A) (w : World) : World := snd (c w).

(** The events a call appended to the log. *)
Definition wroteKey (key : string) (e : Event) : bool :=
  match e with
  | EvSetItem k _ => String.eqb k key
  | _ => false
  end.

(** What a read of [key] gives in [w]: the entry, or nothing when the read
    throws. *)
Definition seen (key : string) (w : World) : option Stored :=
  if getItemThrows (localStorage w) key then None else localStorage w !! key.

(** Does the browser take the write of [value] under [key]? *)
Definition accepted (key : string) (value : Stored) (w : World) : bool :=
  negb (setItemThrows (localStorage w) key value).

(** A storage holding nothing that refuses every write. *)
Definition fullStorage : Storage := mkStorage ∅ (fun _ _ => true) (fun _ => false).

(** The world a miss of [fetchDepartments] leaves: the cache key has been
    read, the delay has passed, and [Utils.storage.set] has been called
    with the mock list and the time after the delay. *)
Definition missWorld (elapsed : Z) (w : World) : World :=
  let w0 := after (Utils.storage.get CONFIG.STORAGE_KEYS.DEPARTMENTS) w in
  let stamp := (clock w + elapsed)%Z in
  after (Utils.storage.set CONFIG.STORAGE_KEYS.DEPARTMENTS
           (StoredCache MOCK_DEPARTMENTS stamp))
        (mkWorld (localStorage w0) stamp (trace w0 ++ [EvDelay 500 1500])).

(** The world right after [Utils.storage.set] was called with a cache
    entry, looked at at a later time. *)
Definition writtenAt (w : World) (data : list DepartmentRecord) (stamp later : Z) : World :=
  let w' := after (Utils.storage.set CONFIG.STORAGE_KEYS.DEPARTMENTS (StoredCache data stamp)) w in
  mkWorld (localStorage w') later (trace w').

(** The two results of [loginUser]. *)
Definition loginSuccess (user : SessionUser) : ApiService.LoginResult :=
  ApiService.mkLoginResult true (Some user)
    (Some "Login successful! Redirecting to dashboard...") None.

Definition loginFailure (message : string) : ApiService.LoginResult :=
  ApiService.mkLoginResult false None None (Some message).

(** The world after a login that threw: the delay has passed and the
    console has one more line; the store is the one before the call. *)
Definition rejectedWorld (elapsed : Z) (w : World) : World :=
  mkWorld (localStorage w) (clock w + elapsed)
          (trace w ++ [EvDelay 1000 2000; EvConsoleError "Login error:"]).

(** The world after a login that went through: the delay has passed
    and [Utils.storage.set] has been called for the remembered login, if
    remember-me is set, and then for the session. *)
Definition loggedInWorld (elapsed : Z) (c : Credentials) (w : World) : World :=
  let now := (clock w + elapsed)%Z in
  let w1 := mkWorld (localStorage w) now (trace w ++ [EvDelay 1000 2000]) in
  let w2 :=
    if rememberMe c
    then after (Utils.storage.set CONFIG.STORAGE_KEYS.REMEMBER_ME
                  (StoredRemember (username c) (department c))) w1
    else w1 in
  after (Utils.storage.set CONFIG.STORAGE_KEYS.USER_SESSION
           (StoredSession (ApiService.buildUser c now))) w2.

(** The events of a log that write a given key. *)
Definition writesTo (key : string) (events : list Event) : list Event :=
  List.filter (wroteKey key) events.

(** The kind of control [validateField] takes a field for, if any. *)
Definition kindOf (field : LoginManager.Field) : option LoginManager.FieldKind :=
  let key := LoginManager.switchKey field in
  if String.eqb key "text" then Some LoginManager.TextField
  else if String.eqb key "password" then Some LoginManager.PasswordField
  else if String.eqb key "select-one" then Some LoginManager.SelectField
  else None.

(** The ids of the directory. *)
Definition knownDepartment (dept : string) : bool :=
  existsb (fun d => String.eqb (dept_id d) dept) MOCK_DEPARTMENTS.

(** A stretch of events in which nothing comes late enough for the
    pending timer to run: every call and every look at the clock happens
    before the time the timer is then due at. *)
Fixpoint quiet {Args : Type} (wait due : Z) (evs : list (Utils.TimerEvent Args)) : Prop :=
  match evs with
  | [] => True
  | Utils.Invoke now _ :: rest => (now < due)%Z /\ quiet wait (now + wait) rest
  | Utils.Tick now :: rest => (now < due)%Z /\ quiet wait due rest
  end.

(** The due time and the arguments of the last call of a stretch. *)
Fixpoint lastCall {Args : Type} (wait : Z) (cur : Z * Args)
    (evs : list (Utils.TimerEvent Args)) : Z * Args :=
  match evs with
  | [] => cur
  | Utils.Invoke now args :: rest => lastCall wait ((now + wait)%Z, args) rest
  | Utils.Tick _ :: rest => lastCall wait cur rest
  end.

(** The arguments of the calls of a timeline, oldest first. *)
Fixpoint invoked {Args : Type} (evs : list (Utils.TimerEvent Args)) : list Args :=
  match evs with
  | [] => []
  | Utils.Invoke _ args :: rest => args :: invoked rest
  | Utils.Tick _ :: rest => invoked rest
  end.

(** A function that only records the arguments it is called with. *)
Definition record {Args : Type} (args : Args) (log : list Args) : list Args :=
  log ++ [args].

(** A stretch of typing in the search box, each key before the timer of
    the one before is due. *)
Fixpoint quietTyping (due : Z) (evs : list Dashboard.UiEvent) : Prop :=
  match evs with
  | [] => True
  | Dashboard.KeyInput now _ :: rest => (now < due)%Z /\ quietTyping (now + 300) rest
  | Dashboard.TimerTick now :: rest => (now < due)%Z /\ quietTyping due rest
  | _ :: _ => False
  end.

(** The due time and the text after a stretch of typing. *)
Fixpoint lastTyped (cur : Z * string) (evs : list Dashboard.UiEvent) : Z * string :=
  match evs with
  | [] => cur
  | Dashboard.KeyInput now text :: rest => lastTyped ((now + 300)%Z, text) rest
  | _ :: rest => lastTyped cur rest
  end.

(** A form with its three controls, each of the kind the page gives it,
    and its checkbox. *)
Definition standardForm (f : LoginManager.Form) (u p s : LoginManager.Field) : Prop :=
  LoginManager.usernameInput f = Some u
  /\ LoginManager.passwordInput f = Some p
  /\ LoginManager.departmentSelect f = Some s
  /\ is_Some (LoginManager.rememberMeCheckbox f)
  /\ kindOf u = Some LoginManager.TextField
  /\ kindOf p = Some LoginManager.PasswordField
  /\ kindOf s = Some LoginManager.SelectField.

(** A login page with its three controls holding the given values, all
    its elements present and nothing in flight. *)
Definition samplePage (user pass dept : string) (remember : bool) : LoginManager.Page :=
  LoginManager.mkPage
    (LoginManager.mkForm
       (Some (LoginManager.fieldOf LoginManager.TextField user))
       (Some (LoginManager.fieldOf LoginManager.PasswordField pass))
       (Some (LoginManager.fieldOf LoginManager.SelectField dept))
       (Some remember))
    [("", "Select Department")] false (Some false) (Some "Sign In") (Some true)
    (Some (LoginManager.mkAlertBox "alert d-none" None "" true 0))
    "fas fa-eye" None.

(** The strings a regular expression matches. *)
Inductive Matches : Utils.RegExp -> string -> Prop :=
| MatchEmpty : Matches Utils.Empty ""
| MatchClass accept c : accept c = true -> Matches (Utils.Class accept) (String c "")
| MatchSeq r1 r2 s1 s2 :
    Matches r1 s1 -> Matches r2 s2 -> Matches (Utils.Seq r1 r2) (s1 ++ s2)
| MatchAltL r1 r2 s : Matches r1 s -> Matches (Utils.Alt r1 r2) s
| MatchAltR r1 r2 s : Matches r2 s -> Matches (Utils.Alt r1 r2) s
| MatchStarNone r : Matches (Utils.Star r) ""
| MatchStarMore r s1 s2 :
    Matches r s1 -> Matches (Utils.Star r) s2 -> Matches (Utils.Star r) (s1 ++ s2).

(** A part of an address: not empty, no white space, no "@". *)
Fixpoint allPlain (s : string) : bool :=
  match s with
  | EmptyString => true
  | String c s' => Utils.notSpaceNorAt c && allPlain s'
  end.

Definition plainPart (s : string) : bool := JsString.truthy s && allPlain s.

(** No code unit of [s] is [c]. *)
Fixpoint lacks (c : ascii) (s : string) : bool :=
  match s with
  | EmptyString => true
  | String a s' => (if ascii_dec a c then false else true) && lacks c s'
  end.

(* ===================================================================== *)
(** ** Strings                                                            *)
(* ===================================================================== *)

Section StringFacts.

Import JsString.

Lemma append_cons (c : ascii) (s t : string) : String c s ++ t = String c (s ++ t).
Proof. reflexivity. Qed.

Lemma append_empty_l (s : string) : "" ++ s = s.
Proof. reflexivity. Qed.

Lemma append_empty_r (s : string) : s ++ "" = s.
Proof. induction s as [|c s IH]; [reflexivity|]. now rewrite append_cons, IH. Qed.

Lemma append_assoc (s t u : string) : (s ++ t) ++ u = s ++ t ++ u.
Proof. induction s as [|c s IH]; [reflexivity|]. now rewrite !append_cons, IH. Qed.

Lemma truthy_false_iff (s : string) : truthy s = false <-> s = "".
Proof. destruct s; simpl; split; congruence. Qed.

Lemma truthy_length (s : string) : (0 < String.length s)%nat -> truthy s = true.
Proof. destruct s; simpl; [lia | reflexivity]. Qed.

Lemma truthy_eqb_empty (v : string) : negb (truthy v) = String.eqb v "".
Proof. now destruct v. Qed.

Lemma eqb_empty_iff (s : string) : String.eqb s "" = true <-> s = "".
Proof. apply String.eqb_eq. Qed.

Lemma startsWith_spec (s q : string) :
  startsWith s q = true <-> exists rest, s = q ++ rest.
Proof.
  revert s. induction q as [|b q IH]; intros s.
  - destruct s; simpl; split; eauto.
  - destruct s as [|a s]; simpl.
    + split; [discriminate | intros [rest H]; discriminate].
    + destruct (ascii_dec a b) as [->|Hne].
      * rewrite IH. split; intros [rest H]; exists rest.
        -- now rewrite append_cons, H.
        -- rewrite append_cons in H. congruence.
      * split; [discriminate|]. intros [rest H].
        rewrite append_cons in H. congruence.
Qed.

Lemma includes_spec (s q : string) : includes s q = true <-> substringOf q s.
Proof.
  unfold substringOf. induction s as [|a s IH].
  - change (includes "" q) with (startsWith "" q || false).
    rewrite orb_false_r, startsWith_spec. split.
    + intros [rest H]. exists "", rest. exact H.
    + intros [[|c before] [rest H]].
      * exists rest. exact H.
      * rewrite append_cons in H. discriminate.
  - change (includes (String a s) q)
      with (startsWith (String a s) q || includes s q).
    rewrite orb_true_iff, startsWith_spec, IH. split.
    + intros [[rest H] | [before [rest H]]].
      * exists "", rest. exact H.
      * exists (String a before), rest. now rewrite append_cons, H.
    + intros [[|c before] [rest H]].
      * left. exists rest. exact H.
      * right. rewrite append_cons in H. injection H as _ H.
        exists before, rest. exact H.
Qed.

Lemma isWhiteSpace_lowerChar (c : ascii) : isWhiteSpace (lowerChar c) = isWhiteSpace c.
Proof. destruct c as [[] [] [] [] [] [] [] []]; reflexivity. Qed.

Lemma toLowerCase_empty_iff (s : string) : toLowerCase s = "" <-> s = "".
Proof. destruct s; simpl; split; congruence. Qed.

Lemma trimStart_toLowerCase (s : string) :
  trimStart (toLowerCase s) = toLowerCase (trimStart s).
Proof.
  induction s as [|c s IH]; [reflexivity|]. simpl.
  rewrite isWhiteSpace_lowerChar. now destruct (isWhiteSpace c).
Qed.

Lemma trimEnd_toLowerCase (s : string) :
  trimEnd (toLowerCase s) = toLowerCase (trimEnd s).
Proof.
  induction s as [|c s IH]; [reflexivity|]. simpl.
  rewrite IH, isWhiteSpace_lowerChar.
  destruct (trimEnd s); simpl; [now destruct (isWhiteSpace c) | reflexivity].
Qed.

(** Lower-casing and trimming commute: the script lower-cases first. *)
Lemma trim_toLowerCase (s : string) :
  trim (toLowerCase s) = toLowerCase (trim s).
Proof. unfold trim. now rewrite trimStart_toLowerCase, trimEnd_toLowerCase. Qed.

Lemma trimStart_allWhiteSpace (s : string) : allWhiteSpace s = true -> trimStart s = "".
Proof.
  induction s as [|c s IH]; [reflexivity|]. simpl.
  intros [Hc Hs]%andb_true_iff. rewrite Hc. auto.
Qed.

Lemma trim_allWhiteSpace (s : string) : allWhiteSpace s = true -> trim s = "".
Proof. intros H. unfold trim. now rewrite trimStart_allWhiteSpace. Qed.

Lemma trimEnd_idempotent (s : string) : trimEnd (trimEnd s) = trimEnd s.
Proof.
  induction s as [|c s IH]; [reflexivity|]. simpl.
  destruct (trimEnd s) as [|d t] eqn:E.
  - destruct (isWhiteSpace c) eqn:W; simpl; [reflexivity | now rewrite W].
  - change (trimEnd (String c (String d t)))
      with (match trimEnd (String d t) with
            | "" => if isWhiteSpace c then "" else String c ""
            | String e u => String c (String e u)
            end).
    now rewrite IH.
Qed.

Lemma trimStart_not_space (c : ascii) (s : string) :
  isWhiteSpace c = false -> trimStart (String c s) = String c s.
Proof. intros H. simpl. now rewrite H. Qed.

Lemma trimEnd_head (c : ascii) (s : string) :
  isWhiteSpace c = false -> exists t, trimEnd (String c s) = String c t.
Proof.
  intros H. simpl. destruct (trimEnd s); [rewrite H|]; eauto.
Qed.

(** Trimming a trimmed value changes nothing. *)
Lemma trim_idempotent (s : string) : trim (trim s) = trim s.
Proof.
  unfold trim. induction s as [|c s IH]; [reflexivity|]. simpl.
  destruct (isWhiteSpace c) eqn:W; [exact IH|].
  destruct (trimEnd_head c s W) as [t Ht]. rewrite Ht.
  rewrite trimStart_not_space by exact W. rewrite <- Ht.
  apply trimEnd_idempotent.
Qed.

Example trim_both_ends : trim "  a b	 " = "a b".
Proof. reflexivity. Qed.

Example toLowerCase_name : toLowerCase "Human Resources" = "human resources".
Proof. reflexivity. Qed.

Example includes_inside : includes "human resources" "man res" = true.
Proof. reflexivity. Qed.

Example includes_absent : includes "finance" "hr" = false.
Proof. reflexivity. Qed.

Example toUpperCase_initial : toUpperCase (charAt0 "alice") = codeUnits "A".
Proof. reflexivity. Qed.

End StringFacts.

(* ===================================================================== *)
(** ** The search filter                                                  *)
(* ===================================================================== *)

Section SearchFilter.

Import JsString Dashboard.

Lemma filter_sublist {A} (f : A -> bool) (l : list A) :
  List.filter f l `sublist_of` l.
Proof.
  induction l as [|x l IH]; simpl; [constructor|].
  destruct (f x); now constructor.
Qed.

Lemma filter_all {A} (f : A -> bool) (l : list A) :
  (forall x, f x = true) -> List.filter f l = l.
Proof.
  intros Hf. induction l as [|x l IH]; simpl; [reflexivity|].
  now rewrite Hf, IH.
Qed.

Lemma matchesQuery_survives (query : string) (dept : DepartmentRecord) :
  matchesQuery query dept = true <-> survives query dept.
Proof.
  unfold matchesQuery, survives.
  rewrite !orb_true_iff, !includes_spec. tauto.
Qed.

Lemma matchesQuery_empty (dept : DepartmentRecord) : matchesQuery "" dept = true.
Proof.
  apply matchesQuery_survives. left. exists "", (toLowerCase (dept_name dept)).
  reflexivity.
Qed.

(** Both branches of the filtering step are one [filter]. *)
Lemma searchFilter_filter (D : list DepartmentRecord) (raw : string) :
  searchFilter D raw = List.filter (matchesQuery (trim (toLowerCase raw))) D.
Proof.
  unfold searchFilter. destruct (String.eqb _ "") eqn:E; [|reflexivity].
  apply eqb_empty_iff in E. rewrite E.
  symmetry. apply filter_all, matchesQuery_empty.
Qed.

Lemma renderDepartments_lists (d : State) :
  departments (renderDepartments d) = departments d
  /\ filteredDepartments (renderDepartments d) = filteredDepartments d
  /\ searchInput_value (renderDepartments d) = searchInput_value d.
Proof. unfold renderDepartments. destruct (departmentsGrid d); auto. Qed.

Lemma handleSearch_filtered (d : State) :
  filteredDepartments (handleSearch d)
  = searchFilter (departments d) (searchInput_value d).
Proof.
  unfold handleSearch.
  now destruct (renderDepartments_lists
    (mkState (searchInput_value d) (departments d)
       (searchFilter (departments d) (searchInput_value d))
       (departmentsGrid d))) as (_ & -> & _).
Qed.

Lemma handleSearch_departments (d : State) :
  departments (handleSearch d) = departments d.
Proof.
  unfold handleSearch.
  now destruct (renderDepartments_lists
    (mkState (searchInput_value d) (departments d)
       (searchFilter (departments d) (searchInput_value d))
       (departmentsGrid d))) as (-> & _).
Qed.

(** C2. For every list of records [D] (the [departments] of the dashboard)
    and every text of the search input, [handleSearch] leaves [D] as it
    was, and the new [filteredDepartments] is a sublist of [D] (a subset
    in the relative order of [D]): it is [D] filtered by a test that
    holds of a record exactly when the query, trimmed and lower-cased,
    occurs in the lower-cased name, description or identifier. *)
Theorem handleSearch_stable_subset (d : State) :
  let query := toLowerCase (trim (searchInput_value d)) in
  departments (handleSearch d) = departments d
  /\ filteredDepartments (handleSearch d) `sublist_of` departments d
  /\ exists keep : DepartmentRecord -> bool,
       (forall dept, keep dept = true <-> survives query dept)
       /\ filteredDepartments (handleSearch d) = List.filter keep (departments d).
Proof.
  intros query. rewrite handleSearch_departments, handleSearch_filtered.
  rewrite searchFilter_filter, trim_toLowerCase. fold query.
  split; [reflexivity|]. split; [apply filter_sublist|].
  exists (matchesQuery query). split; [|reflexivity].
  intros dept. apply matchesQuery_survives.
Qed.

(** Membership form of the same fact. *)
Lemma handleSearch_member (d : State) (dept : DepartmentRecord) :
  In dept (filteredDepartments (handleSearch d))
  <-> In dept (departments d)
      /\ survives (toLowerCase (trim (searchInput_value d))) dept.
Proof.
  rewrite handleSearch_filtered, searchFilter_filter, trim_toLowerCase.
  rewrite filter_In, matchesQuery_survives. reflexivity.
Qed.

(** C3. When the text of the search input is empty after trimming (the
    empty string in particular), the filtered list is the whole list [D],
    in the same order. *)
Theorem handleSearch_blank_query (d : State) :
  trim (searchInput_value d) = "" ->
  filteredDepartments (handleSearch d) = departments d
  /\ searchFilter (departments d) (searchInput_value d) = departments d.
Proof.
  intros Hblank. rewrite handleSearch_filtered.
  assert (searchFilter (departments d) (searchInput_value d) = departments d) as ->.
  { unfold searchFilter. now rewrite trim_toLowerCase, Hblank. }
  split; reflexivity.
Qed.

Lemma handleSearch_blank_query_witness :
  filteredDepartments
    (handleSearch (mkState "  " MOCK_DEPARTMENTS [] (Some NoDepartmentsFound)))
  = MOCK_DEPARTMENTS
  /\ filteredDepartments (handleSearch (mkState "" MOCK_DEPARTMENTS [] None))
     = MOCK_DEPARTMENTS.
Proof.
  split.
  - apply (handleSearch_blank_query
             (mkState "  " MOCK_DEPARTMENTS [] (Some NoDepartmentsFound))).
    reflexivity.
  - apply (handleSearch_blank_query (mkState "" MOCK_DEPARTMENTS [] None)).
    reflexivity.
Defined.

(** X22. Filtering is idempotent: filtering the filtered list again
    with the same text changes nothing. *)
Lemma searchFilter_idempotent (D : list DepartmentRecord) (raw : string) :
  searchFilter (searchFilter D raw) raw = searchFilter D raw.
Proof.
  rewrite !searchFilter_filter.
  induction D as [|dept D IH]; simpl; [reflexivity|].
  destruct (matchesQuery _ dept) eqn:E; simpl; [|exact IH].
  now rewrite E, IH.
Qed.

Example handleSearch_sec :
  map dept_id
    (filteredDepartments (handleSearch (mkState " SEC " MOCK_DEPARTMENTS [] None)))
  = ["security"].
Proof. reflexivity. Qed.

Example handleSearch_management :
  map dept_id
    (filteredDepartments (handleSearch (mkState "management" MOCK_DEPARTMENTS [] None)))
  = ["security"; "hse"; "customer-service"].
Proof. reflexivity. Qed.

End SearchFilter.

(* ===================================================================== *)
(** ** The department cache                                               *)
(* ===================================================================== *)

Section StorageFacts.

Import CONFIG.STORAGE_KEYS.

Lemma Storage_lookup_insert (st : Storage) (key : string) (value : Stored) :
  <[key := value]> st !! key = Some value.
Proof. unfold lookup, Storage_lookup, insert, Storage_insert. simpl. apply lookup_insert_eq. Qed.

Lemma Storage_lookup_insert_ne (st : Storage) (key key' : string) (value : Stored) :
  key <> key' -> <[key := value]> st !! key' = st !! key'.
Proof.
  intros Hne. unfold lookup, Storage_lookup, insert, Storage_insert. simpl.
  now apply lookup_insert_ne.
Qed.

(** A write the browser takes. *)
Lemma set_accepted (key : string) (value : Stored) (w : World) :
  accepted key value w = true ->
  Utils.storage.set key value w
  = (Returned true,
     mkWorld (<[key := value]> (localStorage w)) (clock w)
             (trace w ++ [EvSetItem key value])).
Proof.
  unfold accepted, Utils.storage.set, Utils.storage.setItem, tryCatch, mbind, M_bind.
  now destruct (setItemThrows (localStorage w) key value).
Qed.

(** A write the browser refuses: the error is logged, nothing is stored. *)
Lemma set_refused (key : string) (value : Stored) (w : World) :
  accepted key value w = false ->
  Utils.storage.set key value w
  = (Returned false,
     mkWorld (localStorage w) (clock w)
             (trace w ++ [EvConsoleError "Storage set error:"])).
Proof.
  unfold accepted, Utils.storage.set, Utils.storage.setItem, tryCatch, mbind, M_bind.
  now destruct (setItemThrows (localStorage w) key value).
Qed.

Lemma set_returns (key : string) (value : Stored) (w : World) :
  Utils.storage.set key value w
  = (Returned (accepted key value w), after (Utils.storage.set key value) w).
Proof.
  unfold after. destruct (accepted key value w) eqn:E.
  - now rewrite (set_accepted key value w E).
  - now rewrite (set_refused key value w E).
Qed.

(** Whatever the browser does, a write touches no other key, keeps the
    clock, and leaves the behaviour of the storage as it was. *)
Lemma set_frame (key : string) (value : Stored) (w : World) :
  (forall key', key' <> key ->
     localStorage (after (Utils.storage.set key value) w) !! key'
     = localStorage w !! key')
  /\ clock (after (Utils.storage.set key value) w) = clock w
  /\ setItemThrows (localStorage (after (Utils.storage.set key value) w))
     = setItemThrows (localStorage w)
  /\ getItemThrows (localStorage (after (Utils.storage.set key value) w))
     = getItemThrows (localStorage w).
Proof.
  unfold after. destruct (accepted key value w) eqn:E.
  - rewrite (set_accepted key value w E). simpl. repeat split.
    intros key' Hne. apply Storage_lookup_insert_ne. congruence.
  - rewrite (set_refused key value w E). simpl. repeat split.
Qed.

Lemma set_storage (key : string) (value : Stored) (w : World) :
  localStorage (after (Utils.storage.set key value) w)
  = if accepted key value w then <[key := value]> (localStorage w) else localStorage w.
Proof.
  unfold after. destruct (accepted key value w) eqn:E.
  - now rewrite (set_accepted key value w E).
  - now rewrite (set_refused key value w E).
Qed.

Lemma set_trace (key : string) (value : Stored) (w : World) :
  trace (after (Utils.storage.set key value) w)
  = (trace w ++ [if accepted key value w then EvSetItem key value
                 else EvConsoleError "Storage set error:"])%list.
Proof.
  unfold after. destruct (accepted key value w) eqn:E.
  - now rewrite (set_accepted key value w E).
  - now rewrite (set_refused key value w E).
Qed.

Lemma set_stores (key : string) (value : Stored) (w : World) :
  localStorage (after (Utils.storage.set key value) w) !! key
  = if accepted key value w then Some value else localStorage w !! key.
Proof.
  unfold after. destruct (accepted key value w) eqn:E.
  - rewrite (set_accepted key value w E). simpl. apply Storage_lookup_insert.
  - now rewrite (set_refused key value w E).
Qed.

Lemma set_writes (key key' : string) (value : Stored) (w : World) :
  writesTo key' (trace (after (Utils.storage.set key value) w))
  = (writesTo key' (trace w)
     ++ (if accepted key value w && String.eqb key key'
         then [EvSetItem key value] else []))%list.
Proof.
  unfold after, writesTo. destruct (accepted key value w) eqn:E.
  - rewrite (set_accepted key value w E). simpl. rewrite List.filter_app. simpl.
    now destruct (String.eqb key key').
  - rewrite (set_refused key value w E). simpl. rewrite List.filter_app. reflexivity.
Qed.

(** A read gives what is [seen]; it changes the world only by the
    console line of a read that throws. *)
Lemma get_seen (key : string) (w : World) :
  Utils.storage.get key w = (Returned (seen key w), after (Utils.storage.get key) w).
Proof.
  unfold after, seen, Utils.storage.get, Utils.storage.getItem, tryCatch, mbind, M_bind.
  now destruct (getItemThrows (localStorage w) key).
Qed.

Lemma get_quiet (key : string) (w : World) :
  getItemThrows (localStorage w) key = false ->
  Utils.storage.get key w = (Returned (localStorage w !! key), w).
Proof.
  intros H. unfold Utils.storage.get, Utils.storage.getItem, tryCatch, mbind, M_bind.
  now rewrite H.
Qed.

Lemma get_frame (key : string) (w : World) :
  localStorage (after (Utils.storage.get key) w) = localStorage w
  /\ clock (after (Utils.storage.get key) w) = clock w.
Proof.
  unfold after, Utils.storage.get, Utils.storage.getItem, tryCatch, mbind, M_bind.
  now destruct (getItemThrows (localStorage w) key).
Qed.

Lemma seen_Some (key : string) (w : World) (v : Stored) :
  seen key w = Some v ->
  getItemThrows (localStorage w) key = false /\ localStorage w !! key = Some v.
Proof.
  unfold seen. destruct (getItemThrows (localStorage w) key); [discriminate | auto].
Qed.

Lemma seen_quiet (key : string) (w : World) :
  getItemThrows (localStorage w) key = false -> seen key w = localStorage w !! key.
Proof. intros H. unfold seen. now rewrite H. Qed.

Lemma after_get_seen (key : string) (w : World) (v : Stored) :
  seen key w = Some v -> after (Utils.storage.get key) w = w.
Proof.
  intros [H _]%seen_Some. unfold after. now rewrite (get_quiet key w H).
Qed.

End StorageFacts.

Section DirectoryCache.

Import ApiService.

Import CONFIG.STORAGE_KEYS.

Lemma CACHE_TTL_minutes : CACHE_TTL = 300000%Z.
Proof. reflexivity. Qed.

(** The guard of the script, [timestamp > now - TTL], is the freshness
    condition [now - timestamp < TTL] of the cache entry. *)
Lemma isFresh_Some (cached : option Stored) (now : Z) (data : list DepartmentRecord) :
  isFresh cached now = Some data
  <-> exists timestamp, cached = Some (StoredCache data timestamp)
                        /\ (now - timestamp < CACHE_TTL)%Z.
Proof.
  unfold isFresh. destruct cached as [[d t| |]|].
  - destruct (Z.ltb_spec (now - CACHE_TTL) t); split.
    + intros [= ->]. exists t. split; [reflexivity | lia].
    + intros (t' & [= -> ->] & _). reflexivity.
    + discriminate.
    + intros (t' & [= -> ->] & Hlt). lia.
  - split; [discriminate | intros (t & [=] & _)].
  - split; [discriminate | intros (t & [=] & _)].
  - split; [discriminate | intros (t & [=] & _)].
Qed.

Lemma isFresh_None (cached : option Stored) (now : Z) :
  isFresh cached now = None
  <-> forall data timestamp, cached = Some (StoredCache data timestamp) ->
                             (CACHE_TTL <= now - timestamp)%Z.
Proof.
  split.
  - intros Hnone data timestamp ->. unfold isFresh in Hnone.
    destruct (Z.ltb_spec (now - CACHE_TTL) timestamp); [discriminate | lia].
  - intros Hstale. destruct (isFresh cached now) as [data|] eqn:E; [|reflexivity].
    apply isFresh_Some in E as (t & Hc & Hlt). specialize (Hstale _ _ Hc). lia.
Qed.

(** The two first steps of [fetchDepartments]: the read and the clock. *)
Lemma fetchDepartmentsWith_start remote (w : World) :
  fetchDepartmentsWith remote w
  = let w0 := after (Utils.storage.get DEPARTMENTS) w in
    match isFresh (seen DEPARTMENTS w) (clock w) with
    | Some data => (Returned (mkFetchResult true None data), w0)
    | None =>
        match remote w0 with
        | (Returned data, w1) =>
            (Returned (mkFetchResult true None data),
             after (Utils.storage.set DEPARTMENTS (StoredCache data (clock w1))) w1)
        | (Thrown _, w1) =>
            (Returned (mkFetchResult false
                         (Some "Unable to load departments. Please try again later.") []),
             mkWorld (localStorage w1) (clock w1)
                     (trace w1 ++ [EvConsoleError "Failed to fetch departments:"]))
        end
    end.
Proof.
  unfold fetchDepartmentsWith, tryCatch, mbind, M_bind at 1.
  rewrite get_seen. unfold mbind, M_bind at 1, Date_now.
  destruct (get_frame DEPARTMENTS w) as [_ ->].
  destruct (isFresh (seen DEPARTMENTS w) (clock w)); [reflexivity|].
  unfold mbind, M_bind. simpl.
  destruct (remote (after (Utils.storage.get DEPARTMENTS) w)) as [[data|message] w1];
    [|reflexivity].
  rewrite set_returns. reflexivity.
Qed.

(** A fresh entry is returned at once: the remote step does not run and
    the world is the one the call started in. *)
Lemma fetchDepartmentsWith_hit remote (w : World) (data : list DepartmentRecord) :
  isFresh (seen DEPARTMENTS w) (clock w) = Some data ->
  fetchDepartmentsWith remote w = (Returned (mkFetchResult true None data), w).
Proof.
  intros Hfresh. rewrite fetchDepartmentsWith_start. simpl. rewrite Hfresh.
  apply isFresh_Some in Hfresh as (t & Hseen & _).
  now rewrite (after_get_seen _ _ _ Hseen).
Qed.

(** Without a fresh entry the remote step runs once; when it returns,
    [Utils.storage.set] is called with its list and the time read after
    it. *)
Lemma fetchDepartmentsWith_miss remote (w w1 : World) (data : list DepartmentRecord) :
  isFresh (seen DEPARTMENTS w) (clock w) = None ->
  remote (after (Utils.storage.get DEPARTMENTS) w) = (Returned data, w1) ->
  fetchDepartmentsWith remote w
  = (Returned (mkFetchResult true None data),
     after (Utils.storage.set DEPARTMENTS (StoredCache data (clock w1))) w1).
Proof.
  intros Hstale Hremote. rewrite fetchDepartmentsWith_start. simpl.
  now rewrite Hstale, Hremote.
Qed.

Lemma fetchDepartmentsWith_throw remote (w w1 : World) (message : string) :
  isFresh (seen DEPARTMENTS w) (clock w) = None ->
  remote (after (Utils.storage.get DEPARTMENTS) w) = (Thrown message, w1) ->
  fetchDepartmentsWith remote w
  = (Returned (mkFetchResult false
                 (Some "Unable to load departments. Please try again later.") []),
     mkWorld (localStorage w1) (clock w1)
             (trace w1 ++ [EvConsoleError "Failed to fetch departments:"])).
Proof.
  intros Hstale Hremote. rewrite fetchDepartmentsWith_start. simpl.
  now rewrite Hstale, Hremote.
Qed.

Lemma fetchDepartments_miss (elapsed : Z) (w : World) :
  isFresh (seen DEPARTMENTS w) (clock w) = None ->
  fetchDepartments elapsed w
  = (Returned (mkFetchResult true None MOCK_DEPARTMENTS), missWorld elapsed w).
Proof.
  intros Hstale. unfold fetchDepartments.
  rewrite (fetchDepartmentsWith_miss _ w
             (mkWorld (localStorage (after (Utils.storage.get DEPARTMENTS) w))
                      (clock w + elapsed)
                      (trace (after (Utils.storage.get DEPARTMENTS) w)
                       ++ [EvDelay 500 1500])) MOCK_DEPARTMENTS Hstale).
  - reflexivity.
  - unfold mockFetch, mbind, M_bind, Utils.simulateApiDelay. simpl.
    destruct (get_frame DEPARTMENTS w) as [_ ->]. reflexivity.
Qed.

(** What the miss leaves in the store: the new entry when the browser took
    the write, the old store otherwise. *)
Lemma missWorld_store (elapsed : Z) (w : World) :
  let entry := StoredCache MOCK_DEPARTMENTS (clock w + elapsed) in
  clock (missWorld elapsed w) = (clock w + elapsed)%Z
  /\ (if accepted DEPARTMENTS entry w
      then localStorage (missWorld elapsed w) = <[DEPARTMENTS := entry]> (localStorage w)
      else localStorage (missWorld elapsed w) = localStorage w).
Proof.
  cbv zeta. unfold missWorld.
  destruct (get_frame DEPARTMENTS w) as [Hst _].
  destruct (set_frame DEPARTMENTS (StoredCache MOCK_DEPARTMENTS (clock w + elapsed))
              (mkWorld (localStorage (after (Utils.storage.get DEPARTMENTS) w))
                       (clock w + elapsed)
                       (trace (after (Utils.storage.get DEPARTMENTS) w)
                        ++ [EvDelay 500 1500]))) as (_ & Hclock & _).
  split; [exact Hclock|].
  rewrite set_storage. unfold accepted. simpl. rewrite Hst.
  now destruct (setItemThrows (localStorage w) DEPARTMENTS
                  (StoredCache MOCK_DEPARTMENTS (clock w + elapsed))).
Qed.

(** The input on which the sentence on the cache fails: the browser
    refuses the write (a full storage), the call still returns the fetched
    list, and the store has no entry afterwards. *)
Lemma fetchDepartments_refused_write_counterexample :
  outcome (fetchDepartments 700) (mkWorld fullStorage 1000 [])
  = Returned (mkFetchResult true None MOCK_DEPARTMENTS)
  /\ localStorage (after (fetchDepartments 700) (mkWorld fullStorage 1000 []))
       !! DEPARTMENTS = None
  /\ trace (after (fetchDepartments 700) (mkWorld fullStorage 1000 []))
     = [EvDelay 500 1500; EvConsoleError "Storage set error:"].
Proof. repeat split. Qed.

(** C1, amended. [fetchDepartments] answers from the cache, with the world
    left as it was (no simulated delay, no write), exactly when the read
    of the cache key gives an entry with [now - timestamp < 5 minutes] (a
    read that throws gives nothing). Otherwise it runs the simulated fetch
    and hands the fetched list, with the current time, to
    [Utils.storage.set]: the entry is overwritten when the browser takes
    the write; when [setItem] throws the error is logged, the store stays
    as it was and the call still returns the list. After a write the browser took, a read
    less than 5 minutes later returns the list written and a read at 5
    minutes or later is a miss. *)
Theorem fetchDepartments_cache_ttl (elapsed : Z) (w : World) :
  ((exists data timestamp,
      seen DEPARTMENTS w = Some (StoredCache data timestamp)
      /\ (clock w - timestamp < 5 * 60 * 1000)%Z
      /\ fetchDepartments elapsed w = (Returned (mkFetchResult true None data), w))
   \/ ((forall data timestamp,
          seen DEPARTMENTS w = Some (StoredCache data timestamp) ->
          (5 * 60 * 1000 <= clock w - timestamp)%Z)
       /\ fetchDepartments elapsed w
          = (Returned (mkFetchResult true None MOCK_DEPARTMENTS), missWorld elapsed w)
       /\ trace (missWorld elapsed w)
          = (trace (after (Utils.storage.get DEPARTMENTS) w)
             ++ [EvDelay 500 1500;
                 if accepted DEPARTMENTS
                      (StoredCache MOCK_DEPARTMENTS (clock w + elapsed)) w
                 then EvSetItem DEPARTMENTS
                        (StoredCache MOCK_DEPARTMENTS (clock w + elapsed))
                 else EvConsoleError "Storage set error:"])%list
       /\ clock (missWorld elapsed w) = (clock w + elapsed)%Z
       /\ (if accepted DEPARTMENTS (StoredCache MOCK_DEPARTMENTS (clock w + elapsed)) w
           then localStorage (missWorld elapsed w)
                = <[DEPARTMENTS := StoredCache MOCK_DEPARTMENTS (clock w + elapsed)]>
                    (localStorage w)
           else localStorage (missWorld elapsed w) = localStorage w)))
  /\ (forall data stamp later,
        accepted DEPARTMENTS (StoredCache data stamp) w = true ->
        getItemThrows (localStorage w) DEPARTMENTS = false ->
        ((later - stamp < 5 * 60 * 1000)%Z ->
         fetchDepartments elapsed (writtenAt w data stamp later)
         = (Returned (mkFetchResult true None data), writtenAt w data stamp later))
        /\ ((5 * 60 * 1000 <= later - stamp)%Z ->
            fetchDepartments elapsed (writtenAt w data stamp later)
            = (Returned (mkFetchResult true None MOCK_DEPARTMENTS),
               missWorld elapsed (writtenAt w data stamp later)))).
Proof.
  change (5 * 60 * 1000)%Z with CACHE_TTL. split.
  - destruct (isFresh (seen DEPARTMENTS w) (clock w)) as [data|] eqn:E.
    + left. pose proof E as (t & Hc & Hlt)%isFresh_Some.
      exists data, t. repeat split; [exact Hc | exact Hlt |].
      now apply fetchDepartmentsWith_hit.
    + right. split; [now apply isFresh_None|].
      split; [now apply fetchDepartments_miss|].
      destruct (missWorld_store elapsed w) as [Hclock Hstore].
      split; [|split; [exact Hclock | exact Hstore]].
      unfold missWorld. rewrite set_trace. cbn [trace].
      rewrite <- app_assoc. simpl.
      change (accepted DEPARTMENTS (StoredCache MOCK_DEPARTMENTS (clock w + elapsed))
                (mkWorld (localStorage (after (Utils.storage.get DEPARTMENTS) w))
                         (clock w + elapsed)
                         (trace (after (Utils.storage.get DEPARTMENTS) w)
                          ++ [EvDelay 500 1500])))
        with (negb (setItemThrows
                      (localStorage (after (Utils.storage.get DEPARTMENTS) w))
                      DEPARTMENTS (StoredCache MOCK_DEPARTMENTS (clock w + elapsed)))).
      destruct (get_frame DEPARTMENTS w) as [-> _]. reflexivity.
  - intros data stamp later Hacc Hread.
    assert (seen DEPARTMENTS (writtenAt w data stamp later)
            = Some (StoredCache data stamp)) as Hseen.
    { unfold writtenAt, after. rewrite (set_accepted _ _ _ Hacc). simpl.
      unfold seen. simpl. rewrite Hread. apply Storage_lookup_insert. }
    split.
    + intros Hlt. apply fetchDepartmentsWith_hit. apply isFresh_Some.
      exists stamp. split; [exact Hseen | exact Hlt].
    + intros Hge. apply fetchDepartments_miss. apply isFresh_None.
      intros d t. rewrite Hseen. intros [= -> ->]. exact Hge.
Qed.

Lemma fetchDepartments_cache_ttl_witness :
  let w := mkWorld ∅ 1000 [] in
  fetchDepartments 700 (writtenAt w [] 1000 300999)
  = (Returned (mkFetchResult true None []), writtenAt w [] 1000 300999)
  /\ fetchDepartments 700 (writtenAt w [] 1000 301000)
     = (Returned (mkFetchResult true None MOCK_DEPARTMENTS),
        missWorld 700 (writtenAt w [] 1000 301000)).
Proof.
  intros w. destruct (fetchDepartments_cache_ttl 700 w) as (_ & Hwritten).
  destruct (Hwritten [] 1000%Z 300999%Z eq_refl eq_refl) as [Hhit _].
  destruct (Hwritten [] 1000%Z 301000%Z eq_refl eq_refl) as [_ Hmiss].
  split; [apply Hhit | apply Hmiss]; reflexivity.
Defined.

(** Whatever the remote step does, the call returns: it never throws. *)
Lemma fetchDepartmentsWith_returns remote (w : World) :
  exists result, outcome (fetchDepartmentsWith remote) w = Returned result.
Proof.
  unfold outcome. rewrite fetchDepartmentsWith_start. simpl.
  destruct (isFresh (seen DEPARTMENTS w) (clock w)); [eauto|].
  destruct (remote _) as [[data|message] w1]; eauto.
Qed.

(** The simulated round trip of the script always returns. *)
Lemma mockFetch_returns (elapsed : Z) (w : World) :
  outcome (mockFetch elapsed) w = Returned MOCK_DEPARTMENTS.
Proof. reflexivity. Qed.

(** A successful result carries no error text, so an empty list that comes
    with success is told apart from the empty list of the error result. *)
Lemma fetchDepartmentsWith_success_or_error remote (w : World) (r : FetchResult) :
  outcome (fetchDepartmentsWith remote) w = Returned r ->
  (fetch_success r = true /\ fetch_error r = None)
  \/ (fetch_success r = false /\ fetch_data r = []
      /\ fetch_error r = Some "Unable to load departments. Please try again later.").
Proof.
  unfold outcome. rewrite fetchDepartmentsWith_start. simpl.
  destruct (isFresh (seen DEPARTMENTS w) (clock w)).
  - intros [= <-]. now left.
  - destruct (remote _) as [[data|message] w1]; intros [= <-]; [now left|].
    right. auto.
Qed.

(** C8. When the fetch step (the step of [fetchDepartments] between the
    cache check and the cache write) throws, the call returns, rather than
    throws, the error result: [success] false, a user-facing message and
    the empty list, which no successful result equals. The step has run
    once: the world is the one it left, with the console line added and
    nothing written by the call. *)
Theorem fetchDepartments_fetch_failure remote (w w1 : World) (message : string) :
  isFresh (seen DEPARTMENTS w) (clock w) = None ->
  remote (after (Utils.storage.get DEPARTMENTS) w) = (Thrown message, w1) ->
  let failure :=
    mkFetchResult false (Some "Unable to load departments. Please try again later.") [] in
  outcome (fetchDepartmentsWith remote) w = Returned failure
  /\ after (fetchDepartmentsWith remote) w
     = mkWorld (localStorage w1) (clock w1)
               (trace w1 ++ [EvConsoleError "Failed to fetch departments:"])
  /\ (forall data, failure <> mkFetchResult true None data).
Proof.
  intros Hstale Hremote failure. unfold outcome, after.
  rewrite (fetchDepartmentsWith_throw remote w w1 message Hstale Hremote).
  repeat split. intros data. discriminate.
Qed.

Lemma fetchDepartments_fetch_failure_witness :
  let remote : M (list DepartmentRecord) :=
    Utils.simulateApiDelay 500 1500 800 ;; throw "Failed to fetch" in
  let w := mkWorld ∅ 5000 [] in
  outcome (fetchDepartmentsWith remote) w
  = Returned (mkFetchResult false
                (Some "Unable to load departments. Please try again later.") [])
  /\ after (fetchDepartmentsWith remote) w
     = mkWorld ∅ 5800 [EvDelay 500 1500; EvConsoleError "Failed to fetch departments:"].
Proof.
  intros remote w.
  destruct (fetchDepartments_fetch_failure remote w
              (mkWorld ∅ 5800 [EvDelay 500 1500]) "Failed to fetch")
    as (Hout & Hafter & _); [reflexivity | reflexivity |].
  split; [exact Hout | exact Hafter].
Defined.

End DirectoryCache.

(* ===================================================================== *)
(** ** The mock login exchange                                            *)
(* ===================================================================== *)

Section Login.

Import JsString ApiService CONFIG.STORAGE_KEYS.

(** What a run of [loginUser] comes to, guard by guard. *)
Lemma loginUser_run (elapsed : Z) (c : Credentials) (w : World) :
  loginUser elapsed c w =
  if negb (truthy (username c)) || negb (truthy (password c))
     || negb (truthy (department c))
  then (Returned (loginFailure "All fields are required"), rejectedWorld elapsed w)
  else if (String.length (username c) <? 3)%nat
  then (Returned (loginFailure "Username must be at least 3 characters"),
        rejectedWorld elapsed w)
  else if (String.length (password c) <? 6)%nat
  then (Returned (loginFailure "Password must be at least 6 characters"),
        rejectedWorld elapsed w)
  else (Returned (loginSuccess (buildUser c (clock w + elapsed))),
        loggedInWorld elapsed c w).
Proof.
  unfold loginUser, tryCatch, mbind, M_bind at 1.
  unfold Utils.simulateApiDelay at 1.
  unfold rejectedWorld, loginFailure.
  destruct (negb (truthy (username c)) || negb (truthy (password c))
            || negb (truthy (department c))).
  { cbn. now rewrite <- app_assoc. }
  destruct (String.length (username c) <? 3)%nat.
  { cbn. now rewrite <- app_assoc. }
  destruct (String.length (password c) <? 6)%nat.
  { cbn. now rewrite <- app_assoc. }
  unfold loggedInWorld, loginSuccess, mbind, M_bind at 1, Date_now.
  cbn [clock localStorage trace].
  destruct (rememberMe c).
  - unfold mbind, M_bind at 1. rewrite set_returns.
    unfold mbind, M_bind at 1. rewrite set_returns. reflexivity.
  - unfold mbind, M_bind at 1. unfold mret, M_ret at 1.
    unfold mbind, M_bind at 1. rewrite set_returns. reflexivity.
Qed.

Lemma loginUser_accepts (elapsed : Z) (c : Credentials) (w : World) :
  (3 <= String.length (username c))%nat ->
  (6 <= String.length (password c))%nat ->
  department c <> "" ->
  loginUser elapsed c w
  = (Returned (loginSuccess (buildUser c (clock w + elapsed))),
     loggedInWorld elapsed c w).
Proof.
  intros Hu Hp Hd. rewrite loginUser_run.
  rewrite (truthy_length (username c)), (truthy_length (password c)) by lia.
  destruct (truthy (department c)) eqn:Td.
  2:{ apply truthy_false_iff in Td. contradiction. }
  simpl. destruct (Nat.ltb_spec (String.length (username c)) 3); [lia|].
  destruct (Nat.ltb_spec (String.length (password c)) 6); [lia|]. reflexivity.
Qed.

(** A login that succeeded had three non-empty fields of the required
    lengths. *)
Lemma loginUser_success_inv (elapsed : Z) (c : Credentials) (w : World) (r : LoginResult) :
  outcome (loginUser elapsed c) w = Returned r ->
  login_success r = true ->
  (3 <= String.length (username c))%nat
  /\ (6 <= String.length (password c))%nat
  /\ department c <> "".
Proof.
  unfold outcome. rewrite loginUser_run.
  destruct (truthy (department c)) eqn:Td.
  2:{ rewrite !orb_true_r. simpl. intros [= <-]. discriminate. }
  destruct (negb (truthy (username c)) || negb (truthy (password c)) || negb true).
  { simpl. intros [= <-]. discriminate. }
  destruct (Nat.ltb_spec (String.length (username c)) 3).
  { simpl. intros [= <-]. discriminate. }
  destruct (Nat.ltb_spec (String.length (password c)) 6).
  { simpl. intros [= <-]. discriminate. }
  intros _ _. repeat split; [lia | lia |].
  intros E. rewrite E in Td. discriminate.
Qed.

Lemma accepted_storage (key : string) (value : Stored) (w w' : World) :
  setItemThrows (localStorage w') = setItemThrows (localStorage w) ->
  accepted key value w' = accepted key value w.
Proof. intros H. unfold accepted. now rewrite H. Qed.

Lemma writesTo_app (key : string) (l1 l2 : list Event) :
  writesTo key (l1 ++ l2) = (writesTo key l1 ++ writesTo key l2)%list.
Proof. apply List.filter_app. Qed.

(** The world in which [loginUser] stores the session: the delay has
    passed and the remembered login, if asked for, has been handed to
    [Utils.storage.set]. *)
Lemma loggedInWorld_before_session (elapsed : Z) (c : Credentials) (w : World) :
  let remembered := StoredRemember (username c) (department c) in
  let w1 := mkWorld (localStorage w) (clock w + elapsed)
                    (trace w ++ [EvDelay 1000 2000]) in
  let w2 := if rememberMe c then after (Utils.storage.set REMEMBER_ME remembered) w1
            else w1 in
  setItemThrows (localStorage w2) = setItemThrows (localStorage w)
  /\ getItemThrows (localStorage w2) = getItemThrows (localStorage w)
  /\ localStorage w2 !! USER_SESSION = localStorage w !! USER_SESSION
  /\ writesTo USER_SESSION (trace w2) = writesTo USER_SESSION (trace w)
  /\ localStorage w2 !! REMEMBER_ME
     = (if rememberMe c && accepted REMEMBER_ME remembered w then Some remembered
        else localStorage w !! REMEMBER_ME)
  /\ writesTo REMEMBER_ME (trace w2)
     = (writesTo REMEMBER_ME (trace w)
        ++ (if rememberMe c && accepted REMEMBER_ME remembered w
            then [EvSetItem REMEMBER_ME remembered] else []))%list
  /\ (rememberMe c && accepted REMEMBER_ME remembered w = false ->
      localStorage w2 = localStorage w).
Proof.
  cbv zeta. destruct (rememberMe c); simpl.
  - destruct (set_frame REMEMBER_ME (StoredRemember (username c) (department c))
                (mkWorld (localStorage w) (clock w + elapsed)
                         (trace w ++ [EvDelay 1000 2000])))
      as (Hother & _ & Hset & Hget).
    rewrite Hset, Hget, (Hother USER_SESSION) by discriminate.
    rewrite set_stores, !set_writes, set_storage. cbn [trace localStorage clock].
    rewrite !writesTo_app.
    change (accepted REMEMBER_ME (StoredRemember (username c) (department c))
              (mkWorld (localStorage w) (clock w + elapsed)
                       (trace w ++ [EvDelay 1000 2000])))
      with (accepted REMEMBER_ME (StoredRemember (username c) (department c)) w).
    change (String.eqb REMEMBER_ME USER_SESSION) with false.
    change (String.eqb REMEMBER_ME REMEMBER_ME) with true.
    rewrite andb_false_r, andb_true_r. simpl. rewrite !app_nil_r.
    repeat split. now intros ->.
  - rewrite !writesTo_app. simpl. rewrite !app_nil_r. repeat split.
Qed.

(** The store and the log after a login that went through. *)
Lemma loggedInWorld_session (elapsed : Z) (c : Credentials) (w : World) :
  let session := StoredSession (buildUser c (clock w + elapsed)) in
  localStorage (loggedInWorld elapsed c w) !! USER_SESSION
  = (if accepted USER_SESSION session w then Some session
     else localStorage w !! USER_SESSION)
  /\ writesTo USER_SESSION (trace (loggedInWorld elapsed c w))
     = (writesTo USER_SESSION (trace w)
        ++ (if accepted USER_SESSION session w
            then [EvSetItem USER_SESSION session] else []))%list.
Proof.
  cbv zeta. unfold loggedInWorld.
  destruct (loggedInWorld_before_session elapsed c w)
    as (Hset & _ & Hstore & Hlog & _).
  rewrite set_stores, set_writes, (accepted_storage _ _ w _ Hset), Hstore, Hlog.
  change (String.eqb USER_SESSION USER_SESSION) with true.
  rewrite andb_true_r. split; reflexivity.
Qed.

Lemma loggedInWorld_remember (elapsed : Z) (c : Credentials) (w : World) :
  let remembered := StoredRemember (username c) (department c) in
  localStorage (loggedInWorld elapsed c w) !! REMEMBER_ME
  = (if rememberMe c && accepted REMEMBER_ME remembered w then Some remembered
     else localStorage w !! REMEMBER_ME)
  /\ writesTo REMEMBER_ME (trace (loggedInWorld elapsed c w))
     = (writesTo REMEMBER_ME (trace w)
        ++ (if rememberMe c && accepted REMEMBER_ME remembered w
            then [EvSetItem REMEMBER_ME remembered] else []))%list
  /\ getItemThrows (localStorage (loggedInWorld elapsed c w))
     = getItemThrows (localStorage w).
Proof.
  cbv zeta. unfold loggedInWorld.
  destruct (loggedInWorld_before_session elapsed c w)
    as (_ & Hget & _ & _ & Hstore & Hlog & _).
  match goal with
  | |- context [after (Utils.storage.set USER_SESSION ?v) ?w2] =>
      destruct (set_frame USER_SESSION v w2) as (Hother & _ & _ & Hget');
      rewrite (Hother REMEMBER_ME) by discriminate;
      rewrite Hget', (set_writes USER_SESSION REMEMBER_ME v w2)
  end.
  change (String.eqb USER_SESSION REMEMBER_ME) with false.
  rewrite andb_false_r, app_nil_r, Hstore, Hlog, Hget. repeat split.
Qed.

Lemma loggedInWorld_frame (elapsed : Z) (c : Credentials) (w : World) (key : string) :
  key <> USER_SESSION ->
  (key = REMEMBER_ME -> rememberMe c = false) ->
  localStorage (loggedInWorld elapsed c w) !! key = localStorage w !! key.
Proof.
  intros Hsession Hremember. unfold loggedInWorld.
  match goal with
  | |- context [after (Utils.storage.set USER_SESSION ?v) ?w2] =>
      destruct (set_frame USER_SESSION v w2) as (Hother & _);
      rewrite (Hother key Hsession)
  end.
  destruct (rememberMe c) eqn:Hrm; [|reflexivity].
  destruct (set_frame REMEMBER_ME (StoredRemember (username c) (department c))
              (mkWorld (localStorage w) (clock w + elapsed)
                       (trace w ++ [EvDelay 1000 2000]))) as (Hother' & _).
  rewrite Hother'; [reflexivity|]. intros ->.
  specialize (Hremember eq_refl). discriminate.
Qed.

(** The input on which the sentence on the persisted session fails: the
    browser refuses the write, the login succeeds all the same and no
    session is in the store. *)
Lemma loginUser_refused_session_counterexample :
  outcome (loginUser 1500 (mkCredentials "alice" "abcdef" "hr" false))
    (mkWorld fullStorage 0 [])
  = Returned (loginSuccess
      (mkSessionUser 1500 "alice" "hr" (codeUnits "Alice User")
         "alice@megaproject.com" "user" ["read"; "write"] 1500))
  /\ localStorage
       (after (loginUser 1500 (mkCredentials "alice" "abcdef" "hr" false))
          (mkWorld fullStorage 0 [])) !! USER_SESSION = None.
Proof. split; reflexivity. Qed.

(** C5, amended. For credentials with a username of length at least 3, a
    password of length at least 6 and a non-empty department, [loginUser]
    returns the success result; its [SessionUser] has the department of
    the credentials and the email [username ++ "@megaproject.com"].
    Whatever the remember-me flag, the session is handed to
    [Utils.storage.set] under the session key: it is in the store
    afterwards when the browser takes the write; when [setItem] throws the
    login succeeds all the same and the entry under the key is the one
    from before. *)
Theorem loginUser_valid_credentials (elapsed : Z) (c : Credentials) (w : World) :
  (3 <= String.length (username c))%nat ->
  (6 <= String.length (password c))%nat ->
  department c <> "" ->
  exists user : SessionUser,
    outcome (loginUser elapsed c) w = Returned (loginSuccess user)
    /\ su_department user = department c
    /\ su_email user = username c ++ "@megaproject.com"
    /\ (if accepted USER_SESSION (StoredSession user) w
        then localStorage (after (loginUser elapsed c) w) !! USER_SESSION
             = Some (StoredSession user)
             /\ writesTo USER_SESSION (trace (after (loginUser elapsed c) w))
                = (writesTo USER_SESSION (trace w)
                   ++ [EvSetItem USER_SESSION (StoredSession user)])%list
        else localStorage (after (loginUser elapsed c) w) !! USER_SESSION
             = localStorage w !! USER_SESSION
             /\ writesTo USER_SESSION (trace (after (loginUser elapsed c) w))
                = writesTo USER_SESSION (trace w)).
Proof.
  intros Hu Hp Hd. exists (buildUser c (clock w + elapsed)).
  unfold outcome, after. rewrite (loginUser_accepts elapsed c w Hu Hp Hd).
  repeat split.
  destruct (loggedInWorld_session elapsed c w) as [Hstore Hlog]. simpl.
  rewrite Hstore, Hlog.
  destruct (accepted USER_SESSION (StoredSession (buildUser c (clock w + elapsed))) w);
    [|rewrite app_nil_r]; split; reflexivity.
Qed.

Lemma loginUser_valid_credentials_witness :
  exists user : SessionUser,
    outcome (loginUser 1500 (mkCredentials "alice" "abcdef" "hr" false)) (mkWorld ∅ 0 [])
    = Returned (loginSuccess user)
    /\ su_department user = "hr"
    /\ su_email user = "alice@megaproject.com".
Proof.
  destruct (loginUser_valid_credentials 1500
              (mkCredentials "alice" "abcdef" "hr" false) (mkWorld ∅ 0 []))
    as (user & Hout & Hdept & Hmail & _); [simpl; lia | simpl; lia | discriminate |].
  exists user. repeat split; assumption.
Defined.

Example loginUser_alice :
  outcome (loginUser 1500 (mkCredentials "alice" "abcdef" "hr" true)) (mkWorld ∅ 0 [])
  = Returned (loginSuccess
      (mkSessionUser 1500 "alice" "hr" (codeUnits "Alice User") "alice@megaproject.com"
         "user" ["read"; "write"] 1500)).
Proof. reflexivity. Qed.

(** The display name of a username that starts with Y WITH DIAERESIS:
    its upper-case form is the code unit U+0178. *)
Example displayName_beyond_latin1 :
  displayName (String (ascii_of_N 255) "ann") = (376%N :: codeUnits "ann User").
Proof. reflexivity. Qed.

(** The input on which the sentence on the remembered login fails: the
    browser refuses the write, the login with remember-me succeeds all the
    same and nothing is remembered. *)
Lemma loginUser_refused_remember_counterexample :
  outcome (loginUser 1500 (mkCredentials "alice" "abcdef" "hr" true))
    (mkWorld fullStorage 0 [])
  = Returned (loginSuccess
      (mkSessionUser 1500 "alice" "hr" (codeUnits "Alice User")
         "alice@megaproject.com" "user" ["read"; "write"] 1500))
  /\ localStorage
       (after (loginUser 1500 (mkCredentials "alice" "abcdef" "hr" true))
          (mkWorld fullStorage 0 [])) !! REMEMBER_ME = None
  /\ outcome (Utils.storage.get REMEMBER_ME)
       (after (loginUser 1500 (mkCredentials "alice" "abcdef" "hr" true))
          (mkWorld fullStorage 0 []))
     = Returned None.
Proof. repeat split. Qed.

(** C6, amended. After a successful login with remember-me set, when the
    browser takes the write, the remembered-login key holds the username
    and the department of the credentials, and a read of the key that
    does not throw returns them; when [setItem] throws, the login succeeds
    all the same and the entry under the key is the one from before.
    After a successful login without remember-me, the call has not written
    the key and the entry under it, if any, is the one from before. *)
Theorem loginUser_remember_me (elapsed : Z) (c : Credentials) (w : World) (r : LoginResult) :
  outcome (loginUser elapsed c) w = Returned r ->
  login_success r = true ->
  let w' := after (loginUser elapsed c) w in
  let remembered := StoredRemember (username c) (department c) in
  if rememberMe c
  then (if accepted REMEMBER_ME remembered w
        then localStorage w' !! REMEMBER_ME = Some remembered
             /\ (getItemThrows (localStorage w) REMEMBER_ME = false ->
                 outcome (Utils.storage.get REMEMBER_ME) w' = Returned (Some remembered))
        else localStorage w' !! REMEMBER_ME = localStorage w !! REMEMBER_ME
             /\ writesTo REMEMBER_ME (trace w') = writesTo REMEMBER_ME (trace w))
  else writesTo REMEMBER_ME (trace w') = writesTo REMEMBER_ME (trace w)
       /\ localStorage w' !! REMEMBER_ME = localStorage w !! REMEMBER_ME.
Proof.
  intros Hout Hsucc.
  destruct (loginUser_success_inv elapsed c w r Hout Hsucc) as (Hu & Hp & Hd).
  cbv zeta. unfold after. rewrite (loginUser_accepts elapsed c w Hu Hp Hd). simpl.
  destruct (loggedInWorld_remember elapsed c w) as (Hstore & Hlog & Hget).
  rewrite Hstore, Hlog.
  destruct (rememberMe c); simpl.
  - destruct (accepted REMEMBER_ME (StoredRemember (username c) (department c)) w).
    + split; [reflexivity|]. intros Hread. unfold outcome.
      rewrite get_quiet by (rewrite Hget; exact Hread). simpl. now rewrite Hstore.
    + rewrite app_nil_r. split; reflexivity.
  - rewrite app_nil_r. split; reflexivity.
Qed.

Lemma loginUser_remember_me_witness :
  let w := mkWorld {[ REMEMBER_ME := StoredRemember "bob" "it" ]} 0 [] in
  localStorage (after (loginUser 1500 (mkCredentials "alice" "abcdef" "hr" true)) w)
    !! REMEMBER_ME = Some (StoredRemember "alice" "hr")
  /\ localStorage (after (loginUser 1500 (mkCredentials "alice" "abcdef" "hr" false)) w)
       !! REMEMBER_ME = Some (StoredRemember "bob" "it").
Proof.
  intros w. split.
  - apply (loginUser_remember_me 1500 (mkCredentials "alice" "abcdef" "hr" true) w
             (loginSuccess (buildUser (mkCredentials "alice" "abcdef" "hr" true) 1500)));
      reflexivity.
  - apply (loginUser_remember_me 1500 (mkCredentials "alice" "abcdef" "hr" false) w
             (loginSuccess (buildUser (mkCredentials "alice" "abcdef" "hr" false) 1500)));
      reflexivity.
Defined.

(** A username shorter than 3 never passes: the first guard throws when a
    field is empty, the second otherwise. *)
Lemma loginUser_rejects_short (elapsed : Z) (c : Credentials) (w : World) :
  (String.length (username c) < 3)%nat ->
  loginUser elapsed c w
  = (Returned (loginFailure
       (if negb (truthy (username c)) || negb (truthy (password c))
           || negb (truthy (department c))
        then "All fields are required"
        else "Username must be at least 3 characters")),
     rejectedWorld elapsed w).
Proof.
  intros Hshort. rewrite loginUser_run.
  destruct (negb (truthy (username c)) || negb (truthy (password c))
            || negb (truthy (department c))); [reflexivity|].
  destruct (Nat.ltb_spec (String.length (username c)) 3); [reflexivity | lia].
Qed.

(** The input on which the sentence on short usernames fails: with an
    empty password the first guard answers, with its own message. *)
Lemma short_username_empty_password_counterexample :
  username (mkCredentials "ab" "" "hr" false) <> ""
  /\ (String.length (username (mkCredentials "ab" "" "hr" false)) < 3)%nat
  /\ outcome (loginUser 1500 (mkCredentials "ab" "" "hr" false)) (mkWorld ∅ 0 [])
     = Returned (loginFailure "All fields are required")
  /\ outcome (loginUser 1500 (mkCredentials "ab" "" "hr" false)) (mkWorld ∅ 0 [])
     <> Returned (loginFailure "Username must be at least 3 characters").
Proof.
  split; [discriminate|]. split; [simpl; lia|]. split; [reflexivity|].
  discriminate.
Qed.

(** C7, amended. For credentials whose username is non-empty and shorter
    than 3, [loginUser] returns an error result with null data and does
    not reach the success path: the store is the one before the call and
    the call wrote neither the session key nor the remembered-login key.
    The message is the username-too-short one when the password and the
    department are both non-empty, and "All fields are required" when
    either is empty. *)
Theorem loginUser_short_username (elapsed : Z) (c : Credentials) (w : World) :
  username c <> "" ->
  (String.length (username c) < 3)%nat ->
  let message :=
    if String.eqb (password c) "" || String.eqb (department c) ""
    then "All fields are required"
    else "Username must be at least 3 characters" in
  outcome (loginUser elapsed c) w = Returned (loginFailure message)
  /\ login_success (loginFailure message) = false
  /\ login_data (loginFailure message) = None
  /\ localStorage (after (loginUser elapsed c) w) = localStorage w
  /\ trace (after (loginUser elapsed c) w)
     = (trace w ++ [EvDelay 1000 2000; EvConsoleError "Login error:"])%list
  /\ writesTo USER_SESSION (trace (after (loginUser elapsed c) w))
     = writesTo USER_SESSION (trace w)
  /\ writesTo REMEMBER_ME (trace (after (loginUser elapsed c) w))
     = writesTo REMEMBER_ME (trace w).
Proof.
  intros Hne Hshort message. unfold outcome, after.
  rewrite (loginUser_rejects_short elapsed c w Hshort). simpl.
  assert (negb (truthy (username c)) = false) as ->.
  { destruct (username c); [contradiction | reflexivity]. }
  rewrite !truthy_eqb_empty. simpl. fold message.
  repeat split.
  - unfold writesTo. rewrite List.filter_app. simpl. apply app_nil_r.
  - unfold writesTo. rewrite List.filter_app. simpl. apply app_nil_r.
Qed.

Lemma loginUser_short_username_witness :
  outcome (loginUser 1500 (mkCredentials "ab" "abcdef" "hr" true)) (mkWorld ∅ 0 [])
  = Returned (loginFailure "Username must be at least 3 characters")
  /\ outcome (loginUser 1500 (mkCredentials "ab" "" "hr" true)) (mkWorld ∅ 0 [])
     = Returned (loginFailure "All fields are required")
  /\ localStorage (after (loginUser 1500 (mkCredentials "ab" "abcdef" "hr" true))
                     (mkWorld ∅ 0 [])) = ∅.
Proof.
  destruct (loginUser_short_username 1500 (mkCredentials "ab" "abcdef" "hr" true)
              (mkWorld ∅ 0 []))
    as (Hout & _ & _ & Hstore & _); [discriminate | simpl; lia |].
  destruct (loginUser_short_username 1500 (mkCredentials "ab" "" "hr" true)
              (mkWorld ∅ 0 []))
    as (Hout' & _); [discriminate | simpl; lia |].
  split; [exact Hout|]. split; [exact Hout' | exact Hstore].
Defined.

(** The input on which the sentence on known departments fails: the
    department is the id of no record, and the login succeeds. *)
Lemma unknown_department_login_counterexample :
  knownDepartment (department (mkCredentials "alice" "abcdef" "no-such-dept" false)) = false
  /\ outcome (loginUser 1500 (mkCredentials "alice" "abcdef" "no-such-dept" false))
       (mkWorld ∅ 0 [])
     = Returned (loginSuccess
         (mkSessionUser 1500 "alice" "no-such-dept" (codeUnits "Alice User")
            "alice@megaproject.com" "user" ["read"; "write"] 1500)).
Proof. split; reflexivity. Qed.

(** C9, amended. [loginUser] does not compare the department with the
    directory; it asks only that it be non-empty. With a username of
    length at least 3 and a password of length at least 6, a non-empty
    department that is the id of no record gives the success result, with
    that department in the [SessionUser], and the result is the error
    result exactly when the department is empty. *)
Theorem loginUser_department_not_checked (elapsed : Z) (c : Credentials) (w : World) :
  (3 <= String.length (username c))%nat ->
  (6 <= String.length (password c))%nat ->
  (department c <> "" ->
   knownDepartment (department c) = false ->
   exists user, outcome (loginUser elapsed c) w = Returned (loginSuccess user)
                /\ su_department user = department c)
  /\ (department c = "" ->
      outcome (loginUser elapsed c) w
      = Returned (loginFailure "All fields are required")).
Proof.
  intros Hu Hp. split.
  - intros Hd _. exists (buildUser c (clock w + elapsed)). unfold outcome.
    now rewrite (loginUser_accepts elapsed c w Hu Hp Hd).
  - intros Hd. unfold outcome. rewrite loginUser_run, Hd. simpl.
    now rewrite !orb_true_r.
Qed.

Lemma loginUser_department_not_checked_witness :
  exists user,
    outcome (loginUser 1200 (mkCredentials "carol" "secret1" "no-such-dept" true))
      (mkWorld ∅ 0 []) = Returned (loginSuccess user)
    /\ su_department user = "no-such-dept".
Proof.
  destruct (loginUser_department_not_checked 1200
              (mkCredentials "carol" "secret1" "no-such-dept" true) (mkWorld ∅ 0 []))
    as (Hunknown & _); [simpl; lia | simpl; lia |].
  apply Hunknown; [discriminate | reflexivity].
Defined.

End Login.

(* ===================================================================== *)
(** ** The field rules                                                    *)
(* ===================================================================== *)

Section FormValidator.

Import JsString ApiService LoginManager.

(** The switch of [validateField], kind by kind, on the trimmed value. *)
Lemma checkField_rules (f : Field) :
  match kindOf f with
  | Some kind => verdictOf (checkField f) = rules kind (trim (field_value f))
  | None => checkField f = (true, "")
  end.
Proof.
  unfold kindOf, checkField.
  destruct (String.eqb (switchKey f) "text").
  { simpl. rewrite truthy_eqb_empty.
    destruct (String.eqb (trim (field_value f)) ""); [reflexivity|].
    now destruct (String.length (trim (field_value f)) <? 3)%nat. }
  destruct (String.eqb (switchKey f) "password").
  { simpl. rewrite truthy_eqb_empty.
    destruct (String.eqb (trim (field_value f)) ""); [reflexivity|].
    now destruct (String.length (trim (field_value f)) <? 6)%nat. }
  destruct (String.eqb (switchKey f) "select-one"); [|reflexivity].
  simpl. rewrite truthy_eqb_empty.
  now destruct (String.eqb (trim (field_value f)) "").
Qed.

Lemma validateField_returns (f : Field) :
  fst (validateField (Some f)) = fst (checkField f).
Proof. unfold validateField. now destruct (checkField f). Qed.

(** The input on which the sentence on the field rules fails: six spaces
    are a non-empty password of length 6, valid by the rules as worded,
    and [validateField] answers "Password is required". *)
Lemma whitespace_password_field_counterexample :
  spec_validateField PasswordField "      " = Valid
  /\ checkField (fieldOf PasswordField "      ") = (false, "Password is required")
  /\ validateField (Some (fieldOf PasswordField "      "))
     = (false, Some (mkField "password" "INPUT" "      " false true
                       (Some "Password is required")))
  /\ verdictOf (checkField (fieldOf PasswordField "      "))
     <> spec_validateField PasswordField "      ".
Proof. repeat split. discriminate. Qed.

(** C4, amended. [validateField] applies each rule to the value after
    [trim]: a text value is invalid with the required message if the
    trimmed value is empty and with the too-short message if its length is
    below 3; a password value is invalid with the required message if the
    trimmed value is empty and with the too-short message if its length is
    below 6; a selection is invalid with the required message if the
    trimmed value is empty; every other case, and every other kind of
    control, is valid. The password "12345" is invalid and "123456" is
    valid. *)
Theorem validateField_rules_on_trimmed (f : Field) :
  fst (validateField (Some f)) = fst (checkField f)
  /\ match kindOf f with
     | Some kind => verdictOf (checkField f) = rules kind (trim (field_value f))
     | None => checkField f = (true, "")
     end
  /\ (forall kind raw,
        kindOf (fieldOf kind raw) = Some kind
        /\ verdictOf (checkField (fieldOf kind raw)) = rules kind (trim raw))
  /\ (forall raw,
        verdictOf (checkField (fieldOf TextField raw)) = spec_validateField TextField raw)
  /\ fst (validateField (Some (fieldOf PasswordField "12345"))) = false
  /\ fst (validateField (Some (fieldOf PasswordField "123456"))) = true.
Proof.
  split; [apply validateField_returns|].
  split; [apply checkField_rules|].
  split.
  - intros kind raw.
    assert (kindOf (fieldOf kind raw) = Some kind) as Hk by now destruct kind.
    split; [exact Hk|].
    pose proof (checkField_rules (fieldOf kind raw)) as H. rewrite Hk in H.
    now destruct kind.
  - split; [|split; reflexivity].
    intros raw. pose proof (checkField_rules (fieldOf TextField raw)) as H.
    exact H.
Qed.

(** [validateForm] is true only if every control present is valid. *)
Lemma validateForm_all (form : Form) :
  fst (validateForm form) = true
  <-> fst (validateField (usernameInput form)) = true
      /\ fst (validateField (passwordInput form)) = true
      /\ fst (validateField (departmentSelect form)) = true.
Proof.
  unfold validateForm.
  destruct (validateField (usernameInput form)) as [v1 u].
  destruct (validateField (passwordInput form)) as [v2 p].
  destruct (validateField (departmentSelect form)) as [v3 s]. simpl.
  rewrite !andb_true_iff. tauto.
Qed.

Example validateField_text_empty :
  checkField (fieldOf TextField "") = (false, "Username is required").
Proof. reflexivity. Qed.

Example validateField_text_ab :
  checkField (fieldOf TextField "ab")
  = (false, "Username must be at least 3 characters").
Proof. reflexivity. Qed.

Example validateField_text_abc : checkField (fieldOf TextField "abc") = (true, "").
Proof. reflexivity. Qed.

Example validateField_password_padded :
  checkField (fieldOf PasswordField " 12345")
  = (false, "Password must be at least 6 characters").
Proof. reflexivity. Qed.

(** C10. [loginUser] applies its length check to the password as given,
    not to the trimmed one, while [validateField] judges the trimmed
    value. With a username of length at least 3 and a non-empty
    department, the login succeeds exactly when the raw password has
    length at least 6, and a non-empty raw password shorter than 6 is
    refused with "Password must be at least 6 characters". So a password
    of length at least 6 made of white space only gives the success
    result, although [validateField] finds the same value invalid with the
    message "Password is required". *)
Theorem loginUser_whitespace_password
    (elapsed : Z) (c : Credentials) (w : World) (f : Field) :
  (3 <= String.length (username c))%nat ->
  department c <> "" ->
  kindOf f = Some PasswordField ->
  field_value f = password c ->
  (exists r, outcome (loginUser elapsed c) w = Returned r
             /\ (login_success r = true <-> (6 <= String.length (password c))%nat))
  /\ (password c <> "" -> (String.length (password c) < 6)%nat ->
      outcome (loginUser elapsed c) w
      = Returned (loginFailure "Password must be at least 6 characters"))
  /\ verdictOf (checkField f) = rules PasswordField (trim (password c))
  /\ ((6 <= String.length (password c))%nat ->
      allWhiteSpace (password c) = true ->
      (exists user, outcome (loginUser elapsed c) w = Returned (loginSuccess user))
      /\ checkField f = (false, "Password is required")
      /\ fst (validateField (Some f)) = false).
Proof.
  intros Hu Hd Hkind Hvalue.
  assert (truthy (username c) = true) as Tu by (apply truthy_length; lia).
  assert (truthy (department c) = true) as Td.
  { destruct (department c); [contradiction | reflexivity]. }
  assert ((6 <= String.length (password c))%nat ->
          outcome (loginUser elapsed c) w
          = Returned (loginSuccess (buildUser c (clock w + elapsed)))) as Hlong.
  { intros Hp. unfold outcome.
    now rewrite (loginUser_accepts elapsed c w Hu Hp Hd). }
  assert ((String.length (password c) < 6)%nat ->
          outcome (loginUser elapsed c) w
          = Returned (loginFailure
                        (if truthy (password c)
                         then "Password must be at least 6 characters"
                         else "All fields are required"))) as Hshort.
  { intros Hp. unfold outcome. rewrite loginUser_run, Tu, Td.
    destruct (truthy (password c)); simpl; [|reflexivity].
    destruct (Nat.ltb_spec (String.length (username c)) 3); [lia|].
    destruct (Nat.ltb_spec (String.length (password c)) 6); [reflexivity | lia]. }
  split; [|split; [|split]].
  - destruct (le_lt_dec 6 (String.length (password c))) as [Hp|Hp].
    + eexists. split; [exact (Hlong Hp)|]. simpl. tauto.
    + eexists. split; [exact (Hshort Hp)|]. simpl. split; [discriminate | lia].
  - intros Hne Hp. rewrite (Hshort Hp).
    destruct (password c); [contradiction | reflexivity].
  - pose proof (checkField_rules f) as H. rewrite Hkind, Hvalue in H. exact H.
  - intros Hp Hws. split; [eexists; exact (Hlong Hp)|].
    assert (checkField f = (false, "Password is required")) as Hcheck.
    { unfold kindOf in Hkind. unfold checkField.
      rewrite Hvalue, (trim_allWhiteSpace _ Hws).
      destruct (String.eqb (switchKey f) "text"); [discriminate|].
      destruct (String.eqb (switchKey f) "password"); [reflexivity|].
      destruct (String.eqb (switchKey f) "select-one"); discriminate. }
    split; [exact Hcheck|]. now rewrite validateField_returns, Hcheck.
Qed.

Lemma loginUser_whitespace_password_witness :
  (exists user,
     outcome (loginUser 1500 (mkCredentials "alice" "      " "hr" false)) (mkWorld ∅ 0 [])
     = Returned (loginSuccess user))
  /\ checkField (fieldOf PasswordField "      ") = (false, "Password is required")
  /\ outcome (loginUser 1500 (mkCredentials "alice" " abc" "hr" false)) (mkWorld ∅ 0 [])
     = Returned (loginFailure "Password must be at least 6 characters").
Proof.
  destruct (loginUser_whitespace_password 1500
              (mkCredentials "alice" "      " "hr" false) (mkWorld ∅ 0 [])
              (fieldOf PasswordField "      "))
    as (_ & _ & _ & Hspaces);
    [simpl; lia | discriminate | reflexivity | reflexivity |].
  destruct (Hspaces ltac:(simpl; lia) eq_refl) as (Hlogin & Hcheck & _).
  destruct (loginUser_whitespace_password 1500
              (mkCredentials "alice" " abc" "hr" false) (mkWorld ∅ 0 [])
              (fieldOf PasswordField " abc"))
    as (_ & Hshort & _);
    [simpl; lia | discriminate | reflexivity | reflexivity |].
  split; [exact Hlogin|]. split; [exact Hcheck|].
  apply Hshort; [discriminate | simpl; lia].
Defined.

End FormValidator.

(* ===================================================================== *)
(** ** Debounce and the events of the search box                          *)
(* ===================================================================== *)

Section Debounce.

Import Utils Dashboard.

Context {St Args : Type} (func : Args -> St -> St) (wait : Z).

Lemma debounceRun_app (evs1 evs2 : list (TimerEvent Args)) st :
  debounceRun func wait (evs1 ++ evs2) st
  = debounceRun func wait evs2 (debounceRun func wait evs1 st).
Proof. unfold debounceRun. apply fold_left_app. Qed.

(** During a quiet stretch the function is not called: the timer is
    re-armed by every call and is never due. *)
Lemma debounceRun_quiet (evs : list (TimerEvent Args)) (due : Z) (args : Args) (st : St) :
  quiet wait due evs ->
  debounceRun func wait evs (Some (due, args), st)
  = (Some (lastCall wait (due, args) evs), st).
Proof.
  revert due args. induction evs as [|[now a|now] evs IH]; intros due args Hq.
  - reflexivity.
  - destruct Hq as [_ Hq]. exact (IH _ a Hq).
  - destruct Hq as [Hlt Hq]. unfold debounceRun. simpl.
    destruct (Z.leb_spec due now); [lia|]. exact (IH due args Hq).
Qed.

(** X1. A burst of calls of a debounced function, each before the timer
    of the one before is due, runs the function once, when the timer of
    the last call is due, with the arguments of the last call; a timer
    that was pending before the burst is cancelled. *)
Theorem debounce_burst_runs_last
    (t0 : Z) (a0 : Args) (evs : list (TimerEvent Args)) (finish : Z)
    (pending : option (Z * Args)) (st : St) :
  quiet wait (t0 + wait) evs ->
  (fst (lastCall wait ((t0 + wait)%Z, a0) evs) <= finish)%Z ->
  debounceRun func wait (Invoke t0 a0 :: evs ++ [Tick finish]) (pending, st)
  = (None, func (snd (lastCall wait ((t0 + wait)%Z, a0) evs)) st).
Proof.
  intros Hq Hdue.
  change (debounceRun func wait (Invoke t0 a0 :: evs ++ [Tick finish]) (pending, st))
    with (debounceRun func wait (evs ++ [Tick finish]) (Some ((t0 + wait)%Z, a0), st)).
  rewrite debounceRun_app, (debounceRun_quiet evs _ a0 st Hq).
  destruct (lastCall wait ((t0 + wait)%Z, a0) evs) as [due args]. simpl in *.
  unfold debounceRun. simpl. destruct (Z.leb_spec due finish); [reflexivity | lia].
Qed.

End Debounce.

Section DebounceLog.

Import Utils.

Context {Args : Type} (wait : Z).

Lemma debounce_burst_runs_last_witness :
  debounceRun (@record string) 300
    [Invoke 0 "h"; Invoke 120 "hr"; Tick 200; Invoke 400 "hrx"; Tick 700]
    (Some (50%Z, "old"), [])
  = (None, ["hrx"]).
Proof.
  apply (debounce_burst_runs_last (@record string) 300 0 "h"
           [Invoke 120 "hr"; Tick 200; Invoke 400 "hrx"] 700).
  - simpl. lia.
  - simpl. lia.
Defined.

Lemma debounceRun_record_sublist (evs : list (TimerEvent Args))
    (pending : option (Z * Args)) (log : list Args) :
  exists ran : list Args,
    snd (debounceRun record wait evs (pending, log)) = (log ++ ran)%list
    /\ ran `sublist_of` ((match pending with Some (_, a) => [a] | None => [] end
                          ++ invoked evs)%list).
Proof.
  revert pending log. induction evs as [|[now a|now] evs IH]; intros pending log.
  - exists []. split; [now rewrite app_nil_r | apply sublist_nil_l].
  - destruct (IH (Some ((now + wait)%Z, a)) log) as (ran & Hrun & Hsub).
    exists ran. split; [exact Hrun|].
    destruct pending as [[d b]|]; [|exact Hsub].
    now apply sublist_cons.
  - destruct pending as [[d b]|].
    + unfold debounceRun. simpl. destruct (Z.leb_spec d now).
      * destruct (IH None (record b log)) as (ran & Hrun & Hsub).
        exists (b :: ran). split.
        -- unfold debounceRun in Hrun. rewrite Hrun. unfold record.
           now rewrite <- app_assoc.
        -- now apply sublist_skip.
      * exact (IH (Some (d, b)) log).
    + exact (IH None log).
Qed.

(** X2. Whatever the timeline, a debounced function is called only with
    arguments it was handed, each call of the wrapper leading to at most
    one call of the function, in the order of the calls. *)
Theorem debounce_runs_only_invoked (evs : list (TimerEvent Args)) :
  snd (debounceRun record wait evs (None, [])) `sublist_of` invoked evs.
Proof.
  destruct (debounceRun_record_sublist evs None []) as (ran & -> & Hsub).
  exact Hsub.
Qed.

End DebounceLog.

Section SearchBox.

Import JsString Utils Dashboard.

Lemma onEvents_app (evs1 evs2 : list UiEvent) l :
  onEvents (evs1 ++ evs2) l = onEvents evs2 (onEvents evs1 l).
Proof. unfold onEvents. apply fold_left_app. Qed.

Lemma setSearchText_same (d : State) : setSearchText (searchInput_value d) d = d.
Proof. now destruct d. Qed.

Lemma setSearchText_twice (a b : string) (d : State) :
  setSearchText b (setSearchText a d) = setSearchText b d.
Proof. reflexivity. Qed.

(** While the typing goes on nothing is filtered: only the text of the box
    and the timer change. *)
Lemma onEvents_quietTyping (evs : list UiEvent) (due : Z) (d : State) :
  quietTyping due evs ->
  onEvents evs (Some (due, tt), d)
  = (Some (fst (lastTyped (due, searchInput_value d) evs), tt),
     setSearchText (snd (lastTyped (due, searchInput_value d) evs)) d).
Proof.
  revert due d. induction evs as [|[now text| |now focused|now] evs IH];
    intros due d Hq; try contradiction.
  - simpl. now rewrite setSearchText_same.
  - destruct Hq as [_ Hq].
    change (onEvents (KeyInput now text :: evs) (Some (due, tt), d))
      with (onEvents evs (Some ((now + 300)%Z, tt), setSearchText text d)).
    rewrite (IH _ _ Hq). reflexivity.
  - destruct Hq as [Hlt Hq]. unfold onEvents. simpl.
    unfold debouncedSearch, debounce. simpl.
    destruct (Z.leb_spec due now); [lia|]. exact (IH due d Hq).
Qed.

(** X3. Typing in the search box, each key less than 300 ms after the one
    before, leaves the list as it was while the typing lasts, whatever
    timer was pending before; when the timer of the last key is due the
    list is filtered once, by the final text of the box. *)
Theorem search_box_burst
    (t0 : Z) (x0 : string) (evs : list UiEvent) (finish : Z)
    (pending : option (Z * unit)) (d : State) :
  quietTyping (t0 + 300) evs ->
  (fst (lastTyped ((t0 + 300)%Z, x0) evs) <= finish)%Z ->
  let text := snd (lastTyped ((t0 + 300)%Z, x0) evs) in
  filteredDepartments (snd (onEvents (KeyInput t0 x0 :: evs) (pending, d)))
  = filteredDepartments d
  /\ onEvents (KeyInput t0 x0 :: evs ++ [TimerTick finish]) (pending, d)
     = (None, handleSearch (setSearchText text d))
  /\ filteredDepartments
       (snd (onEvents (KeyInput t0 x0 :: evs ++ [TimerTick finish]) (pending, d)))
     = searchFilter (departments d) text.
Proof.
  intros Hq Hdue text.
  assert (onEvents (KeyInput t0 x0 :: evs) (pending, d)
          = (Some (fst (lastTyped ((t0 + 300)%Z, x0) evs), tt), setSearchText text d))
    as Htyping.
  { change (onEvents (KeyInput t0 x0 :: evs) (pending, d))
      with (onEvents evs (Some ((t0 + 300)%Z, tt), setSearchText x0 d)).
    rewrite (onEvents_quietTyping evs _ _ Hq). reflexivity. }
  assert (onEvents (KeyInput t0 x0 :: evs ++ [TimerTick finish]) (pending, d)
          = (None, handleSearch (setSearchText text d))) as Hdone.
  { change (KeyInput t0 x0 :: evs ++ [TimerTick finish])
      with ((KeyInput t0 x0 :: evs) ++ [TimerTick finish])%list.
    rewrite onEvents_app, Htyping. unfold onEvents. simpl.
    unfold debouncedSearch, debounce. simpl.
    destruct (Z.leb_spec (fst (lastTyped ((t0 + 300)%Z, x0) evs)) finish);
      [reflexivity | lia]. }
  split; [now rewrite Htyping|]. split; [exact Hdone|].
  rewrite Hdone. simpl. now rewrite handleSearch_filtered.
Qed.

Lemma search_box_burst_witness :
  map dept_id
    (filteredDepartments
       (snd (onEvents
               [KeyInput 0 "s"; KeyInput 100 "se"; TimerTick 250; KeyInput 390 "sec";
                TimerTick 690]
               (None, mkState "" MOCK_DEPARTMENTS MOCK_DEPARTMENTS None))))
  = ["security"].
Proof.
  destruct (search_box_burst 0 "s" [KeyInput 100 "se"; TimerTick 250; KeyInput 390 "sec"]
              690 None (mkState "" MOCK_DEPARTMENTS MOCK_DEPARTMENTS None))
    as (_ & _ & Hfiltered); [simpl; lia | simpl; lia |].
  exact (f_equal (map dept_id) Hfiltered).
Defined.

Lemma onEvent_keeps (l : option (Z * unit) * State) (ev : UiEvent) :
  departments (snd (onEvent l ev)) = departments (snd l)
  /\ (filteredDepartments (snd l) `sublist_of` departments (snd l) ->
      filteredDepartments (snd (onEvent l ev)) `sublist_of` departments (snd l)).
Proof.
  assert (forall d, departments (handleSearch d) = departments d
                    /\ filteredDepartments (handleSearch d) `sublist_of` departments d)
    as Hsearch.
  { intros d. split; [apply handleSearch_departments|].
    rewrite handleSearch_filtered, searchFilter_filter. apply filter_sublist. }
  destruct l as [timer d]. destruct ev as [now text| |now focused|now]; simpl.
  - auto.
  - destruct (Hsearch d). auto.
  - destruct focused; simpl; auto.
  - unfold debouncedSearch, debounce. simpl.
    destruct timer as [[due []]|]; [|auto].
    destruct (due <=? now)%Z; simpl; [|auto]. destruct (Hsearch d). auto.
Qed.

(** X4. Whatever happens to the search box (typing, Enter, Escape, timers,
    in any order), the loaded list of departments stays as it is, and the
    list on display stays a sublist of it, in its order. *)
Theorem search_box_invariant (evs : list UiEvent) (l : option (Z * unit) * State) :
  filteredDepartments (snd l) `sublist_of` departments (snd l) ->
  departments (snd (onEvents evs l)) = departments (snd l)
  /\ filteredDepartments (snd (onEvents evs l)) `sublist_of` departments (snd l).
Proof.
  revert l. induction evs as [|ev evs IH]; intros l Hsub; [auto|].
  change (onEvents (ev :: evs) l) with (onEvents evs (onEvent l ev)).
  destruct (onEvent_keeps l ev) as [Hd Hf].
  destruct (IH (onEvent l ev)) as [Hd' Hf'].
  - rewrite Hd. auto.
  - rewrite Hd in *. auto.
Qed.

Lemma search_box_invariant_witness :
  filteredDepartments
    (snd (onEvents [KeyInput 0 "fin"; PressEnter; PressEscape 40 true; TimerTick 400]
            (None, mkState "" MOCK_DEPARTMENTS [] None)))
  `sublist_of` MOCK_DEPARTMENTS.
Proof.
  apply (search_box_invariant
           [KeyInput 0 "fin"; PressEnter; PressEscape 40 true; TimerTick 400]
           (None, mkState "" MOCK_DEPARTMENTS [] None)).
  apply sublist_nil_l.
Defined.

Lemma renderDepartments_again (d : State) :
  renderDepartments (renderDepartments d) = renderDepartments d.
Proof.
  unfold renderDepartments. destruct d as [text D F [grid|]]; simpl; reflexivity.
Qed.

Lemma handleSearch_again (d : State) : handleSearch (handleSearch d) = handleSearch d.
Proof.
  destruct d as [text D F [grid|]]; unfold handleSearch, renderDepartments;
    reflexivity.
Qed.

(** X5. The Enter key filters at once by the text of the box and leaves
    the timer of the last key pending; when that timer later runs the
    search again, nothing on the page changes. *)
Theorem search_box_enter (now later : Z) (text : string)
    (pending : option (Z * unit)) (d : State) :
  (now + 300 <= later)%Z ->
  let shown := snd (onEvents [KeyInput now text; PressEnter] (pending, d)) in
  filteredDepartments shown = searchFilter (departments d) text
  /\ fst (onEvents [KeyInput now text; PressEnter] (pending, d))
     = Some ((now + 300)%Z, tt)
  /\ snd (onEvents [KeyInput now text; PressEnter; TimerTick later] (pending, d))
     = shown.
Proof.
  intros Hlater shown. unfold shown, onEvents. simpl.
  unfold debouncedSearch, debounce. simpl.
  destruct (Z.leb_spec (now + 300) later); [|lia]. simpl.
  rewrite handleSearch_filtered, handleSearch_again. auto.
Qed.

Lemma search_box_enter_witness :
  map dept_id
    (filteredDepartments
       (snd (onEvents [KeyInput 10 "Finance"; PressEnter; TimerTick 310]
               (None, mkState "" MOCK_DEPARTMENTS MOCK_DEPARTMENTS None))))
  = ["finance"].
Proof.
  destruct (search_box_enter 10 310 "Finance" None
              (mkState "" MOCK_DEPARTMENTS MOCK_DEPARTMENTS None))
    as (Hshown & _ & Hlater); [lia|].
  rewrite Hlater, Hshown. reflexivity.
Defined.

(** X6. The Escape key in the focused search box empties it, and once the
    300 ms have passed the whole list is on display again; with the box
    not focused the key changes nothing. *)
Theorem search_box_escape (now later : Z) (pending : option (Z * unit)) (d : State) :
  (now + 300 <= later)%Z ->
  let cleared := snd (onEvents [PressEscape now true; TimerTick later] (pending, d)) in
  searchInput_value cleared = ""
  /\ filteredDepartments cleared = departments d
  /\ onEvent (pending, d) (PressEscape now false) = (pending, d).
Proof.
  intros Hlater cleared. unfold cleared, onEvents. simpl.
  unfold debouncedSearch, debounce. simpl.
  destruct (Z.leb_spec (now + 300) later); [|lia]. simpl.
  destruct (renderDepartments_lists
              (mkState "" (departments d) (searchFilter (departments d) "")
                 (departmentsGrid d))) as (_ & Hf & Ht).
  unfold handleSearch. simpl. rewrite Hf, Ht. simpl. auto.
Qed.

Lemma search_box_escape_witness :
  filteredDepartments
    (snd (onEvents [PressEscape 0 true; TimerTick 300]
            (None, mkState "hr" MOCK_DEPARTMENTS [] None)))
  = MOCK_DEPARTMENTS.
Proof.
  apply (search_box_escape 0 300 None (mkState "hr" MOCK_DEPARTMENTS [] None)). lia.
Defined.

End SearchBox.

(* ===================================================================== *)
(** ** Loading the directory into the pages                               *)
(* ===================================================================== *)

Section PageLoad.

Import ApiService CONFIG.STORAGE_KEYS.

(** [fetchDepartmentsWith] always returns; name its result and world. *)
Lemma fetchDepartmentsWith_run remote (w : World) :
  exists r w', fetchDepartmentsWith remote w = (Returned r, w').
Proof.
  rewrite fetchDepartmentsWith_start. simpl.
  destruct (isFresh (seen DEPARTMENTS w) (clock w)); [eauto|].
  destruct (remote _) as [[data|message] w1]; eauto.
Qed.

Lemma fetchDepartments_run (elapsed : Z) (w : World) :
  fetchDepartments elapsed w
  = match isFresh (seen DEPARTMENTS w) (clock w) with
    | Some data => (Returned (mkFetchResult true None data), w)
    | None => (Returned (mkFetchResult true None MOCK_DEPARTMENTS), missWorld elapsed w)
    end.
Proof.
  destruct (isFresh (seen DEPARTMENTS w) (clock w)) as [data|] eqn:E.
  - now apply fetchDepartmentsWith_hit.
  - now apply fetchDepartments_miss.
Qed.

Lemma missWorld_frame (elapsed : Z) (w : World) :
  (forall key, key <> DEPARTMENTS ->
     localStorage (missWorld elapsed w) !! key = localStorage w !! key)
  /\ getItemThrows (localStorage (missWorld elapsed w)) = getItemThrows (localStorage w)
  /\ setItemThrows (localStorage (missWorld elapsed w)) = setItemThrows (localStorage w).
Proof.
  destruct (missWorld_store elapsed w) as [_ Hstore].
  destruct (accepted DEPARTMENTS (StoredCache MOCK_DEPARTMENTS (clock w + elapsed)) w);
    rewrite Hstore; repeat split.
  intros key Hkey. apply Storage_lookup_insert_ne. congruence.
Qed.

(** X7. A call of [fetchDepartments], hit or miss, leaves every other key
    of the store as it was. When the read of the cache key does not throw
    and the browser takes the write of a miss, the store holds afterwards,
    under the cache key, an entry that is fresh at the time the call ends
    and carries the list the call returned. *)
Theorem fetchDepartments_leaves_fresh_entry (elapsed : Z) (w : World) :
  (forall key, key <> DEPARTMENTS ->
     localStorage (after (fetchDepartments elapsed) w) !! key
     = localStorage w !! key)
  /\ (getItemThrows (localStorage w) DEPARTMENTS = false ->
      accepted DEPARTMENTS (StoredCache MOCK_DEPARTMENTS (clock w + elapsed)) w = true ->
      exists data,
        outcome (fetchDepartments elapsed) w = Returned (mkFetchResult true None data)
        /\ isFresh (localStorage (after (fetchDepartments elapsed) w) !! DEPARTMENTS)
                   (clock (after (fetchDepartments elapsed) w)) = Some data).
Proof.
  unfold outcome, after. rewrite fetchDepartments_run. split.
  - destruct (isFresh (seen DEPARTMENTS w) (clock w)); simpl; [auto|].
    apply missWorld_frame.
  - intros Hread Hacc.
    destruct (isFresh (seen DEPARTMENTS w) (clock w)) as [data|] eqn:E.
    + exists data. simpl. split; [reflexivity|].
      now rewrite <- (seen_quiet DEPARTMENTS w Hread).
    + exists MOCK_DEPARTMENTS. simpl. split; [reflexivity|].
      destruct (missWorld_store elapsed w) as [Hclock Hstore].
      rewrite Hacc in Hstore. rewrite Hclock, Hstore, Storage_lookup_insert.
      unfold isFresh.
      destruct (Z.ltb_spec (clock w + elapsed - CACHE_TTL) (clock w + elapsed));
        [reflexivity|]. unfold CACHE_TTL in *. lia.
Qed.

Lemma fetchDepartments_leaves_fresh_entry_witness :
  exists data,
    outcome (fetchDepartments 900) (mkWorld ∅ 10 [])
    = Returned (mkFetchResult true None data)
    /\ isFresh (localStorage (after (fetchDepartments 900) (mkWorld ∅ 10 []))
                  !! DEPARTMENTS) 910 = Some data.
Proof.
  destruct (fetchDepartments_leaves_fresh_entry 900 (mkWorld ∅ 10 [])) as [_ Hfresh].
  exact (Hfresh eq_refl eq_refl).
Defined.

Lemma SearchFilter_render (data : list DepartmentRecord) (p : Dashboard.Page) :
  let d :=
    Dashboard.renderDepartments
      (Dashboard.mkState
         (Dashboard.searchInput_value
            (Dashboard.state (Dashboard.hideError (Dashboard.showLoading true p))))
         data data
         (Dashboard.departmentsGrid
            (Dashboard.state (Dashboard.hideError (Dashboard.showLoading true p))))) in
  Dashboard.departments d = data /\ Dashboard.filteredDepartments d = data.
Proof.
  intros d. unfold d.
  match goal with |- context [Dashboard.renderDepartments ?x] =>
    destruct (renderDepartments_lists x) as (-> & -> & _) end.
  auto.
Qed.

Lemma Dashboard_load_run remote (p : Dashboard.Page) (w w' : World) (r : FetchResult) :
  fetchDepartmentsWith remote w = (Returned r, w') ->
  Dashboard.loadDepartmentsWith remote p w
  = (Returned
       (Dashboard.showLoading false
          (let p1 := Dashboard.hideError (Dashboard.showLoading true p) in
           if fetch_success r
           then Dashboard.mkPage
                  (Dashboard.renderDepartments
                     (Dashboard.mkState (Dashboard.searchInput_value (Dashboard.state p1))
                        (fetch_data r) (fetch_data r)
                        (Dashboard.departmentsGrid (Dashboard.state p1))))
                  (Dashboard.loadingSpinner p1) (Dashboard.errorMessage p1)
           else Dashboard.showError (default "" (fetch_error r)) p1)),
     w').
Proof.
  intros Hrun. unfold Dashboard.loadDepartmentsWith, tryCatch, mbind, M_bind.
  rewrite Hrun. now destruct (fetch_success r).
Qed.

(** X8. [Dashboard.loadDepartments] of the script ends with the list of
    the cache entry, if the read of the cache key gives a fresh one, and
    with the mock list otherwise, both as the loaded list and as the list on display; the
    spinner, if the page has one, is hidden and so is the error banner. *)
Theorem Dashboard_load_shows_directory (elapsed : Z) (p : Dashboard.Page) (w : World) :
  let data :=
    default MOCK_DEPARTMENTS (isFresh (seen DEPARTMENTS w) (clock w)) in
  exists p',
    outcome (Dashboard.loadDepartments elapsed p) w = Returned p'
    /\ Dashboard.departments (Dashboard.state p') = data
    /\ Dashboard.filteredDepartments (Dashboard.state p') = data
    /\ Dashboard.loadingSpinner p' = (fun _ => "none") <$> Dashboard.loadingSpinner p
    /\ Dashboard.errorMessage p'
       = (fun b => Dashboard.mkErrorBanner (Dashboard.errorText b) true)
           <$> Dashboard.errorMessage p.
Proof.
  intros data. unfold outcome, Dashboard.loadDepartments.
  assert (exists w', fetchDepartmentsWith (mockFetch elapsed) w
                     = (Returned (mkFetchResult true None data), w')) as [w' Hrun].
  { fold (fetchDepartments elapsed). rewrite fetchDepartments_run. unfold data.
    destruct (isFresh (seen DEPARTMENTS w) (clock w)); simpl; eauto. }
  rewrite (Dashboard_load_run _ p w w' _ Hrun). eexists. split; [reflexivity|].
  destruct (SearchFilter_render data p) as (Hd & Hf).
  split; [exact Hd|]. split; [exact Hf|].
  split; cbn; [now destruct (Dashboard.loadingSpinner p)
              | now destruct (Dashboard.errorMessage p)].
Qed.

(** X9. When the fetch step throws, [Dashboard.loadDepartments] still
    returns: the loaded list and the list on display are the ones from
    before, the banner (if the page has one, with its text element) shows
    "Unable to load departments. Please try again later.", and the spinner
    is hidden. *)
Theorem Dashboard_load_failure remote (p : Dashboard.Page) (w w1 : World)
    (message : string) (banner : Dashboard.ErrorBanner) (old : string) :
  isFresh (seen DEPARTMENTS w) (clock w) = None ->
  remote (after (Utils.storage.get DEPARTMENTS) w) = (Thrown message, w1) ->
  Dashboard.errorMessage p = Some banner ->
  Dashboard.errorText banner = Some old ->
  exists p',
    outcome (Dashboard.loadDepartmentsWith remote p) w = Returned p'
    /\ Dashboard.state p' = Dashboard.state p
    /\ Dashboard.errorMessage p'
       = Some (Dashboard.mkErrorBanner
                 (Some "Unable to load departments. Please try again later.") false)
    /\ Dashboard.loadingSpinner p' = (fun _ => "none") <$> Dashboard.loadingSpinner p.
Proof.
  intros Hstale Hremote Hbanner Htext. unfold outcome.
  rewrite (Dashboard_load_run remote p w _ _
             (fetchDepartmentsWith_throw remote w w1 message Hstale Hremote)).
  eexists. split; [reflexivity|]. cbn. rewrite Hbanner. cbn. rewrite Htext.
  repeat split. now destruct (Dashboard.loadingSpinner p).
Qed.

Lemma Dashboard_load_failure_witness :
  let remote : M (list DepartmentRecord) := throw "Failed to fetch" in
  let p := Dashboard.mkPage (Dashboard.mkState "" [] [] None) (Some "block")
             (Some (Dashboard.mkErrorBanner (Some "") true)) in
  outcome (Dashboard.loadDepartmentsWith remote p) (mkWorld ∅ 0 [])
  = Returned
      (Dashboard.mkPage (Dashboard.mkState "" [] [] None) (Some "none")
         (Some (Dashboard.mkErrorBanner
                  (Some "Unable to load departments. Please try again later.") false))).
Proof.
  intros remote p.
  destruct (Dashboard_load_failure remote p (mkWorld ∅ 0 []) (mkWorld ∅ 0 [])
              "Failed to fetch" (Dashboard.mkErrorBanner (Some "") true) "")
    as (p' & Hout & Hstate & Hbanner & Hspinner);
    [reflexivity | reflexivity | reflexivity | reflexivity |].
  rewrite Hout. destruct p' as [st sp eb]. simpl in *. now subst.
Defined.

Lemma removelast_length {A} (l : list A) : length (removelast l) = pred (length l).
Proof.
  induction l as [|x [|y l] IH]; [reflexivity | reflexivity |].
  change (removelast (x :: y :: l)) with (x :: removelast (y :: l)).
  cbn [length]. rewrite IH. reflexivity.
Qed.

Lemma removelast_take1 {A} (l : list A) :
  (1 < length l)%nat -> take 1 (removelast l) = take 1 l.
Proof. destruct l as [|x [|y l]]; simpl; intros; [lia | lia | reflexivity]. Qed.

(** The loop keeps the first child and nothing else. *)
Lemma removeExtraOptions_take1 (fuel : nat) (children : list (string * string)) :
  (length children <= S fuel)%nat ->
  LoginManager.removeExtraOptions fuel children = take 1 children.
Proof.
  revert children. induction fuel as [|fuel IH]; intros children Hlen.
  - destruct children as [|x [|y l]]; simpl in *; [reflexivity | reflexivity | lia].
  - simpl. destruct (Nat.ltb_spec 1 (length children)) as [Hmany|Hfew].
    + rewrite IH by (rewrite removelast_length; lia).
      now apply removelast_take1.
    + destruct children as [|x [|y l]]; simpl in *; [reflexivity | reflexivity | lia].
Qed.

Lemma populateDepartmentOptions_eq (D : list DepartmentRecord)
    (children : list (string * string)) :
  LoginManager.populateDepartmentOptions D children
  = (take 1 children ++ map (fun dept => (dept_id dept, dept_name dept)) D)%list.
Proof.
  unfold LoginManager.populateDepartmentOptions.
  now rewrite removeExtraOptions_take1 by lia.
Qed.

(** X10. On a select that has its placeholder option,
    [populateDepartmentOptions] keeps the placeholder and lists the
    departments after it, by id, in the order of the list; calling it
    again, with any list, replaces the departments, it does not add to
    them. *)
Theorem populateDepartmentOptions_replaces (D1 D2 : list DepartmentRecord)
    (children : list (string * string)) :
  children <> [] ->
  map fst (LoginManager.populateDepartmentOptions D2 children)
  = (map fst (take 1 children) ++ map dept_id D2)%list
  /\ LoginManager.populateDepartmentOptions D2
       (LoginManager.populateDepartmentOptions D1 children)
     = LoginManager.populateDepartmentOptions D2 children.
Proof.
  intros Hne. rewrite !populateDepartmentOptions_eq. split.
  - rewrite map_app, map_map. reflexivity.
  - destruct children as [|first rest]; [contradiction | reflexivity].
Qed.

Lemma populateDepartmentOptions_replaces_witness :
  map fst
    (LoginManager.populateDepartmentOptions MOCK_DEPARTMENTS
       (LoginManager.populateDepartmentOptions MOCK_DEPARTMENTS
          [("", "Choose a department"); ("old", "Old entry")]))
  = ["" ; "hr"; "finance"; "it"; "security"; "hse"; "customer-service"; "environment"].
Proof.
  destruct (populateDepartmentOptions_replaces MOCK_DEPARTMENTS MOCK_DEPARTMENTS
              [("", "Choose a department"); ("old", "Old entry")])
    as (Hvalues & Hagain); [discriminate|].
  rewrite Hagain, Hvalues. reflexivity.
Defined.

(** Without a placeholder the first department stays as the "first
    child": loading twice lists it twice. *)
Example populateDepartmentOptions_no_placeholder :
  map fst
    (LoginManager.populateDepartmentOptions (take 2 MOCK_DEPARTMENTS)
       (LoginManager.populateDepartmentOptions (take 2 MOCK_DEPARTMENTS) []))
  = ["hr"; "hr"; "finance"].
Proof. reflexivity. Qed.

Lemma Login_load_run remote (p : LoginManager.Page) (w w' : World) (r : FetchResult) :
  fetchDepartmentsWith remote w = (Returned r, w') ->
  LoginManager.loadDepartmentsWith remote p w
  = (Returned
       (if fetch_success r then
          match LoginManager.departmentSelect (LoginManager.form p) with
          | Some _ =>
              LoginManager.mkPage (LoginManager.form p)
                (LoginManager.populateDepartmentOptions (fetch_data r)
                   (LoginManager.departmentOptions p))
                (LoginManager.isSubmitting p) (LoginManager.loginButton p)
                (LoginManager.loginButtonText p) (LoginManager.loginSpinner p)
                (LoginManager.loginAlert p) (LoginManager.togglePasswordIcon p)
                (LoginManager.redirect p)
          | None => p
          end
        else p),
     w').
Proof.
  intros Hrun. unfold LoginManager.loadDepartmentsWith, tryCatch, mbind, M_bind.
  rewrite Hrun. destruct (fetch_success r); [|reflexivity].
  now destruct (LoginManager.departmentSelect (LoginManager.form p)).
Qed.

(** X11. From the dashboard to the login page. When the dashboard loaded
    the directory with no fresh entry to read and the browser took its
    write of the cache entry, a login page opened less than 5 minutes
    later, whose read of the cache key does not throw, fills its select
    from the cache: no delay, no write, and the options after the first
    child are the departments of the dashboard, by id and name, in the
    same order. *)
Theorem login_page_reuses_dashboard_cache
    (e1 e2 later : Z) (dash : Dashboard.Page) (p : LoginManager.Page)
    (w : World) (select : LoginManager.Field) :
  isFresh (seen DEPARTMENTS w) (clock w) = None ->
  accepted DEPARTMENTS (StoredCache MOCK_DEPARTMENTS (clock w + e1)) w = true ->
  getItemThrows (localStorage w) DEPARTMENTS = false ->
  LoginManager.departmentSelect (LoginManager.form p) = Some select ->
  let w1 := after (Dashboard.loadDepartments e1 dash) w in
  (later - clock w1 < 5 * 60 * 1000)%Z ->
  let w2 := mkWorld (localStorage w1) later (trace w1) in
  exists dash' p',
    outcome (Dashboard.loadDepartments e1 dash) w = Returned dash'
    /\ LoginManager.loadDepartments e2 p w2 = (Returned p', w2)
    /\ LoginManager.departmentOptions p'
       = (take 1 (LoginManager.departmentOptions p)
          ++ map (fun dept => (dept_id dept, dept_name dept))
               (Dashboard.departments (Dashboard.state dash')))%list.
Proof.
  intros Hstale Hacc Hread Hselect w1 Hsoon w2.
  pose proof (Dashboard_load_run (mockFetch e1) dash w _ _
                (fetchDepartments_miss e1 w Hstale)) as Hload.
  fold (Dashboard.loadDepartments e1 dash) in Hload.
  destruct (SearchFilter_render MOCK_DEPARTMENTS dash) as (Hdepts & _).
  assert (w1 = missWorld e1 w) as Hw1.
  { unfold w1, after. now rewrite Hload. }
  assert (exists dash', outcome (Dashboard.loadDepartments e1 dash) w = Returned dash'
                        /\ Dashboard.departments (Dashboard.state dash') = MOCK_DEPARTMENTS)
    as (dash' & Hout & Hdash).
  { unfold outcome. rewrite Hload. eexists. split; [reflexivity|]. exact Hdepts. }
  clear Hdepts. rename Hdash into Hdepts.
  destruct (missWorld_store e1 w) as [Hclock Hstore]. rewrite Hacc in Hstore.
  assert (fetchDepartmentsWith (mockFetch e2) w2
          = (Returned (mkFetchResult true None MOCK_DEPARTMENTS), w2)) as Hhit.
  { apply fetchDepartmentsWith_hit. apply isFresh_Some.
    exists (clock w + e1)%Z. split.
    - unfold seen, w2. simpl. rewrite Hw1, Hstore. simpl. rewrite Hread.
      apply Storage_lookup_insert.
    - unfold w2. simpl. rewrite Hw1, Hclock in Hsoon. exact Hsoon. }
  exists dash'.
  eexists. split; [exact Hout|]. split.
  - unfold LoginManager.loadDepartments.
    rewrite (Login_load_run _ p w2 w2 _ Hhit). simpl. rewrite Hselect. reflexivity.
  - simpl. rewrite populateDepartmentOptions_eq, Hdepts. reflexivity.
Qed.

End PageLoad.

(* ===================================================================== *)
(** ** The login page                                                     *)
(* ===================================================================== *)

Section LoginPage.

Import JsString ApiService LoginManager CONFIG.STORAGE_KEYS.

Lemma trimStart_length (s : string) : (String.length (trimStart s) <= String.length s)%nat.
Proof.
  induction s as [|c s IH]; simpl; [lia|]. destruct (isWhiteSpace c); simpl; lia.
Qed.

Lemma trimEnd_length (s : string) : (String.length (trimEnd s) <= String.length s)%nat.
Proof.
  induction s as [|c s IH]; simpl; [lia|].
  destruct (trimEnd s); [destruct (isWhiteSpace c)|]; simpl in *; lia.
Qed.

(** Trimming never lengthens. *)
Lemma trim_length (s : string) : (String.length (trim s) <= String.length s)%nat.
Proof.
  unfold trim. pose proof (trimEnd_length (trimStart s)).
  pose proof (trimStart_length s). lia.
Qed.

Lemma trim_nonempty (s : string) : trim s <> "" -> s <> "".
Proof. intros H ->. now apply H. Qed.

Lemma rules_valid (kind : FieldKind) (v : string) :
  rules kind v = Valid ->
  v <> ""
  /\ match kind with
     | TextField => (3 <= String.length v)%nat
     | PasswordField => (6 <= String.length v)%nat
     | SelectField => True
     end.
Proof.
  unfold rules. destruct kind; destruct (String.eqb_spec v ""); try discriminate.
  - destruct (Nat.ltb_spec (String.length v) 3); [discriminate|]. auto.
  - destruct (Nat.ltb_spec (String.length v) 6); [discriminate|]. auto.
  - auto.
Qed.

Lemma checkField_valid (f : Field) (kind : FieldKind) :
  kindOf f = Some kind ->
  fst (checkField f) = true ->
  rules kind (trim (field_value f)) = Valid.
Proof.
  intros Hkind Hok. pose proof (checkField_rules f) as H. rewrite Hkind in H.
  rewrite <- H. unfold verdictOf. now rewrite Hok.
Qed.

Lemma checkField_same (f g : Field) :
  field_type g = field_type f -> field_tagName g = field_tagName f ->
  field_value g = field_value f ->
  checkField g = checkField f.
Proof.
  intros Ht Hn Hv. unfold checkField, switchKey. now rewrite Ht, Hn, Hv.
Qed.

Lemma checkField_message (f : Field) :
  fst (checkField f) = false -> truthy (snd (checkField f)) = true.
Proof.
  unfold checkField.
  repeat match goal with
         | |- context [if ?b then _ else _] => destruct b
         end; simpl; congruence.
Qed.

(** X12. [validateField] leaves on the control exactly one of the classes
    [is-valid] and [is-invalid], the one that matches the boolean it
    returns, and does not touch the value; validating the control again,
    also after [clearFieldError], gives the same answer and, without the
    clearing in between, the same control. *)
Theorem validateField_marks_control (f : Field) :
  exists g,
    validateField (Some f) = (fst (checkField f), Some g)
    /\ is_valid g = fst (checkField f)
    /\ is_invalid g = negb (fst (checkField f))
    /\ field_value g = field_value f
    /\ validateField (Some g) = (fst (checkField f), Some g)
    /\ fst (validateField (Some (clearFieldError g))) = fst (checkField f).
Proof.
  unfold validateField. destruct (checkField f) as [ok message] eqn:E.
  exists (setFieldValidation f ok message). split; [reflexivity|].
  assert (checkField (setFieldValidation f ok message) = (ok, message)) as E'.
  { rewrite <- E. apply checkField_same; unfold setFieldValidation;
      now destruct ok. }
  assert (checkField (clearFieldError (setFieldValidation f ok message)) = (ok, message))
    as E''.
  { rewrite <- E. apply checkField_same; unfold setFieldValidation;
      now destruct ok. }
  rewrite E', E''. simpl.
  pose proof (checkField_message f) as Hmsg. rewrite E in Hmsg. simpl in Hmsg.
  destruct ok; simpl.
  - repeat split.
  - specialize (Hmsg eq_refl).
    destruct (feedback f) as [old|]; [rewrite Hmsg|]; repeat split.
Qed.

Lemma loginUser_returns (elapsed : Z) (c : Credentials) (w : World) :
  exists r w', loginUser elapsed c w = (Returned r, w').
Proof.
  rewrite loginUser_run.
  repeat match goal with
         | |- context [if ?b then _ else _] => destruct b
         end; eauto.
Qed.

(** X13. [loginUser] always returns a result, it never throws. The result
    is a success exactly when the username has length at least 3, the
    password has length at least 6 and the department is not empty. A
    failure leaves the store as it was; a success changes the session key,
    the remembered-login key when remember-me is set, and no other key. *)
Theorem loginUser_success_iff (elapsed : Z) (c : Credentials) (w : World) :
  exists r,
    outcome (loginUser elapsed c) w = Returned r
    /\ (login_success r = true
        <-> (3 <= String.length (username c))%nat
            /\ (6 <= String.length (password c))%nat
            /\ department c <> "")
    /\ (login_success r = false ->
        localStorage (after (loginUser elapsed c) w) = localStorage w)
    /\ (forall key,
          key <> USER_SESSION ->
          (key = REMEMBER_ME -> rememberMe c = false) ->
          localStorage (after (loginUser elapsed c) w) !! key = localStorage w !! key).
Proof.
  destruct (loginUser_returns elapsed c w) as (r & w' & Hrun).
  exists r. unfold outcome, after. rewrite Hrun. simpl.
  split; [reflexivity|].
  assert (login_success r = true
          <-> (3 <= String.length (username c))%nat
              /\ (6 <= String.length (password c))%nat /\ department c <> "") as Hiff.
  { split.
    - intros Hs. apply (loginUser_success_inv elapsed c w r); [|exact Hs].
      unfold outcome. now rewrite Hrun.
    - intros (Hu & Hp & Hd). rewrite (loginUser_accepts elapsed c w Hu Hp Hd) in Hrun.
      now injection Hrun as <- _. }
  split; [exact Hiff|].
  destruct (login_success r) eqn:Hs.
  - destruct Hiff as [Hvalid _]. destruct (Hvalid eq_refl) as (Hu & Hp & Hd).
    rewrite (loginUser_accepts elapsed c w Hu Hp Hd) in Hrun.
    injection Hrun as _ <-. split; [discriminate|].
    intros key Hsession Hremember. now apply loggedInWorld_frame.
  - assert (w' = rejectedWorld elapsed w) as ->.
    { rewrite loginUser_run in Hrun.
      repeat match type of Hrun with
             | context [if ?b then _ else _] => destruct b
             end; injection Hrun as <- <-; try reflexivity; discriminate. }
    split; [reflexivity|]. intros. reflexivity.
Qed.

Lemma loginUser_success_iff_witness :
  localStorage
    (after (loginUser 1100 (mkCredentials "alice" "abc" "hr" true))
       (mkWorld {[ USER_SESSION := StoredRemember "x" "y" ]} 0 []))
  = {[ USER_SESSION := StoredRemember "x" "y" ]}.
Proof.
  destruct (loginUser_success_iff 1100 (mkCredentials "alice" "abc" "hr" true)
              (mkWorld {[ USER_SESSION := StoredRemember "x" "y" ]} 0 []))
    as (r & Hout & _ & Hfail & _).
  apply Hfail. injection Hout as <-. reflexivity.
Defined.

Lemma performLogin_run (elapsed : Z) (p : Page) (w w' : World)
    (c : Credentials) (r : LoginResult) :
  readCredentials (form p) = Some c ->
  loginUser elapsed c w = (Returned r, w') ->
  performLogin elapsed p w
  = (Returned
       (setLoadingState false
          (setSubmitting false
             (let p1 := setLoadingState true (setSubmitting true p) in
              if login_success r
              then setRedirect ("index.html?success=1&dept=" ++ department c)
                     (showAlert (default "undefined" (login_message r)) "success" p1)
              else showAlert (default "undefined" (login_error r)) "danger" p1))),
     w').
Proof.
  intros Hc Hrun. unfold performLogin, tryCatch, mbind, M_bind.
  change (form (setLoadingState true (setSubmitting true p))) with (form p).
  rewrite Hc, Hrun. now destruct (login_success r).
Qed.

Lemma performLogin_missing (elapsed : Z) (p : Page) (w : World) :
  readCredentials (form p) = None ->
  performLogin elapsed p w
  = (Returned
       (setLoadingState false
          (setSubmitting false
             (showAlert "An unexpected error occurred. Please try again." "danger"
                (setLoadingState true (setSubmitting true p))))),
     mkWorld (localStorage w) (clock w) (trace w ++ [EvConsoleError "Login error:"])).
Proof.
  intros Hc. unfold performLogin, tryCatch, mbind, M_bind.
  change (form (setLoadingState true (setSubmitting true p))) with (form p).
  now rewrite Hc.
Qed.

Lemma showAlert_keeps (message type : string) (p : Page) :
  form (showAlert message type p) = form p
  /\ isSubmitting (showAlert message type p) = isSubmitting p
  /\ loginButton (showAlert message type p) = loginButton p
  /\ loginButtonText (showAlert message type p) = loginButtonText p
  /\ loginSpinner (showAlert message type p) = loginSpinner p
  /\ redirect (showAlert message type p) = redirect p.
Proof. unfold showAlert. destruct (loginAlert p); repeat split. Qed.

(** X14. However [performLogin] ends (login accepted, login refused, or a
    control missing from the page), it returns with the form unlocked:
    [isSubmitting] is false, the button is enabled and labelled "Sign In",
    the spinner is hidden, and the controls are as they were. *)
Theorem performLogin_unlocks (elapsed : Z) (p : Page) (w : World) :
  exists p',
    outcome (performLogin elapsed p) w = Returned p'
    /\ isSubmitting p' = false
    /\ loginButton p' = (fun _ => false) <$> loginButton p
    /\ loginButtonText p' = (fun _ => "Sign In") <$> loginButtonText p
    /\ loginSpinner p' = (fun _ => true) <$> loginSpinner p
    /\ form p' = form p.
Proof.
  unfold outcome.
  assert (forall q, form q = form p -> loginButton q = (fun _ => true) <$> loginButton p ->
            loginButtonText q = (fun _ => "Signing In...") <$> loginButtonText p ->
            loginSpinner q = (fun _ => false) <$> loginSpinner p ->
            isSubmitting (setLoadingState false (setSubmitting false q)) = false
            /\ loginButton (setLoadingState false (setSubmitting false q))
               = (fun _ => false) <$> loginButton p
            /\ loginButtonText (setLoadingState false (setSubmitting false q))
               = (fun _ => "Sign In") <$> loginButtonText p
            /\ loginSpinner (setLoadingState false (setSubmitting false q))
               = (fun _ => true) <$> loginSpinner p
            /\ form (setLoadingState false (setSubmitting false q)) = form p) as Hend.
  { intros q Hf Hb Ht Hs. simpl. rewrite Hb, Ht, Hs.
    destruct (loginButton p), (loginButtonText p), (loginSpinner p); auto. }
  assert (let p1 := setLoadingState true (setSubmitting true p) in
          form p1 = form p /\ loginButton p1 = (fun _ => true) <$> loginButton p
          /\ loginButtonText p1 = (fun _ => "Signing In...") <$> loginButtonText p
          /\ loginSpinner p1 = (fun _ => false) <$> loginSpinner p) as (H1 & H2 & H3 & H4).
  { simpl. destruct (loginButton p), (loginButtonText p), (loginSpinner p); auto. }
  destruct (readCredentials (form p)) as [c|] eqn:Hc.
  - destruct (loginUser_returns elapsed c w) as (r & w' & Hrun).
    rewrite (performLogin_run elapsed p w w' c r Hc Hrun).
    eexists. split; [reflexivity|]. apply Hend.
    + destruct (login_success r); simpl;
        [destruct (showAlert_keeps (default "undefined" (login_message r)) "success"
                     (setLoadingState true (setSubmitting true p))) as (-> & _)
        |destruct (showAlert_keeps (default "undefined" (login_error r)) "danger"
                     (setLoadingState true (setSubmitting true p))) as (-> & _)];
        exact H1.
    + destruct (login_success r); simpl;
        [destruct (showAlert_keeps (default "undefined" (login_message r)) "success"
                     (setLoadingState true (setSubmitting true p))) as (_ & _ & -> & _)
        |destruct (showAlert_keeps (default "undefined" (login_error r)) "danger"
                     (setLoadingState true (setSubmitting true p))) as (_ & _ & -> & _)];
        exact H2.
    + destruct (login_success r); simpl;
        [destruct (showAlert_keeps (default "undefined" (login_message r)) "success"
                     (setLoadingState true (setSubmitting true p)))
           as (_ & _ & _ & -> & _)
        |destruct (showAlert_keeps (default "undefined" (login_error r)) "danger"
                     (setLoadingState true (setSubmitting true p)))
           as (_ & _ & _ & -> & _)];
        exact H3.
    + destruct (login_success r); simpl;
        [destruct (showAlert_keeps (default "undefined" (login_message r)) "success"
                     (setLoadingState true (setSubmitting true p)))
           as (_ & _ & _ & _ & -> & _)
        |destruct (showAlert_keeps (default "undefined" (login_error r)) "danger"
                     (setLoadingState true (setSubmitting true p)))
           as (_ & _ & _ & _ & -> & _)];
        exact H4.
  - rewrite (performLogin_missing elapsed p w Hc).
    eexists. split; [reflexivity|].
    destruct (showAlert_keeps "An unexpected error occurred. Please try again." "danger"
                (setLoadingState true (setSubmitting true p)))
      as (Ha & _ & Hb & Hc' & Hd & _).
    apply Hend; congruence.
Qed.

Lemma validateField_present (f : Field) :
  validateField (Some f)
  = (fst (checkField f),
     Some (setFieldValidation f (fst (checkField f)) (snd (checkField f)))).
Proof. unfold validateField. now destruct (checkField f). Qed.

Lemma validateForm_present (f : Form) (u pw s : Field) :
  usernameInput f = Some u -> passwordInput f = Some pw -> departmentSelect f = Some s ->
  validateForm f
  = (fst (checkField u) && fst (checkField pw) && fst (checkField s),
     mkForm (Some (setFieldValidation u (fst (checkField u)) (snd (checkField u))))
            (Some (setFieldValidation pw (fst (checkField pw)) (snd (checkField pw))))
            (Some (setFieldValidation s (fst (checkField s)) (snd (checkField s))))
            (rememberMeCheckbox f)).
Proof.
  intros Hu Hp Hs. unfold validateForm.
  rewrite Hu, Hp, Hs, !validateField_present. reflexivity.
Qed.

Lemma setFieldValidation_value (f : Field) (ok : bool) (message : string) :
  field_value (setFieldValidation f ok message) = field_value f.
Proof. unfold setFieldValidation. now destruct ok. Qed.

Lemma readCredentials_validated (f : Form) (u pw s : Field) (remember : bool) :
  usernameInput f = Some u -> passwordInput f = Some pw -> departmentSelect f = Some s ->
  rememberMeCheckbox f = Some remember ->
  readCredentials (snd (validateForm f)) = Some (credentialsOf u pw s remember).
Proof.
  intros Hu Hp Hs Hr. rewrite (validateForm_present f u pw s Hu Hp Hs).
  unfold readCredentials, credentialsOf. simpl.
  now rewrite Hr, !setFieldValidation_value.
Qed.

Lemma handleSubmit_run (elapsed : Z) (p : Page) (w : World) :
  isSubmitting p = false ->
  handleSubmit elapsed p w
  = if fst (validateForm (form p))
    then performLogin elapsed (setForm (snd (validateForm (form p))) p) w
    else (Returned (showAlert "Please correct the errors below" "danger"
                      (setForm (snd (validateForm (form p))) p)), w).
Proof.
  intros Hidle. unfold handleSubmit. rewrite Hidle.
  destruct (validateForm (form p)) as [ok f]. now destruct ok.
Qed.

(** X15. Behind a form with its three controls of the usual kinds and
    its checkbox, the checks of [loginUser] never refuse: a submit either
    fails validation, and then nothing is sent (the world is as before, no
    redirect is set up, the alert asks to correct the errors), or passes
    it, and then the login succeeds: the alert shows the success message,
    the redirect to [index.html?success=1&dept=...] is set up, and the
    session of the trimmed username and the chosen department is in the
    store if the browser takes the write. *)
Theorem handleSubmit_standard_form (elapsed : Z) (p : Page) (w : World)
    (u pw s : Field) :
  standardForm (form p) u pw s ->
  isSubmitting p = false ->
  exists p',
    outcome (handleSubmit elapsed p) w = Returned p'
    /\ isSubmitting p' = false
    /\ ((fst (validateForm (form p)) = false
         /\ after (handleSubmit elapsed p) w = w
         /\ redirect p' = redirect p
         /\ loginAlert p'
            = loginAlert (showAlert "Please correct the errors below" "danger" p))
        \/ (fst (validateForm (form p)) = true
            /\ redirect p' = Some ("index.html?success=1&dept=" ++ field_value s)
            /\ loginAlert p'
               = loginAlert (showAlert "Login successful! Redirecting to dashboard..."
                               "success" p)
            /\ exists user,
                 su_username user = trim (field_value u)
                 /\ su_department user = field_value s
                 /\ localStorage (after (handleSubmit elapsed p) w) !! USER_SESSION
                    = (if accepted USER_SESSION (StoredSession user) w
                       then Some (StoredSession user)
                       else localStorage w !! USER_SESSION))).
Proof.
  intros (Hu & Hp & Hs & [remember Hr] & Ku & Kp & Ks) Hidle. unfold outcome, after.
  rewrite (handleSubmit_run elapsed p w Hidle).
  pose proof (readCredentials_validated (form p) u pw s remember Hu Hp Hs Hr) as Hc.
  assert (fst (validateForm (form p))
          = fst (checkField u) && fst (checkField pw) && fst (checkField s)) as Hfst.
  { now rewrite (validateForm_present (form p) u pw s Hu Hp Hs). }
  set (F := snd (validateForm (form p))) in *.
  destruct (fst (validateForm (form p))) eqn:Hok.
  - symmetry in Hfst.
    apply andb_true_iff in Hfst as [Hfst Hok3].
    apply andb_true_iff in Hfst as [Hok1 Hok2].
    destruct (rules_valid _ _ (checkField_valid u _ Ku Hok1)) as [_ Hlu].
    destruct (rules_valid _ _ (checkField_valid pw _ Kp Hok2)) as [_ Hlp].
    destruct (rules_valid _ _ (checkField_valid s _ Ks Hok3)) as [Hns _].
    set (c := credentialsOf u pw s remember) in *.
    assert (loginUser elapsed c w
            = (Returned (loginSuccess (buildUser c (clock w + elapsed))),
               loggedInWorld elapsed c w)) as Hrun.
    { apply loginUser_accepts; unfold c; simpl.
      - exact Hlu.
      - pose proof (trim_length (field_value pw)). lia.
      - now apply trim_nonempty. }
    rewrite (performLogin_run elapsed (setForm F p) w _ c _ Hc Hrun).
    eexists. split; [reflexivity|]. split; [reflexivity|]. right.
    split; [reflexivity|]. split; [reflexivity|]. split.
    + simpl. unfold showAlert. simpl. now destruct (loginAlert p).
    + exists (buildUser c (clock w + elapsed)).
      split; [reflexivity|]. split; [reflexivity|].
      apply loggedInWorld_session.
  - eexists. split; [reflexivity|]. split.
    + destruct (showAlert_keeps "Please correct the errors below" "danger"
                  (setForm F p)) as (_ & -> & _).
      exact Hidle.
    + left. split; [reflexivity|]. split; [reflexivity|]. split.
      * unfold showAlert. simpl. now destruct (loginAlert p).
      * unfold showAlert. simpl. now destruct (loginAlert p).
Qed.

Lemma handleSubmit_standard_form_witness :
  exists p',
    outcome (handleSubmit 1300 (samplePage " alice " "abcdef" "hr" false)) (mkWorld ∅ 0 [])
    = Returned p'
    /\ isSubmitting p' = false.
Proof.
  destruct (handleSubmit_standard_form 1300 (samplePage " alice " "abcdef" "hr" false)
              (mkWorld ∅ 0 [])
              (fieldOf TextField " alice ") (fieldOf PasswordField "abcdef")
              (fieldOf SelectField "hr"))
    as (p' & Hout & Hidle & _).
  - repeat split. now exists false.
  - reflexivity.
  - exists p'. split; assumption.
Defined.

Example handleSubmit_alice :
  match outcome (handleSubmit 1300 (samplePage " alice " "abcdef" "hr" false))
          (mkWorld ∅ 0 []) with
  | Returned p' => redirect p'
  | Thrown _ => None
  end = Some "index.html?success=1&dept=hr".
Proof. reflexivity. Qed.

Lemma togglePasswordVisibility_text (pw0 : Field) :
  field_type pw0 = "password" ->
  kindOf (fst (togglePasswordVisibility pw0)) = Some TextField
  /\ field_value (fst (togglePasswordVisibility pw0)) = field_value pw0.
Proof.
  intros Ht. unfold togglePasswordVisibility, kindOf, switchKey. rewrite Ht.
  simpl. auto.
Qed.

(** X16. With the password made visible by [togglePasswordVisibility] the
    control has type [text], and [validateField] applies the username rule
    to it. On a page that has its checkbox, a password whose trimmed value
    has at least 3 code units and which has fewer than 6 then passes the
    validation of the form, the login is sent, and it is [loginUser] that
    refuses it: the alert reads
    "Password must be at least 6 characters", nothing is stored and no
    redirect is set up. *)
Theorem handleSubmit_visible_password (elapsed : Z) (p : Page) (w : World)
    (u pw0 s : Field) (remember : bool) :
  isSubmitting p = false ->
  rememberMeCheckbox (form p) = Some remember ->
  usernameInput (form p) = Some u ->
  passwordInput (form p) = Some (fst (togglePasswordVisibility pw0)) ->
  departmentSelect (form p) = Some s ->
  kindOf u = Some TextField -> fst (checkField u) = true ->
  kindOf s = Some SelectField -> fst (checkField s) = true ->
  field_type pw0 = "password" ->
  (3 <= String.length (trim (field_value pw0)))%nat ->
  (String.length (field_value pw0) < 6)%nat ->
  fst (validateForm (form p)) = true
  /\ exists p',
       outcome (handleSubmit elapsed p) w = Returned p'
       /\ loginAlert p'
          = loginAlert (showAlert "Password must be at least 6 characters" "danger" p)
       /\ redirect p' = redirect p
       /\ localStorage (after (handleSubmit elapsed p) w) = localStorage w.
Proof.
  intros Hidle Hr Hu Hp Hs Ku Vu Ks Vs Ht Hlong Hshort.
  destruct (togglePasswordVisibility_text pw0 Ht) as [Kp Hv].
  set (pw := fst (togglePasswordVisibility pw0)) in *.
  assert (checkField pw = (true, "")) as Vp.
  { unfold kindOf in Kp. unfold checkField. rewrite Hv.
    destruct (String.eqb (switchKey pw) "text"); [|
      destruct (String.eqb (switchKey pw) "password"); [discriminate|];
      destruct (String.eqb (switchKey pw) "select-one"); discriminate].
    destruct (trim (field_value pw0)) as [|a t] eqn:E; [simpl in Hlong; lia|].
    simpl truthy. simpl negb. cbv iota.
    destruct (Nat.ltb_spec (String.length (String a t)) 3); [lia | reflexivity]. }
  assert (fst (validateForm (form p)) = true) as Hok.
  { rewrite (validateForm_present (form p) u pw s Hu Hp Hs). simpl.
    now rewrite Vu, Vp, Vs. }
  split; [exact Hok|]. unfold outcome, after.
  rewrite (handleSubmit_run elapsed p w Hidle), Hok.
  pose proof (readCredentials_validated (form p) u pw s remember Hu Hp Hs Hr) as Hc.
  set (F := snd (validateForm (form p))) in *.
  set (c := credentialsOf u pw s remember) in *.
  destruct (rules_valid _ _ (checkField_valid u _ Ku Vu)) as [_ Hlu].
  destruct (rules_valid _ _ (checkField_valid s _ Ks Vs)) as [Hns _].
  assert (loginUser elapsed c w
          = (Returned (loginFailure "Password must be at least 6 characters"),
             rejectedWorld elapsed w)) as Hrun.
  { assert (username c = trim (field_value u)) as Hcu by reflexivity.
    assert (password c = field_value pw0) as Hcp by exact Hv.
    assert (department c = field_value s) as Hcd by reflexivity.
    rewrite loginUser_run, Hcu, Hcp, Hcd.
    rewrite (truthy_length (trim (field_value u))) by lia.
    rewrite (truthy_length (field_value pw0))
      by (pose proof (trim_length (field_value pw0)); lia).
    destruct (truthy (field_value s)) eqn:Ts.
    2:{ apply truthy_false_iff in Ts. rewrite Ts in Hns. now exfalso; apply Hns. }
    simpl.
    destruct (Nat.ltb_spec (String.length (trim (field_value u))) 3); [lia|].
    destruct (Nat.ltb_spec (String.length (field_value pw0)) 6); [reflexivity | lia]. }
  rewrite (performLogin_run elapsed (setForm F p) w _ c _ Hc Hrun).
  eexists. split; [reflexivity|]. split; [|split; [|reflexivity]].
  - simpl. unfold showAlert. simpl. now destruct (loginAlert p).
  - simpl. unfold showAlert. simpl. now destruct (loginAlert p).
Qed.

Lemma handleSubmit_visible_password_witness :
  let pw0 := fieldOf PasswordField "abcd" in
  let p := mkPage
             (mkForm (Some (fieldOf TextField "alice"))
                     (Some (fst (togglePasswordVisibility pw0)))
                     (Some (fieldOf SelectField "hr")) (Some false))
             [] false None None None
             (Some (mkAlertBox "alert d-none" None "" true 0)) "fas fa-eye-slash" None in
  exists p',
    outcome (handleSubmit 1000 p) (mkWorld ∅ 0 []) = Returned p'
    /\ loginAlert p'
       = Some (mkAlertBox "alert alert-danger" (Some "fas fa-exclamation-triangle")
                 "Password must be at least 6 characters" false 1).
Proof.
  intros pw0 p.
  destruct (handleSubmit_visible_password 1000 p (mkWorld ∅ 0 [])
              (fieldOf TextField "alice") pw0 (fieldOf SelectField "hr") false)
    as (_ & p' & Hout & Halert & _);
    [reflexivity | reflexivity | reflexivity | reflexivity | reflexivity | reflexivity
     | reflexivity | reflexivity | reflexivity | reflexivity | simpl; lia | simpl; lia |].
  exists p'. split; [exact Hout | exact Halert].
Defined.

Lemma readCredentials_validateForm_None (f : Form) :
  readCredentials f = None -> readCredentials (snd (validateForm f)) = None.
Proof.
  unfold readCredentials, validateForm.
  destruct (usernameInput f) as [u|], (passwordInput f) as [pw|],
    (departmentSelect f) as [s|], (rememberMeCheckbox f) as [r|];
    rewrite ?validateField_present; simpl; congruence.
Qed.

(** X17. On a page that lacks one of the three controls (or the
    checkbox), a submit whose remaining controls are valid goes past the
    validation ([validateForm] skips a missing control) and fails in
    [performLogin] before anything is sent: the alert reads "An unexpected
    error occurred. Please try again.", the console gets one line, the
    store and the clock are as they were and no redirect is set up. *)
Theorem handleSubmit_missing_control (elapsed : Z) (p : Page) (w : World) :
  isSubmitting p = false ->
  readCredentials (form p) = None ->
  fst (validateForm (form p)) = true ->
  exists p',
    handleSubmit elapsed p w
    = (Returned p',
       mkWorld (localStorage w) (clock w) (trace w ++ [EvConsoleError "Login error:"]))
    /\ loginAlert p'
       = loginAlert (showAlert "An unexpected error occurred. Please try again."
                       "danger" p)
    /\ redirect p' = redirect p
    /\ isSubmitting p' = false.
Proof.
  intros Hidle Hnone Hok.
  rewrite (handleSubmit_run elapsed p w Hidle), Hok.
  rewrite (performLogin_missing elapsed (setForm (snd (validateForm (form p))) p) w
             (readCredentials_validateForm_None (form p) Hnone)).
  eexists. split; [reflexivity|].
  unfold showAlert. simpl. destruct (loginAlert p); repeat split.
Qed.

Lemma handleSubmit_missing_control_witness :
  let p := mkPage
             (mkForm None (Some (fieldOf PasswordField "abcdef"))
                     (Some (fieldOf SelectField "hr")) (Some true))
             [] false None None None None "fas fa-eye" None in
  exists p',
    handleSubmit 900 p (mkWorld ∅ 7 [])
    = (Returned p', mkWorld ∅ 7 [EvConsoleError "Login error:"]).
Proof.
  intros p.
  destruct (handleSubmit_missing_control 900 p (mkWorld ∅ 7 []))
    as (p' & Hrun & _); [reflexivity | reflexivity | reflexivity |].
  exists p'. exact Hrun.
Defined.

Lemma loadRememberedCredentials_run (assignSelect : string -> Field -> Field)
    (f : Form) (w : World) :
  loadRememberedCredentials assignSelect f w
  = (Returned
       (match seen REMEMBER_ME w with
        | Some v =>
            mkForm (setValue (rememberedUsername v) <$> usernameInput f)
                   (passwordInput f)
                   (assignSelect (rememberedDepartment v) <$> departmentSelect f)
                   ((fun _ => true) <$> rememberMeCheckbox f)
        | None => f
        end), after (Utils.storage.get REMEMBER_ME) w).
Proof.
  unfold loadRememberedCredentials, mbind, M_bind. rewrite get_seen.
  now destruct (seen REMEMBER_ME w).
Qed.

(** X18. After a successful login with remember-me set whose write of the
    remembered login the browser took, the login page loaded next, when
    its read of the key does not throw, puts the username of the
    credentials into the username box, hands their department to the
    select, ticks the checkbox and leaves the password box alone; the
    store is only read. *)
Theorem remembered_login_prefills (elapsed : Z) (c : Credentials) (w : World)
    (r : LoginResult) (assignSelect : string -> Field -> Field) (f : Form) :
  outcome (loginUser elapsed c) w = Returned r ->
  login_success r = true ->
  rememberMe c = true ->
  accepted REMEMBER_ME (StoredRemember (username c) (department c)) w = true ->
  getItemThrows (localStorage w) REMEMBER_ME = false ->
  let w' := after (loginUser elapsed c) w in
  loadRememberedCredentials assignSelect f w'
  = (Returned
       (mkForm (setValue (username c) <$> usernameInput f)
               (passwordInput f)
               (assignSelect (department c) <$> departmentSelect f)
               ((fun _ => true) <$> rememberMeCheckbox f)),
     w').
Proof.
  intros Hout Hsucc Hrm Hacc Hread w'.
  destruct (loginUser_success_inv elapsed c w r Hout Hsucc) as (Hu & Hp & Hd).
  rewrite loadRememberedCredentials_run.
  assert (seen REMEMBER_ME w'
          = Some (StoredRemember (username c) (department c))) as Hseen.
  { unfold w', after. rewrite (loginUser_accepts elapsed c w Hu Hp Hd). simpl.
    destruct (loggedInWorld_remember elapsed c w) as (Hstore & _ & Hget).
    unfold seen. rewrite Hget, Hread, Hstore, Hrm, Hacc. reflexivity. }
  rewrite Hseen, (after_get_seen _ _ _ Hseen). reflexivity.
Qed.

Lemma remembered_login_prefills_witness :
  outcome
    (loadRememberedCredentials setValue
       (mkForm (Some (fieldOf TextField "")) (Some (fieldOf PasswordField ""))
               (Some (fieldOf SelectField "")) (Some false)))
    (after (loginUser 1000 (mkCredentials "alice" "abcdef" "hr" true)) (mkWorld ∅ 0 []))
  = Returned
      (mkForm (Some (fieldOf TextField "alice")) (Some (fieldOf PasswordField ""))
              (Some (fieldOf SelectField "hr")) (Some true)).
Proof.
  unfold outcome.
  rewrite (remembered_login_prefills 1000 (mkCredentials "alice" "abcdef" "hr" true)
             (mkWorld ∅ 0 [])
             (loginSuccess (buildUser (mkCredentials "alice" "abcdef" "hr" true) 1000))
             setValue);
    reflexivity.
Defined.

(** X19. A login without remember-me, accepted or refused, changes
    nothing in what the next login page prefills: the form
    [loadRememberedCredentials] produces is the one it would have produced
    before the login, so an earlier remembered username stays. *)
Theorem login_without_remember_keeps_prefill (elapsed : Z) (c : Credentials) (w : World)
    (assignSelect : string -> Field -> Field) (f : Form) :
  rememberMe c = false ->
  outcome (loadRememberedCredentials assignSelect f) (after (loginUser elapsed c) w)
  = outcome (loadRememberedCredentials assignSelect f) w.
Proof.
  intros Hrm. unfold outcome. rewrite !loadRememberedCredentials_run. simpl.
  assert (seen REMEMBER_ME (after (loginUser elapsed c) w) = seen REMEMBER_ME w)
    as ->; [|reflexivity].
  unfold after. rewrite loginUser_run.
  repeat match goal with
         | |- context [if ?b then _ else _] => destruct b
         end; try reflexivity.
  destruct (loggedInWorld_remember elapsed c w) as (Hstore & _ & Hget).
  unfold seen. simpl. rewrite Hget, Hstore, Hrm. reflexivity.
Qed.

Lemma login_without_remember_keeps_prefill_witness :
  outcome
    (loadRememberedCredentials setValue
       (mkForm (Some (fieldOf TextField "")) None None (Some false)))
    (after (loginUser 1000 (mkCredentials "alice" "abcdef" "hr" false))
       (mkWorld {[ REMEMBER_ME := StoredRemember "bob" "it" ]} 0 []))
  = Returned (mkForm (Some (fieldOf TextField "bob")) None None (Some true)).
Proof.
  rewrite (login_without_remember_keeps_prefill 1000
             (mkCredentials "alice" "abcdef" "hr" false)
             (mkWorld {[ REMEMBER_ME := StoredRemember "bob" "it" ]} 0 [])
             setValue _ eq_refl).
  reflexivity.
Defined.

End LoginPage.

(* ===================================================================== *)
(** ** Page detection                                                     *)
(* ===================================================================== *)

Section PageDetection.

Import JsString App.

Lemma split_lacks (file : string) : lacks "/" file = true -> split "/" file = [file].
Proof.
  induction file as [|c file IH]; [reflexivity|]. simpl.
  destruct (ascii_dec c "/"); [discriminate|]. simpl. intros H.
  now rewrite (IH H).
Qed.

(** The pieces of a path end with what follows its last slash. *)
Lemma split_last_piece (dir file : string) :
  lacks "/" file = true ->
  exists first rest, split "/" (dir ++ "/" ++ file) = (first :: rest ++ [file])%list.
Proof.
  intros Hfile. induction dir as [|c dir (first & rest & IH)].
  - exists "", []. change ("" ++ "/" ++ file) with (String "/" file).
    simpl. now rewrite (split_lacks file Hfile).
  - rewrite append_cons. simpl. rewrite IH. destruct (ascii_dec c "/").
    + exists "", (first :: rest). reflexivity.
    + exists (String c first), rest. reflexivity.
Qed.

Lemma includes_login_default : includes "index.html" "login" = false.
Proof. reflexivity. Qed.

(** X20. [detectCurrentPage] looks only at what follows the last slash of
    the path: the page is the login page exactly when that part contains
    "login", whatever the directories are called, and a path that ends in
    a slash is the dashboard. *)
Theorem detectCurrentPage_last_segment (dir file : string) :
  lacks "/" file = true ->
  detectCurrentPage (dir ++ "/" ++ file)
  = (if includes file "login" then "login" else "dashboard")
  /\ detectCurrentPage file
     = (if includes file "login" then "login" else "dashboard")
  /\ detectCurrentPage (dir ++ "/") = "dashboard".
Proof.
  intros Hfile.
  assert (forall path,
            pop (split "/" path) = Some file ->
            detectCurrentPage path
            = (if includes file "login" then "login" else "dashboard")) as Hpop.
  { intros path Hp. unfold detectCurrentPage. rewrite Hp.
    destruct file; [reflexivity|]. reflexivity. }
  split; [|split].
  - apply Hpop. destruct (split_last_piece dir file Hfile) as (first & rest & ->).
    unfold pop. rewrite app_comm_cons. apply last_snoc.
  - apply Hpop. now rewrite (split_lacks file Hfile).
  - destruct (split_last_piece dir "" eq_refl) as (first & rest & Hs).
    rewrite append_empty_r in Hs. unfold detectCurrentPage. rewrite Hs.
    unfold pop. rewrite app_comm_cons, last_snoc. reflexivity.
Qed.

Lemma detectCurrentPage_last_segment_witness :
  detectCurrentPage "/login/index.html" = "dashboard"
  /\ detectCurrentPage "/mega/my-login.html" = "login".
Proof.
  split.
  - apply (detectCurrentPage_last_segment "/login" "index.html"). reflexivity.
  - apply (detectCurrentPage_last_segment "/mega" "my-login.html"). reflexivity.
Defined.

End PageDetection.

(* ===================================================================== *)
(** ** More on the search filter                                          *)
(* ===================================================================== *)

Section SearchFilterLaws.

Import JsString Dashboard.

Lemma substringOf_trans (a b c : string) :
  substringOf a b -> substringOf b c -> substringOf a c.
Proof.
  intros (x & y & ->) (x' & y' & ->). exists (x' ++ x), (y ++ y').
  now rewrite !append_assoc.
Qed.

Lemma filter_sublist_impl {A} (f g : A -> bool) (l : list A) :
  (forall x, f x = true -> g x = true) ->
  List.filter f l `sublist_of` List.filter g l.
Proof.
  intros Himp. induction l as [|x l IH]; simpl; [constructor|].
  destruct (f x) eqn:F.
  - rewrite (Himp x F). now constructor.
  - destruct (g x); [now constructor | exact IH].
Qed.

(** X21. A longer query narrows the result: when the query of one search
    (trimmed, lower-cased) occurs in the query of another, every record
    the second keeps is kept by the first, in the same order. *)
Theorem searchFilter_narrows (D : list DepartmentRecord) (raw raw' : string) :
  substringOf (toLowerCase (trim raw)) (toLowerCase (trim raw')) ->
  searchFilter D raw' `sublist_of` searchFilter D raw.
Proof.
  intros Hsub. rewrite !searchFilter_filter, !trim_toLowerCase.
  apply filter_sublist_impl. intros dept.
  rewrite !matchesQuery_survives. unfold survives.
  intros [H | [H | H]]; [left | right; left | right; right];
    exact (substringOf_trans _ _ _ Hsub H).
Qed.

Lemma searchFilter_narrows_witness :
  searchFilter MOCK_DEPARTMENTS " Environment" `sublist_of`
  searchFilter MOCK_DEPARTMENTS "ENV".
Proof.
  apply (searchFilter_narrows MOCK_DEPARTMENTS "ENV" " Environment").
  exists "", "ironment". reflexivity.
Defined.

End SearchFilterLaws.

Section CrossPageWitness.

Import ApiService CONFIG.STORAGE_KEYS.

Lemma login_page_reuses_dashboard_cache_witness :
  let dash := Dashboard.mkPage (Dashboard.mkState "" [] [] None) None None in
  let p := samplePage "" "" "" false in
  let w := mkWorld ∅ 1000 [] in
  let w2 := mkWorld (localStorage (after (Dashboard.loadDepartments 800 dash) w))
              200000 (trace (after (Dashboard.loadDepartments 800 dash) w)) in
  exists p', LoginManager.loadDepartments 600 p w2 = (Returned p', w2)
             /\ map fst (LoginManager.departmentOptions p')
                = ("" :: map dept_id MOCK_DEPARTMENTS).
Proof.
  intros dash p w w2.
  destruct (login_page_reuses_dashboard_cache 800 600 200000 dash p w
              (LoginManager.fieldOf LoginManager.SelectField ""))
    as (dash' & p' & Hout & Hrun & Hoptions);
    [reflexivity | reflexivity | reflexivity | reflexivity | reflexivity |].
  exists p'. split; [exact Hrun|]. rewrite Hoptions.
  injection Hout as <-. reflexivity.
Defined.

End CrossPageWitness.

(* ===================================================================== *)
(** ** The address pattern                                                *)
(* ===================================================================== *)

Section EmailPattern.

Import JsString Utils.

Lemma append_empty_inv (s t : string) : s ++ t = "" -> s = "" /\ t = "".
Proof. destruct s; [simpl; auto | discriminate]. Qed.

Lemma Matches_Never_inv (s : string) : ~ Matches Never s.
Proof. intros H. inversion H. Qed.

Lemma Matches_Empty_inv (s : string) : Matches Empty s -> s = "".
Proof. intros H. now inversion H. Qed.

Lemma Matches_Class_inv accept (s : string) :
  Matches (Class accept) s -> exists c, s = String c "" /\ accept c = true.
Proof. intros H. inversion H; subst. eauto. Qed.

Lemma Matches_Seq_inv (r1 r2 : RegExp) (s : string) :
  Matches (Seq r1 r2) s ->
  exists s1 s2, s = s1 ++ s2 /\ Matches r1 s1 /\ Matches r2 s2.
Proof. intros H. inversion H; subst. eauto. Qed.

Lemma Matches_Alt_inv (r1 r2 : RegExp) (s : string) :
  Matches (Alt r1 r2) s -> Matches r1 s \/ Matches r2 s.
Proof. intros H. inversion H; subst; auto. Qed.

Lemma nullable_Matches (r : RegExp) : nullable r = true <-> Matches r "".
Proof.
  induction r as [| |accept|r1 IH1 r2 IH2|r1 IH1 r2 IH2|r IH]; simpl.
  - split; [discriminate | intros H; now apply Matches_Never_inv in H].
  - split; [constructor | reflexivity].
  - split; [discriminate|].
    intros H. apply Matches_Class_inv in H as (c & E & _). discriminate.
  - rewrite andb_true_iff, IH1, IH2. split.
    + intros [H1 H2]. exact (MatchSeq _ _ "" "" H1 H2).
    + intros H. apply Matches_Seq_inv in H as (s1 & s2 & E & H1 & H2).
      symmetry in E. apply append_empty_inv in E as [-> ->]. auto.
  - rewrite orb_true_iff, IH1, IH2. split.
    + intros [H|H]; [now apply MatchAltL | now apply MatchAltR].
    + apply Matches_Alt_inv.
  - split; [constructor | reflexivity].
Qed.

(** Matching a repetition on a string that starts with [c]: the first
    round that consumes something starts with [c]. *)
Lemma Matches_Star_cons (r : RegExp) (c : ascii) (s : string) :
  Matches (Star r) (String c s) ->
  exists s1 s2, s = s1 ++ s2 /\ Matches r (String c s1) /\ Matches (Star r) s2.
Proof.
  intros H. remember (Star r) as q eqn:Eq. remember (String c s) as t eqn:Et.
  revert s Et. induction H as [| | | | | |r' s1 s2 H1 _ H2 IH2]; try discriminate.
  injection Eq as ->. intros s Et. destruct s1 as [|a s1].
  - apply IH2; [reflexivity | exact Et].
  - rewrite append_cons in Et. injection Et as Ea Es. subst. eauto.
Qed.

Lemma Matches_Seq_cons (r1 r2 : RegExp) (c : ascii) (s : string) :
  Matches (Seq r1 r2) (String c s)
  <-> (exists s1 s2, s = s1 ++ s2 /\ Matches r1 (String c s1) /\ Matches r2 s2)
      \/ (Matches r1 "" /\ Matches r2 (String c s)).
Proof.
  split.
  - intros H. apply Matches_Seq_inv in H as (s1 & s2 & E & H1 & H2).
    destruct s1 as [|a s1].
    + right. rewrite append_empty_l in E. subst. auto.
    + left. rewrite append_cons in E. injection E as Ea Es. subst. eauto.
  - intros [(s1 & s2 & -> & H1 & H2) | [H1 H2]].
    + exact (MatchSeq _ _ (String c s1) s2 H1 H2).
    + exact (MatchSeq _ _ "" (String c s) H1 H2).
Qed.

Lemma derive_Matches (r : RegExp) (c : ascii) (s : string) :
  Matches (derive c r) s <-> Matches r (String c s).
Proof.
  revert s. induction r as [| |accept|r1 IH1 r2 IH2|r1 IH1 r2 IH2|r IH];
    intros s; simpl.
  - split; intros H; now apply Matches_Never_inv in H.
  - split; intros H; [now apply Matches_Never_inv in H|].
    apply Matches_Empty_inv in H. discriminate.
  - destruct (accept c) eqn:A; split; intros H.
    + apply Matches_Empty_inv in H as ->. now constructor.
    + apply Matches_Class_inv in H as (c' & E & _).
      injection E as Ec Es. subst. constructor.
    + now apply Matches_Never_inv in H.
    + apply Matches_Class_inv in H as (c' & E & A').
      injection E as Ec Es. subst. congruence.
  - assert (Matches (Seq (derive c r1) r2) s
            <-> exists s1 s2, s = s1 ++ s2 /\ Matches r1 (String c s1) /\ Matches r2 s2)
      as Hfirst.
    { split.
      - intros H. apply Matches_Seq_inv in H as (s1 & s2 & -> & H1 & H2).
        exists s1, s2. rewrite <- IH1. auto.
      - intros (s1 & s2 & -> & H1 & H2). constructor; [now apply IH1 | exact H2]. }
    rewrite Matches_Seq_cons. destruct (nullable r1) eqn:N.
    + split.
      * intros H. apply Matches_Alt_inv in H as [H|H].
        -- left. now apply Hfirst.
        -- right. split; [now apply nullable_Matches | now apply IH2].
      * intros [H | [_ H]].
        -- apply MatchAltL. now apply Hfirst.
        -- apply MatchAltR. now apply IH2.
    + rewrite Hfirst. split; [auto|]. intros [H | [H _]]; [exact H|].
      apply nullable_Matches in H. congruence.
  - split; intros H; apply Matches_Alt_inv in H as [H|H].
    + apply MatchAltL. now apply IH1.
    + apply MatchAltR. now apply IH2.
    + apply MatchAltL. now apply IH1.
    + apply MatchAltR. now apply IH2.
  - split.
    + intros H. apply Matches_Seq_inv in H as (s1 & s2 & -> & H1 & H2).
      apply IH in H1. exact (MatchStarMore r (String c s1) s2 H1 H2).
    + intros H. apply Matches_Star_cons in H as (s1 & s2 & -> & H1 & H2).
      constructor; [now apply IH | exact H2].
Qed.

(** The matcher decides the pattern. *)
Lemma test_Matches (r : RegExp) (s : string) : test r s = true <-> Matches r s.
Proof.
  revert r. induction s as [|c s IH]; intros r; simpl.
  - apply nullable_Matches.
  - rewrite IH. apply derive_Matches.
Qed.

Lemma Matches_Star_plain (s : string) :
  Matches (Star (Class notSpaceNorAt)) s <-> allPlain s = true.
Proof.
  split.
  - intros H. remember (Star (Class notSpaceNorAt)) as q eqn:Eq.
    induction H as [| | | | | |r s1 s2 H1 _ H2 IH2]; try discriminate.
    + reflexivity.
    + injection Eq as ->. apply Matches_Class_inv in H1 as (c & -> & A).
      rewrite append_cons, append_empty_l. simpl. rewrite A. now apply IH2.
  - induction s as [|c s IH]; simpl; [constructor|].
    intros [A Hs]%andb_true_iff.
    exact (MatchStarMore _ (String c "") s (MatchClass _ c A) (IH Hs)).
Qed.

Lemma Matches_Plus_plain (s : string) :
  Matches (Plus (Class notSpaceNorAt)) s <-> plainPart s = true.
Proof.
  unfold Plus, plainPart. split.
  - intros H. apply Matches_Seq_inv in H as (s1 & s2 & -> & H1 & H2).
    apply Matches_Class_inv in H1 as (c & -> & A).
    apply Matches_Star_plain in H2. rewrite append_cons, append_empty_l. simpl.
    now rewrite A, H2.
  - destruct s as [|c s]; [discriminate|]. simpl.
    intros [A Hs]%andb_true_iff.
    exact (MatchSeq _ _ (String c "") s (MatchClass _ c A)
             (proj2 (Matches_Star_plain s) Hs)).
Qed.

Lemma Matches_literal (a : ascii) (s : string) :
  Matches (Class (literal a)) s <-> s = String a "".
Proof.
  split.
  - intros H. apply Matches_Class_inv in H as (c & -> & A).
    unfold literal in A. destruct (ascii_dec c a); [now subst | discriminate].
  - intros ->. constructor. unfold literal. now destruct (ascii_dec a a).
Qed.

Lemma emailRegex_parts (email : string) :
  isValidEmail email = true ->
  exists local domain tail,
    email = local ++ "@" ++ domain ++ "." ++ tail
    /\ plainPart local = true /\ plainPart domain = true /\ plainPart tail = true.
Proof.
  unfold isValidEmail. rewrite test_Matches. unfold emailRegex. intros H.
  apply Matches_Seq_inv in H as (a & s1 & -> & Ha & H).
  apply Matches_Seq_inv in H as (at1 & s2 & -> & Hat & H).
  apply Matches_Seq_inv in H as (b & s3 & -> & Hb & H).
  apply Matches_Seq_inv in H as (dot & c & -> & Hdot & Hc).
  apply Matches_literal in Hat as ->. apply Matches_literal in Hdot as ->.
  exists a, b, c. rewrite <- !Matches_Plus_plain. auto.
Qed.

Lemma emailRegex_accepts_session (local : string) :
  plainPart local = true -> isValidEmail (local ++ "@megaproject.com") = true.
Proof.
  intros Ha. unfold isValidEmail. rewrite test_Matches. unfold emailRegex.
  rewrite <- Matches_Plus_plain in Ha.
  change "@megaproject.com" with ("@" ++ "megaproject" ++ "." ++ "com").
  repeat (constructor;
          [assumption || (now apply Matches_literal)
           || (now apply Matches_Plus_plain) |]).
  now apply Matches_Plus_plain.
Qed.

(** X23. [isValidEmail] accepts exactly the strings of the form
    [local @ domain . tail] in which the three parts are not empty and
    hold neither white space nor "@" (the domain and the tail may hold
    further dots). *)
Theorem isValidEmail_shape (email : string) :
  isValidEmail email = true
  <-> exists local domain tail,
        email = local ++ "@" ++ domain ++ "." ++ tail
        /\ plainPart local = true /\ plainPart domain = true /\ plainPart tail = true.
Proof.
  split; [apply emailRegex_parts|].
  intros (a & b & c & -> & Ha & Hb & Hc).
  unfold isValidEmail. rewrite test_Matches. unfold emailRegex.
  rewrite <- Matches_Plus_plain in Ha, Hb, Hc.
  repeat (constructor; [assumption || (now apply Matches_literal) |]).
  exact Hc.
Qed.

Example isValidEmail_alice : isValidEmail "alice@megaproject.com" = true.
Proof. reflexivity. Qed.

Example isValidEmail_no_dot : isValidEmail "alice@localhost" = false.
Proof. reflexivity. Qed.

Example isValidEmail_two_ats : isValidEmail "a@b@c.d" = false.
Proof. reflexivity. Qed.

Example isValidEmail_space : isValidEmail "al ice@megaproject.com" = false.
Proof. reflexivity. Qed.

Lemma lacks_append (c : ascii) (s t : string) :
  lacks c (s ++ t) = lacks c s && lacks c t.
Proof.
  induction s as [|a s IH]; [reflexivity|]. rewrite append_cons. simpl.
  rewrite IH. now rewrite andb_assoc.
Qed.

Lemma allPlain_lacks (s : string) : allPlain s = true -> lacks "@" s = true.
Proof.
  induction s as [|c s IH]; [reflexivity|]. simpl.
  intros [A Hs]%andb_true_iff. unfold notSpaceNorAt in A.
  destruct (ascii_dec c "@"); [now rewrite andb_false_r in A|]. simpl. auto.
Qed.

Lemma lacks_self (c : ascii) (s t : string) : lacks c (s ++ String c t) = false.
Proof.
  rewrite lacks_append. simpl. destruct (ascii_dec c c); [|contradiction].
  apply andb_false_r.
Qed.

(** The part before the last "@" is determined. *)
Lemma before_last_at (u a m t : string) :
  lacks "@" m = true -> lacks "@" t = true ->
  u ++ String "@" m = a ++ String "@" t -> u = a.
Proof.
  intros Hm Ht. revert a. induction u as [|c u IH]; intros [|d a] E.
  - reflexivity.
  - rewrite append_empty_l, append_cons in E. injection E as _ E.
    rewrite E in Hm. now rewrite lacks_self in Hm.
  - rewrite append_empty_l, append_cons in E. injection E as _ E.
    rewrite <- E in Ht. now rewrite lacks_self in Ht.
  - rewrite !append_cons in E. injection E as -> E. f_equal. now apply IH.
Qed.

(** X24. The address [loginUser] makes up for a session passes
    [isValidEmail] exactly when the username holds neither white space nor
    "@": a login the form accepts can carry an address the script's own
    check refuses. *)
Theorem session_email_valid_iff (elapsed : Z) (c : Credentials) (w : World)
    (user : SessionUser) :
  outcome (ApiService.loginUser elapsed c) w = Returned (loginSuccess user) ->
  isValidEmail (su_email user) = allPlain (username c).
Proof.
  intros Hout.
  destruct (loginUser_success_inv elapsed c w _ Hout eq_refl) as (Hu & Hp & Hd).
  unfold outcome in Hout. rewrite (loginUser_accepts elapsed c w Hu Hp Hd) in Hout.
  injection Hout as <-. simpl.
  assert (truthy (username c) = true) as Hne by (apply truthy_length; lia).
  destruct (allPlain (username c)) eqn:Hplain.
  - apply emailRegex_accepts_session. unfold plainPart. now rewrite Hne, Hplain.
  - destruct (isValidEmail (username c ++ "@megaproject.com")) eqn:V; [|reflexivity].
    apply emailRegex_parts in V as (a & b & t & E & Ha & Hb & Ht).
    assert (username c = a) as Eua.
    { apply (before_last_at _ _ "megaproject.com" (b ++ "." ++ t));
        [reflexivity | | exact E].
      unfold plainPart in Hb, Ht.
      apply andb_true_iff in Hb as [_ Hb]. apply andb_true_iff in Ht as [_ Ht].
      rewrite lacks_append, (allPlain_lacks b Hb).
      change ("." ++ t) with (String "." t). simpl.
      now rewrite (allPlain_lacks t Ht). }
    unfold plainPart in Ha. apply andb_true_iff in Ha as [_ Ha]. congruence.
Qed.

Lemma session_email_valid_iff_witness :
  isValidEmail "al ice@megaproject.com" = false.
Proof.
  exact (session_email_valid_iff 1000 (mkCredentials "al ice" "abcdef" "hr" false)
           (mkWorld ∅ 0 [])
           (ApiService.buildUser (mkCredentials "al ice" "abcdef" "hr" false) 1000)
           eq_refl).
Defined.

End EmailPattern.
